(** * Release manager: assets, versions and manifests

    A shallow embedding of [script/release_manager.py], the proofs of the
    properties its specification states, and further properties of the
    code: its edge cases, what it leaves untouched and how its parts
    compose.

    Python values are modelled as follows: [str] and [bytes] are Rocq
    strings (sequences of 8-bit characters), [int] is [Z], a list is a
    [list], a dict that is only looked up is a [gmap], a dict that is
    iterated is an association list in insertion order, and an exception
    is a value of [exn] carried by [outcome]. *)

From Stdlib Require Import ZArith Ascii String List Bool Lia Sorted.
From Stdlib Require Import DecimalString DecimalZ.
From stdpp Require Import base option list gmap strings.

Set Warnings "-register-all".

(** stdpp keeps [simpl] from unfolding the append of strings; the keys of
    the bucket are literal prefixes appended to names, so it is let
    through again. *)
#[global] Arguments String.append !_ _ / : simpl nomatch.

Open Scope string_scope.
Open Scope Z_scope.

(** ** Exceptions and the two monads of the embedding *)

Inductive exn : Type :=
| ValueError (msg : string)
| KeyError (key : string)
| IndexError
| NameError (name : string)
| FileExistsError (path : string)
| FileNotFoundError (path : string)
| NotADirectoryError (path : string)
| IsADirectoryError (path : string)
| JSONDecodeError
| NoSuchKey (key : string).

Inductive outcome (A : Type) : Type :=
| Ret (a : A)
| Raise (e : exn).
Arguments Ret {A} a.
Arguments Raise {A} e.

Definition obind {A B} (m : outcome A) (k : A -> outcome B) : outcome B :=
  match m with
  | Ret a => k a
  | Raise e => Raise e
  end.

Notation "'let*' x ':=' m 'in' k" := (obind m (fun x => k))
  (at level 10, x pattern, m at level 100, k at level 200).

(** Code that also changes a state [S] (the bucket, the file system): the
    state reached is kept when an exception is raised. *)
Definition stateful (S A : Type) : Type := S -> outcome A * S.

Definition sret {S A} (a : A) : stateful S A := fun s => (Ret a, s).

Definition sraise {S A} (e : exn) : stateful S A := fun s => (Raise e, s).

Definition lift {S A} (m : outcome A) : stateful S A := fun s => (m, s).

Definition sbind {S A B} (m : stateful S A) (k : A -> stateful S B) : stateful S B :=
  fun s =>
    match m s with
    | (Ret a, s') => k a s'
    | (Raise e, s') => (Raise e, s')
    end.

Notation "'let!' x ':=' m 'in' k" := (sbind m (fun x => k))
  (at level 10, x pattern, m at level 100, k at level 200).

Fixpoint omap {A B} (f : A -> outcome B) (l : list A) : outcome (list B) :=
  match l with
  | [] => Ret []
  | x :: l' => let* y := f x in let* ys := omap f l' in Ret (y :: ys)
  end.

(** ** Python strings *)

Module PyStr.

(** [s[:n]] *)
Fixpoint take (n : nat) (s : string) : string :=
  match n, s with
  | S n', String c s' => String c (take n' s')
  | _, _ => EmptyString
  end.

(** [s[n:]] *)
Fixpoint drop (n : nat) (s : string) : string :=
  match n, s with
  | S n', String _ s' => drop n' s'
  | _, _ => s
  end.

(** [s[-n:]] for a positive literal [n] *)
Definition last (n : nat) (s : string) : string :=
  drop (String.length s - n) s.

(** [s[:-n]] for a positive literal [n] *)
Definition but_last (n : nat) (s : string) : string :=
  take (String.length s - n) s.

(** [s.startswith(p)] *)
Fixpoint startswith (p s : string) : bool :=
  match p, s with
  | EmptyString, _ => true
  | String a p', String b s' => Ascii.eqb a b && startswith p' s'
  | String _ _, EmptyString => false
  end.

(** [p in s] *)
Fixpoint contains (p s : string) : bool :=
  startswith p s ||
  match s with
  | EmptyString => false
  | String _ s' => contains p s'
  end.

(** [s.split(sep)] for a one-character separator *)
Fixpoint split (sep : ascii) (s : string) : list string :=
  match s with
  | EmptyString => [EmptyString]
  | String c s' =>
      if Ascii.eqb c sep then EmptyString :: split sep s'
      else match split sep s' with
           | w :: ws => String c w :: ws
           | [] => [String c EmptyString]
           end
  end.

(** [sep.join(l)] *)
Fixpoint join (sep : string) (l : list string) : string :=
  match l with
  | [] => EmptyString
  | [w] => w
  | w :: l' => w ++ sep ++ join sep l'
  end.

(** [s.rfind(c)] for a one-character needle: [None] stands for [-1]. *)
Fixpoint rfind (c : ascii) (s : string) : option nat :=
  match s with
  | EmptyString => None
  | String a s' =>
      match rfind c s' with
      | Some i => Some (S i)
      | None => if Ascii.eqb a c then Some 0%nat else None
      end
  end.

Definition lower_char (c : ascii) : ascii :=
  let n := nat_of_ascii c in
  if (65 <=? n)%nat && (n <=? 90)%nat then ascii_of_nat (n + 32) else c.

(** [s.lower()] on the ASCII range *)
Fixpoint lower (s : string) : string :=
  match s with
  | EmptyString => EmptyString
  | String c s' => String (lower_char c) (lower s')
  end.

Definition is_digit (c : ascii) : bool :=
  let n := nat_of_ascii c in (48 <=? n)%nat && (n <=? 57)%nat.

(** The ASCII characters [int()] strips: space, tab, newline, vertical
    tab, form feed, carriage return and the four separators 28 to 31. *)
Definition is_space (c : ascii) : bool :=
  let n := nat_of_ascii c in
  (n =? 32)%nat || ((9 <=? n)%nat && (n <=? 13)%nat) || ((28 <=? n)%nat && (n <=? 31)%nat).

Fixpoint lstrip (s : string) : string :=
  match s with
  | String c s' => if is_space c then lstrip s' else s
  | EmptyString => EmptyString
  end.

Fixpoint rstrip (s : string) : string :=
  match s with
  | EmptyString => EmptyString
  | String c s' =>
      match rstrip s' with
      | EmptyString => if is_space c then EmptyString else String c EmptyString
      | r => String c r
      end
  end.

(** Digit groups of an integer literal: single underscores are allowed
    between two digits and dropped. [after_digit] tells whether the
    previous character was a digit. *)
Fixpoint digit_groups (after_digit : bool) (s : string) : option string :=
  match s with
  | EmptyString => if after_digit then Some EmptyString else None
  | String c s' =>
      if is_digit c then String c <$> digit_groups true s'
      else if Ascii.eqb c "_" && after_digit then digit_groups false s'
      else None
  end.

(** [int(s)] for a [str] argument, base 10; [None] is [ValueError]. *)
Definition int (s : string) : option Z :=
  let t := rstrip (lstrip s) in
  let '(sign, body) :=
    match t with
    | String "-" r => (-1, r)
    | String "+" r => (1, r)
    | _ => (1, t)
    end in
  ds ← digit_groups false body;
  u ← NilZero.uint_of_string ds;
  Some (sign * Z.of_uint u).

(** [str(z)] *)
Definition str (z : Z) : string := NilZero.string_of_int (Z.to_int z).

(** [re.match(r'[0-9]+', s)]: the rest of [s] after its longest non-empty
    run of leading digits. *)
Fixpoint skip_digits_opt (s : string) : string :=
  match s with
  | String c s' => if is_digit c then skip_digits_opt s' else s
  | EmptyString => EmptyString
  end.

Definition skip_digits (s : string) : option string :=
  match s with
  | String c s' => if is_digit c then Some (skip_digits_opt s') else None
  | EmptyString => None
  end.

Definition skip_dot (s : string) : option string :=
  match s with
  | String "." s' => Some s'
  | _ => None
  end.

(** [re.match(r'[0-9]+[.][0-9]+[.][0-9]+', s)] as a truth value. [re.match]
    anchors the pattern at the start of [s] only. *)
Definition match_version (s : string) : bool :=
  match
    s1 ← skip_digits s; s2 ← skip_dot s1; s3 ← skip_digits s2;
    s4 ← skip_dot s3; skip_digits s4
  with
  | Some _ => true
  | None => false
  end.

End PyStr.

(** ** The remote store *)

(** One object of the bucket as a listing yields it and as [get()] returns
    it: [ContentLength] is the length of [Body]; [Metadata_version] is the
    ['version'] entry of ['Metadata'], written by every upload of
    [update_asset]. *)
Record S3Object : Type := mkS3Object {
  Key : string;
  Body : string;
  ContentType : string;
  ContentEncoding : option string;
  Metadata_version : string;
  VersionId : string;
}.

Definition ContentLength (o : S3Object) : Z := Z.of_nat (String.length (Body o)).

(** ** Version of the next config *)

(** The [for element in range(len(item_version))] loop of
    [get_most_recent_config]: [Ret true] when the loop adopts
    [item_version] (and breaks), [Ret false] when it ends without. *)
Fixpoint adopts (element : nat) (todo max_version : list Z) : outcome bool :=
  match todo with
  | [] => Ret false
  | x :: todo' =>
      match max_version !! element with
      | None => Raise IndexError
      | Some m => if x >? m then Ret true else adopts (S element) todo' max_version
      end
  end.

Definition int_or_raise (s : string) : outcome Z :=
  match PyStr.int s with
  | Some z => Ret z
  | None => Raise (ValueError "invalid literal for int() with base 10")
  end.

(** [key[:7] == 'config/' and len(key) > 7], and the same for assets. *)
Definition is_config_key (key : string) : bool :=
  String.eqb (PyStr.take 7 key) "config/" && (7 <? String.length key)%nat.

Definition is_asset_key (key : string) : bool :=
  String.eqb (PyStr.take 7 key) "assets/" && (7 <? String.length key)%nat.

Definition item_version_of (key : string) : outcome (list Z) :=
  match PyStr.split "/" key !! 1%nat with
  | None => Raise IndexError
  | Some name => omap int_or_raise (firstn 3 (PyStr.split "." name))
  end.

(** The loop of [get_most_recent_config] over [bucket.objects.all()]; an
    item that is no config key is passed over. *)
Fixpoint most_recent_loop (objects : list S3Object) (max_version : list Z)
  : outcome (list Z) :=
  match objects with
  | [] => Ret max_version
  | item :: rest =>
      if negb (is_config_key (Key item)) then most_recent_loop rest max_version
      else
        let* item_version := item_version_of (Key item) in
        let* b := adopts 0 item_version max_version in
        most_recent_loop rest (if b : bool then item_version else max_version)
  end.

Definition get_most_recent_config (objects : list S3Object) : outcome (list Z) :=
  most_recent_loop objects [0; 0; 0].

(** [l[i] = f(l[i])], with the [IndexError] of a list that is too short. *)
Definition list_set (i : nat) (f : Z -> Z) (l : list Z) : outcome (list Z) :=
  match l !! i with
  | Some x => Ret (<[i := f x]> l)
  | None => Raise IndexError
  end.

Definition version_token_error : exn :=
  ValueError "`version` must be one of major, minor, patch, or match X.Y.Z".

Definition get_release_config_version (objects : list S3Object) (version : string)
  : outcome string :=
  if PyStr.match_version version then Ret version
  else
    let* last_version := get_most_recent_config objects in
    let* last_version :=
      (if String.eqb version "major" then
         let* l := list_set 0 (fun x => x + 1) last_version in
         let* l := list_set 1 (fun _ => 0) l in
         list_set 2 (fun _ => 0) l
       else if String.eqb version "minor" then
         let* l := list_set 1 (fun x => x + 1) last_version in
         list_set 2 (fun _ => 0) l
       else if String.eqb version "patch" then
         list_set 2 (fun x => x + 1) last_version
       else Raise version_token_error) in
    Ret (PyStr.join "." (map PyStr.str last_version)).

(** ** The local file system *)

(** A directory tree without links. The entries of a directory are kept in
    the order [os.listdir] yields them. *)
Inductive node : Type :=
| File (content : string)
| Dir (entries : list (string * node)).

(** [os.path.join(a, b)] *)
Definition path_join (a b : string) : string :=
  if PyStr.startswith "/" b then b
  else if String.eqb a "" || String.eqb (PyStr.last 1 a) "/" then a ++ b
  else a ++ "/" ++ b.

Fixpoint find_entry (name : string) (es : list (string * node)) : option node :=
  match es with
  | [] => None
  | (n, x) :: es' => if String.eqb n name then Some x else find_entry name es'
  end.

(** The node at a location, given as the names leading to it from the root. *)
Fixpoint node_at (n : node) (loc : list string) : option node :=
  match loc with
  | [] => Some n
  | c :: loc' =>
      match n with
      | Dir es => match find_entry c es with
                  | Some x => node_at x loc'
                  | None => None
                  end
      | File _ => None
      end
  end.

Definition is_dir_at (root : node) (loc : list string) : bool :=
  match node_at root loc with
  | Some (Dir _) => true
  | _ => false
  end.

(** Path resolution: the process runs in the root of the tree; empty and
    [.] components stay in place, [..] moves to the parent (the root is
    its own parent), and every component is taken from a directory. The
    result is the location the path names, which may not exist yet. The
    empty path names nothing. *)
Fixpoint walk (root : node) (loc : list string) (comps : list string)
  : option (list string) :=
  match comps with
  | [] => Some loc
  | c :: comps' =>
      if negb (is_dir_at root loc) then None
      else if String.eqb c "" || String.eqb c "." then walk root loc comps'
      else if String.eqb c ".." then walk root (removelast loc) comps'
      else walk root (loc ++ [c])%list comps'
  end.

Definition resolve (root : node) (path : string) : option (list string) :=
  if String.eqb path "" then None else walk root [] (PyStr.split "/" path).

Definition stat (root : node) (path : string) : option node :=
  loc ← resolve root path; node_at root loc.

(** [os.path.exists(path)] *)
Definition path_exists (root : node) (path : string) : bool :=
  match stat root path with Some _ => true | None => false end.

(** [os.path.getsize(path)]; only regular files are measured here. *)
Definition getsize (root : node) (path : string) : outcome Z :=
  match stat root path with
  | Some (File c) => Ret (Z.of_nat (String.length c))
  | Some (Dir _) => Raise (IsADirectoryError path)
  | None => Raise (FileNotFoundError path)
  end.

(** [open(path, 'rb').read()] *)
Definition read_file (root : node) (path : string) : outcome string :=
  match stat root path with
  | Some (File c) => Ret c
  | Some (Dir _) => Raise (IsADirectoryError path)
  | None => Raise (FileNotFoundError path)
  end.

(** [os.listdir(path)] together with the nodes listed *)
Definition listdir (root : node) (path : string) : outcome (list (string * node)) :=
  match stat root path with
  | Some (Dir es) => Ret es
  | Some (File _) => Raise (NotADirectoryError path)
  | None => Raise (FileNotFoundError path)
  end.

Fixpoint set_entry (name : string) (x : node) (es : list (string * node))
  : list (string * node) :=
  match es with
  | [] => [(name, x)]
  | (n, y) :: es' =>
      if String.eqb n name then (n, x) :: es' else (n, y) :: set_entry name x es'
  end.

(** The tree with [new] at [loc]; the directories above [loc] exist. *)
Fixpoint put_node (n : node) (loc : list string) (new : node) : node :=
  match loc with
  | [] => new
  | c :: loc' =>
      match n with
      | Dir es =>
          match loc', find_entry c es with
          | [], _ => Dir (set_entry c new es)
          | _, Some x => Dir (set_entry c (put_node x loc' new) es)
          | _, None => n
          end
      | File _ => n
      end
  end.

(** [os.makedirs(path)] with [exist_ok=False]: missing directories are
    made along the path; [made] tells whether the last named component was
    made by this call. *)
Fixpoint makedirs_walk (loc : list string) (made : bool) (comps : list string)
  (path : string) : stateful node unit :=
  fun root =>
  match comps with
  | [] => if made then (Ret tt, root) else (Raise (FileExistsError path), root)
  | c :: comps' =>
      if String.eqb c "" || String.eqb c "." then makedirs_walk loc made comps' path root
      else if String.eqb c ".." then makedirs_walk (removelast loc) false comps' path root
      else
        match node_at root (loc ++ [c])%list with
        | Some (Dir _) => makedirs_walk (loc ++ [c])%list false comps' path root
        | Some (File _) =>
            (Raise (match comps' with
                    | [] => FileExistsError path
                    | _ => NotADirectoryError path
                    end), root)
        | None =>
            makedirs_walk (loc ++ [c])%list true comps' path
              (put_node root (loc ++ [c])%list (Dir []))
        end
  end.

Definition makedirs (path : string) : stateful node unit :=
  if String.eqb path "" then sraise (FileNotFoundError path)
  else makedirs_walk [] false (PyStr.split "/" path) path.

(** [open(path, 'w')]: the file is created, or emptied when it exists. *)
Definition open_w (path : string) : stateful node unit :=
  fun root =>
  match resolve root path with
  | None => (Raise (FileNotFoundError path), root)
  | Some loc =>
      match loc, node_at root loc with
      | [], _ => (Raise (IsADirectoryError path), root)
      | _, Some (Dir _) => (Raise (IsADirectoryError path), root)
      | _, _ =>
          if is_dir_at root (removelast loc)
          then (Ret tt, put_node root loc (File ""))
          else (Raise (FileNotFoundError path), root)
      end
  end.

(** ** Scanning and classifying assets *)

Fixpoint insert_by_name (x : string * string) (l : list (string * string))
  : list (string * string) :=
  match l with
  | [] => [x]
  | y :: l' => if String.leb (snd x) (snd y) then x :: l else y :: insert_by_name x l'
  end.

(** [assets.sort(key=lambda s: s[1])]: the sort is stable. *)
Definition sort_by_name (l : list (string * string)) : list (string * string) :=
  foldr insert_by_name [] l.

(** The first loop of [get_all_assets]: the files of [asset_dir] kept. *)
Fixpoint kept_files (asset_dir : string) (es : list (string * node))
  : list (string * string) :=
  match es with
  | [] => []
  | (file, File _) :: es' =>
      if negb (PyStr.startswith "." file)
         && negb (PyStr.contains "config" (path_join asset_dir file))
      then (asset_dir, file) :: kept_files asset_dir es'
      else kept_files asset_dir es'
  | (_, Dir _) :: es' => kept_files asset_dir es'
  end.

(** [get_all_assets(asset_dir)] once [asset_dir] is known to be the
    directory [n]; the recursion follows the tree. *)
Fixpoint scan_node (asset_dir : string) (n : node) {struct n}
  : list (string * string) :=
  match n with
  | File _ => []
  | Dir es =>
      sort_by_name
        (kept_files asset_dir es ++
         (fix directories (l : list (string * node)) : list (string * string) :=
            match l with
            | [] => []
            | (file, File _) :: l' => directories l'
            | (file, d) :: l' => scan_node (path_join asset_dir file) d ++ directories l'
            end) es)%list
  end.

Definition get_all_assets (root : node) (asset_dir : string)
  : outcome (list (string * string)) :=
  let* es := listdir root asset_dir in
  Ret (scan_node asset_dir (Dir es)).

Definition ASSET_TYPES : list (string * list string) :=
  [("json", [".json"]); ("image", [".png"; ".gif"; ".jpg"]); ("text", [".txt"])].

Definition string_in (s : string) (l : list string) : bool :=
  existsb (String.eqb s) l.

Definition get_asset_type (asset_name : string) : option string :=
  let filetype :=
    PyStr.lower (match PyStr.rfind "." asset_name with
                 | Some i => PyStr.drop i asset_name
                 | None => PyStr.last 1 asset_name
                 end) in
  fst <$> List.find (fun t => string_in filetype (snd t)) ASSET_TYPES.

(** ** Manifests *)

(** One entry of a manifest's [files], as the manifest file format has it;
    [zsize] and [zurl] are optional keys. *)
Record FileEntry : Type := mkFileEntry {
  f_name : string;
  f_size : Z;
  f_type : option string;
  f_url : string;
  f_version : Z;
  f_zsize : option Z;
  f_zurl : option string;
}.

Record Manifest : Type := mkManifest {
  files : list FileEntry;
  lastUpdatedAt : Z;
}.

(** A value of the [existing_configs] dict. *)
Record ConfigRecord : Type := mkConfigRecord {
  c_content : Manifest;
  c_key : string;
  c_updated : bool;
}.

(** A value of the [existing_assets] dict. *)
Record ExistingAsset : Type := mkExistingAsset {
  e_content : string;
  e_version : string;
  e_versionId : string;
  e_zipped : bool;
}.

(** The dict [update_asset] returns: [zsize] and [zurl] are set together. *)
Record Asset : Type := mkAsset {
  a_size : Z;
  a_url : string;
  a_version : Z;
  a_z : option (Z * string);
}.

(** [d[k] = v] on a dict kept in insertion order. *)
Fixpoint dict_set {V} (k : string) (v : V) (d : list (string * V)) : list (string * V) :=
  match d with
  | [] => [(k, v)]
  | (k', v') :: d' => if String.eqb k' k then (k', v) :: d' else (k', v') :: dict_set k v d'
  end.

Fixpoint dict_get {V} (k : string) (d : list (string * V)) : option V :=
  match d with
  | [] => None
  | (k', v') :: d' => if String.eqb k' k then Some v' else dict_get k d'
  end.

(** ** The bucket and what surrounds the program *)

(** What the program takes from outside: the module global [REGION], the
    identifier the store gives to its [n]-th write, [json.loads] ([None]
    when it raises) and the readings of [time.time()], truncated. *)
Record Env : Type := mkEnv {
  REGION : string;
  new_version_id : nat -> string;
  json_loads : string -> option Manifest;
  clock : nat -> Z;
}.

(** The bucket: its objects in listing order, the keys written so far by
    [put_object], oldest first, and the number of clock readings taken. *)
Record World : Type := mkWorld {
  bucket_name : string;
  objects : list S3Object;
  put_log : list string;
  ticks : nat;
}.

(** Writing an object: under a key that is listed it takes the place of
    the listed object, under a new key it is listed last. *)
Fixpoint store (o : S3Object) (l : list S3Object) : list S3Object :=
  match l with
  | [] => [o]
  | o' :: l' => if String.eqb (Key o') (Key o) then o :: l' else o' :: store o l'
  end.

(** The object stored under a key. *)
Fixpoint fetch (key : string) (l : list S3Object) : option S3Object :=
  match l with
  | [] => None
  | o :: l' => if String.eqb (Key o) key then Some o else fetch key l'
  end.

(** [bucket.put_object(Key=key, Body=body, ACL='public-read',
    ContentType=content_type, Metadata={'version': str(version)}, ...)] *)
Definition stored (env : Env) (key body content_type : string)
  (content_encoding : option string) (version : Z) (w : World) : World :=
  let o := mkS3Object key body content_type content_encoding (PyStr.str version)
             (new_version_id env (List.length (put_log w))) in
  mkWorld (bucket_name w) (store o (objects w)) (put_log w ++ [key])%list (ticks w).

Definition put_object (env : Env) (key body content_type : string)
  (content_encoding : option string) (version : Z) : stateful World unit :=
  fun w => (Ret tt, stored env key body content_type content_encoding version w).

(** [S3.Object(bucket.name, key).get()] *)
Definition get_object (key : string) : stateful World S3Object :=
  fun w =>
    match fetch key (objects w) with
    | Some o => (Ret o, w)
    | None => (Raise (NoSuchKey key), w)
    end.

(** [bucket.objects.all()] *)
Definition list_objects : stateful World (list S3Object) :=
  fun w => (Ret (objects w), w).

(** [bucket.name] *)
Definition get_bucket_name : stateful World string :=
  fun w => (Ret (bucket_name w), w).

(** [int(time.time())] *)
Definition time_time (env : Env) : stateful World Z :=
  fun w => (Ret (clock env (ticks w)),
            mkWorld (bucket_name w) (objects w) (put_log w) (S (ticks w))).

Definition build_empty_config (now : Z) : Manifest := mkManifest [] now.

(** ** Uploading one asset *)

Definition content_type_of (name : string) (asset_type : option string) : string :=
  match asset_type with
  | Some "image" =>
      if String.eqb (PyStr.last 3 name) "png" then "image/png"
      else if String.eqb (PyStr.last 3 name) "jpg" then "image/jpeg"
      else if String.eqb (PyStr.last 3 name) "gif" then "image/gif"
      else "application/json; charset=utf-8"
  | Some "text" => "text/plain; charset=utf-8"
  | _ => "application/json; charset=utf-8"
  end.

Definition asset_url (env : Env) (bucket name suffix version_id : string) : string :=
  "https://s3." ++ REGION env ++ ".amazonaws.com/" ++ bucket ++ "/assets" ++ name
    ++ suffix ++ "?versionId=" ++ version_id.

(** The truth value of [zcontent]: [None] and empty bytes are false. *)
Definition truthy (zcontent : option string) : bool :=
  match zcontent with
  | Some z => negb (String.eqb z "")
  | None => false
  end.

(** The body of the inner loop over [configs[config]['content']['files']];
    the boolean tells whether the entry was rewritten. *)
Definition patch_file (name : string) (version : Z) (asset : Asset) (file : FileEntry)
  : FileEntry * bool :=
  if negb (String.eqb (f_name file) name) || negb (f_version file =? version - 1)
  then (file, false)
  else
    let '(zsize, zurl) :=
      match f_zsize file with
      | Some _ =>
          match a_z asset with
          | Some (zs, zu) => (Some zs, Some zu)
          | None => (None, None)
          end
      | None => (f_zsize file, f_zurl file)
      end in
    (mkFileEntry (f_name file) (a_size asset) (f_type file) (a_url asset) version zsize zurl,
     true).

(** The body of the loop over [configs]. *)
Definition patch_config (env : Env) (name : string) (version : Z) (asset : Asset)
  (config : ConfigRecord) : stateful World ConfigRecord :=
  let patched := map (patch_file name version asset) (files (c_content config)) in
  if existsb snd patched then
    let! now := time_time env in
    sret (mkConfigRecord (mkManifest (map fst patched) now) (c_key config) true)
  else
    sret (mkConfigRecord (mkManifest (map fst patched) (lastUpdatedAt (c_content config)))
            (c_key config) (c_updated config)).

Fixpoint patch_configs (env : Env) (name : string) (version : Z) (asset : Asset)
  (configs : list (string * ConfigRecord)) : stateful World (list (string * ConfigRecord)) :=
  match configs with
  | [] => sret []
  | (k, config) :: configs' =>
      let! config' := patch_config env name version asset config in
      let! rest := patch_configs env name version asset configs' in
      sret ((k, config') :: rest)
  end.

(** [update_asset]: the asset dict it returns and the [configs] it has
    mutated. *)
Definition update_asset (env : Env) (name : string) (asset_type : option string)
  (content : string) (version : Z) (zcontent : option string) (compatible : bool)
  (configs : list (string * ConfigRecord)) (upload_file : bool)
  : stateful World (Asset * list (string * ConfigRecord)) :=
  let content_type := content_type_of name asset_type in
  let object_version := version in
  let! _ := (if upload_file
             then put_object env ("assets" ++ name) content content_type None object_version
             else sret tt) in
  let! base_object := get_object ("assets" ++ name) in
  let size := ContentLength base_object in
  let! version := lift (int_or_raise (Metadata_version base_object)) in
  let! bucket := get_bucket_name in
  let url := asset_url env bucket name "" (VersionId base_object) in
  let asset := mkAsset size url version None in
  let! asset :=
    (if truthy zcontent then
       let! _ := (if upload_file
                  then put_object env ("assets" ++ name ++ ".gz") (default "" zcontent)
                         content_type (Some "gzip") object_version
                  else sret tt) in
       let! zipped_object := get_object ("assets" ++ name ++ ".gz") in
       sret (mkAsset size url version
               (Some (ContentLength zipped_object,
                      asset_url env bucket name ".gz" (VersionId zipped_object))))
     else sret asset) in
  let! configs :=
    (if compatible then patch_configs env name version asset configs else sret configs) in
  sret (asset, configs).

(** ** Reading the remote state *)

Definition parse_existing_config (env : Env) (item : S3Object)
  (existing_configs : list (string * ConfigRecord))
  : outcome (list (string * ConfigRecord)) :=
  let item_key := Key item in
  match json_loads env (Body item) with
  | Some m => Ret (dict_set item_key (mkConfigRecord m item_key false) existing_configs)
  | None => Raise JSONDecodeError
  end.

Definition parse_existing_asset (item : S3Object)
  (existing_assets : gmap string ExistingAsset) : outcome (gmap string ExistingAsset) :=
  let item_key := PyStr.drop 6 (Key item) in
  if String.eqb (PyStr.last 3 item_key) ".gz" then
    let item_key := PyStr.but_last 3 item_key in
    match existing_assets !! item_key with
    | Some r =>
        Ret (<[item_key := mkExistingAsset (e_content r) (e_version r) (e_versionId r) true]>
               existing_assets)
    | None => Raise (KeyError item_key)
    end
  else
    Ret (<[item_key := mkExistingAsset (Body item) (Metadata_version item) (VersionId item)
                         false]> existing_assets).

(** The loop of [update_changed_assets] over [bucket.objects.all()]. *)
Fixpoint parse_existing (env : Env) (bucket_objects : list S3Object)
  (existing_assets : gmap string ExistingAsset)
  (existing_configs : list (string * ConfigRecord))
  : outcome (gmap string ExistingAsset * list (string * ConfigRecord)) :=
  match bucket_objects with
  | [] => Ret (existing_assets, existing_configs)
  | item :: rest =>
      if is_config_key (Key item) then
        let* existing_configs := parse_existing_config env item existing_configs in
        parse_existing env rest existing_assets existing_configs
      else if is_asset_key (Key item) then
        let* existing_assets := parse_existing_asset item existing_assets in
        parse_existing env rest existing_assets existing_configs
      else parse_existing env rest existing_assets existing_configs
  end.

(** ** Reconciling local assets with the bucket *)

(** The body of the loop of [update_changed_assets] over the local assets;
    [fs] is the file system once the output directory has been rebuilt. *)
Definition update_changed_asset (env : Env) (fs : node)
  (existing_assets : gmap string ExistingAsset) (compatible : bool)
  (acc : list (string * FileEntry) * list (string * ConfigRecord))
  (asset : string * string)
  : stateful World (list (string * FileEntry) * list (string * ConfigRecord)) :=
  let '(updated_assets, existing_configs) := acc in
  let asset_folder := fst asset in
  let asset_name := snd asset in
  let slash_asset_name := "/" ++ asset_name in
  let asset_type := get_asset_type asset_name in
  if String.eqb (PyStr.last 3 asset_name) ".gz" then sret acc
  else
    let! asset_content := lift (read_file fs (path_join asset_folder asset_name)) in
    let! asset_zcontent :=
      (if path_exists fs (path_join asset_folder (asset_name ++ ".gz"))
       then let! z := lift (read_file fs (path_join asset_folder (asset_name ++ ".gz"))) in
            sret (Some z)
       else sret None) in
    let! (last_version, upload_file) :=
      lift (match existing_assets !! slash_asset_name with
            | Some r =>
                if String.eqb (e_content r) asset_content then Ret (0, false)
                else let* v := int_or_raise (e_version r) in Ret (v, true)
            | None => Ret (0, true)
            end) in
    let! (asset_details, existing_configs) :=
      update_asset env slash_asset_name asset_type asset_content (last_version + 1)
        asset_zcontent compatible existing_configs upload_file in
    let built_asset :=
      mkFileEntry slash_asset_name (a_size asset_details) asset_type (a_url asset_details)
        (a_version asset_details) (fst <$> a_z asset_details) (snd <$> a_z asset_details) in
    sret (dict_set slash_asset_name built_asset updated_assets, existing_configs).

Fixpoint sfold {S A B} (f : A -> B -> stateful S A) (a : A) (l : list B) : stateful S A :=
  match l with
  | [] => sret a
  | x :: l' => let! a' := f a x in sfold f a' l'
  end.

Definition allowed (only : option (gset string)) (asset : string * string) : bool :=
  match only with
  | None => true
  | Some names => bool_decide ("/" ++ snd asset ∈ names)
  end.

(** [update_changed_assets], from the listing of the bucket on: cleaning
    the output directory and running the minifier come before and leave
    the file system [fs]. *)
Definition update_changed_assets (env : Env) (fs : node) (output_dir : string)
  (only : option (gset string)) (compatible : bool)
  : stateful World (list (string * FileEntry) * list (string * ConfigRecord)) :=
  let! bucket_objects := list_objects in
  let! (existing_assets, existing_configs) :=
    lift (parse_existing env bucket_objects ∅ []) in
  let! assets := lift (get_all_assets fs output_dir) in
  let assets := List.filter (allowed only) assets in
  sfold (update_changed_asset env fs existing_assets compatible)
    ([], existing_configs) assets.

(** ** The manifest of a development environment *)

Definition format_type (asset_type : option string) : string :=
  default "None" asset_type.

(** The body of the loop of [build_dev_config]. *)
Definition dev_file (fs : node) (asset : string * string) : outcome FileEntry :=
  let asset_folder := fst asset in
  let asset_name := snd asset in
  let asset_type := get_asset_type asset_name in
  let asset_zurl_exists := path_exists fs (path_join asset_folder (asset_name ++ ".gz")) in
  let* size := getsize fs (path_join asset_folder asset_name) in
  let file :=
    mkFileEntry ("/" ++ asset_name) size asset_type
      ("http://localhost:8080/" ++ format_type asset_type ++ "/" ++ asset_name) 1 None None in
  if asset_zurl_exists then
    let zurl := "http://localhost:8080/" ++ format_type asset_type ++ "/" ++ asset_name ++ ".gz" in
    let* zsize := getsize fs (path_join asset_folder (asset_name ++ ".gz")) in
    Ret (mkFileEntry (f_name file) (f_size file) (f_type file) (f_url file) (f_version file)
           (Some zsize) (Some zurl))
  else Ret file.

(** [build_dev_config]: [json.dump(config_json, ...)] names a variable
    that is bound nowhere, so evaluating the call's arguments raises
    [NameError] inside the [with] block, which then closes the file. *)
Definition build_dev_config (now : Z) (asset_dir output_dir filename : string)
  : stateful node unit :=
  let! assets := (fun fs => (get_all_assets fs asset_dir, fs)) in
  let! _ := makedirs output_dir in
  let config := build_empty_config now in
  let! dev_files := (fun fs => (omap (dev_file fs) assets, fs)) in
  let config := mkManifest (files config ++ dev_files)%list (lastUpdatedAt config) in
  let! _ := open_w (path_join output_dir filename) in
  sraise (NameError "config_json").

(** ** Building and uploading manifests *)

(** [build_release_config]: the manifest of a release lists the records of
    [assets] in the order of the dict. *)
Definition build_release_config (env : Env) (assets : list (string * FileEntry))
  (version : string) : stateful World (string * ConfigRecord) :=
  let! now := time_time env in
  let config := build_empty_config now in
  let config := mkManifest (files config ++ map snd assets)%list (lastUpdatedAt config) in
  let config_key := "config/" ++ version ++ ".json" in
  let config_details := mkConfigRecord config config_key true in
  sret (config_key, config_details).

(** [bucket.put_object(Key=key, Body=body, ACL='public-read')]: no content
    type is given, so the store keeps its default one, and no metadata: the
    object has no version entry, which the empty string stands for (the
    program reads the metadata of objects under [assets/] only, and a
    manifest is written under [config/]). *)
Definition put_manifest (env : Env) (key body : string) : stateful World unit :=
  fun w =>
    let o := mkS3Object key body "binary/octet-stream" None ""
               (new_version_id env (List.length (put_log w))) in
    (Ret tt, mkWorld (bucket_name w) (store o (objects w)) (put_log w ++ [key])%list (ticks w)).

(** [update_changed_configs]; [json_dumps] is [json.dumps] on manifests. *)
Fixpoint update_changed_configs (json_dumps : Manifest -> string) (env : Env)
  (configs : list (string * ConfigRecord)) : stateful World unit :=
  match configs with
  | [] => sret tt
  | (config, details) :: configs' =>
      if negb (c_updated details) then update_changed_configs json_dumps env configs'
      else
        let! _ := put_manifest env (c_key details) (json_dumps (c_content details)) in
        update_changed_configs json_dumps env configs'
  end.

(** ** The command line *)

Module Cli.

(** The module globals the arguments are parsed into. *)
Record Options : Type := mkOptions {
  BUCKET_NAME : string;
  ASSET_DIR : string;
  OUTPUT_DIR : string;
  NEW_VERSION : string;
  BUILD_CONFIG : bool;
  REGION : string;
  ONLY_UPGRADE : option (gset string);
  COMPATIBLE : bool;
}.

(** [sys.argv[i]] *)
Definition argv_at (argv : list string) (i : nat) : outcome string :=
  match argv !! i with
  | Some a => Ret a
  | None => Raise IndexError
  end.

(** The loop over [enumerate(sys.argv[5:])]: [args] is what is left of
    [sys.argv[5:]] and [index] the position of its head in that slice. The
    value of an option is read from [sys.argv[index + 1]]. *)
Fixpoint parse_options (argv : list string) (index : nat) (SKIP_NEXT : bool)
  (args : list string) (o : Options) : outcome Options :=
  match args with
  | [] => Ret o
  | arg :: args' =>
      if SKIP_NEXT then parse_options argv (S index) false args' o
      else if String.eqb arg "--only" then
        let* names := argv_at argv (index + 1)%nat in
        parse_options argv (S index) true args'
          (mkOptions (BUCKET_NAME o) (ASSET_DIR o) (OUTPUT_DIR o) (NEW_VERSION o)
             (BUILD_CONFIG o) (REGION o) (Some (list_to_set (PyStr.split "," names)))
             (COMPATIBLE o))
      else if String.eqb arg "--region" then
        let* region := argv_at argv (index + 1)%nat in
        parse_options argv (S index) true args'
          (mkOptions (BUCKET_NAME o) (ASSET_DIR o) (OUTPUT_DIR o) (NEW_VERSION o)
             (BUILD_CONFIG o) region (ONLY_UPGRADE o) (COMPATIBLE o))
      else if String.eqb arg "--no-new-config" then
        parse_options argv (S index) false args'
          (mkOptions (BUCKET_NAME o) (ASSET_DIR o) (OUTPUT_DIR o) (NEW_VERSION o)
             false (REGION o) (ONLY_UPGRADE o) (COMPATIBLE o))
      else if String.eqb arg "--compatible" then
        parse_options argv (S index) false args'
          (mkOptions (BUCKET_NAME o) (ASSET_DIR o) (OUTPUT_DIR o) (NEW_VERSION o)
             (BUILD_CONFIG o) (REGION o) (ONLY_UPGRADE o) true)
      else parse_options argv (S index) false args' o
  end.

(** What the script goes on to do: build the manifest of a development
    environment, print the usage, or release. *)
Inductive Command : Type :=
| Dev (asset_dir output_dir filename : string)
| Usage
| Release (o : Options).

(** The input validation and the parsing of the arguments. *)
Definition command_of (argv : list string) : outcome Command :=
  let* dev :=
    (if (2 <=? List.length argv)%nat
     then let* a := argv_at argv 1 in Ret (String.eqb a "--dev")
     else Ret false) in
  if dev : bool then
    let* DEV_ASSET_DIR :=
      (if (List.length argv <? 3)%nat then Ret "../assets_dev/" else argv_at argv 2) in
    let* DEV_OUTPUT_DIR :=
      (if (List.length argv <? 4)%nat then Ret "../assets_dev/config" else argv_at argv 3) in
    let* DEV_FILENAME :=
      (if (List.length argv <? 5)%nat then Ret "*.json" else argv_at argv 4) in
    Ret (Dev DEV_ASSET_DIR DEV_OUTPUT_DIR DEV_FILENAME)
  else if (List.length argv <? 5)%nat then Ret Usage
  else
    let* bucket_name := argv_at argv 1 in
    let* asset_dir := argv_at argv 2 in
    let* output_dir := argv_at argv 3 in
    let* new_version := argv_at argv 4 in
    let o := mkOptions bucket_name asset_dir output_dir new_version true "ca-central-1"
               None false in
    let* o :=
      (if (5 <? List.length argv)%nat
       then parse_options argv 0 false (skipn 5 argv) o
       else Ret o) in
    Ret (Release o).

End Cli.

(** ** A release *)

(** The module global [REGION] is assigned from the command line before the
    bucket is used. *)
Definition with_region (env : Env) (region : string) : Env :=
  mkEnv region (new_version_id env) (json_loads env) (clock env).

(** The script once its arguments are parsed, run on the bucket named
    [BUCKET_NAME]; as for [update_changed_assets], [fs] is the file system
    once the output directory has been rebuilt. *)
Definition release (json_dumps : Manifest -> string) (env : Env) (fs : node)
  (o : Cli.Options) : stateful World unit :=
  let env := with_region env (Cli.REGION o) in
  let! (updated_assets, updated_configs) :=
    update_changed_assets env fs (Cli.OUTPUT_DIR o) (Cli.ONLY_UPGRADE o) (Cli.COMPATIBLE o) in
  let! _ :=
    (if Cli.COMPATIBLE o then update_changed_configs json_dumps env updated_configs
     else sret tt) in
  if Cli.BUILD_CONFIG o then
    let! bucket_objects := list_objects in
    let! CONFIG_VERSION :=
      lift (get_release_config_version bucket_objects (Cli.NEW_VERSION o)) in
    let! (config_key, config_details) :=
      build_release_config env updated_assets CONFIG_VERSION in
    update_changed_configs json_dumps env [(config_key, config_details)]
  else sret tt.

(** ** Sample inputs *)

Definition listed (key : string) : S3Object := mkS3Object key "" "" None "" "".

(** The manifests 0.9.0, 1.0.0 and 0.12.0, listed in that order. *)
Definition listing_0_9_first : list S3Object :=
  [listed "config/0.9.0.json"; listed "config/1.0.0.json"; listed "config/0.12.0.json"].

(** The same manifests in the order of their keys as strings. *)
Definition listing_by_key : list S3Object :=
  [listed "config/0.12.0.json"; listed "config/0.9.0.json"; listed "config/1.0.0.json"].

(** Two manifests, again in the order of their keys as strings. *)
Definition listing_10_then_2 : list S3Object :=
  [listed "config/10.0.0.json"; listed "config/2.1.0.json"].

(** The manifest key a release with the token [1.0.0-rc1] writes. *)
Definition listing_prerelease : list S3Object := [listed "config/1.0.0-rc1.json"].

Definition sample_entry (version : Z) : FileEntry :=
  mkFileEntry "/a.json" 10 (Some "json") "old-url" version None None.

(** An environment: [json.loads] knows the one manifest body of the
    samples, a manifest listing [/a.json] at version 3. *)
Definition sample_env : Env :=
  mkEnv "ca-central-1" (fun n => "id-" ++ PyStr.str (Z.of_nat n))
    (fun body => if String.eqb body "manifest-1.0.0"
                 then Some (mkManifest [sample_entry 3] 100)
                 else None)
    (fun n => 1000 + Z.of_nat n).

(** A bucket holding [/a.json] and the manifest 1.0.0. *)
Definition sample_world (body version : string) : World :=
  mkWorld "bucket"
    [mkS3Object "assets/a.json" body "application/json; charset=utf-8" None version "id-a";
     mkS3Object "config/1.0.0.json" "manifest-1.0.0" "" None "" "id-c"]
    [] 0.

(** An output directory with the one asset [a.json]. *)
Definition sample_fs (content : string) : node :=
  Dir [("out", Dir [("a.json", File content)])].

(** An output directory with two assets, one with a compressed sibling. *)
Definition pair_fs : node :=
  Dir [("out", Dir [("a.json", File "new"); ("b.txt", File "text");
                    ("b.txt.gz", File "zipped")])].

(** Two assets named [x.json] in two directories, and an empty bucket. *)
Definition twin_fs : node :=
  Dir [("out", Dir [("a", Dir [("x.json", File "1")]); ("b", Dir [("x.json", File "2")])])].

Definition empty_world : World := mkWorld "bucket" [] [] 0.

(** The remote state read from [sample_world "old" "3"]. *)
Definition sample_existing_assets : gmap string ExistingAsset :=
  <["/a.json" := mkExistingAsset "old" "3" "id-a" false]> ∅.

Definition sample_configs : list (string * ConfigRecord) :=
  [("config/1.0.0.json",
    mkConfigRecord (mkManifest [sample_entry 3] 100) "config/1.0.0.json" false)].



(** A tree with a dot file, a [config] directory and a sub-directory. *)
Definition sample_tree : node :=
  Dir [("out", Dir [("b.json", File "bb"); (".hidden", File "h");
                    ("img", Dir [("a.PNG", File "png")]);
                    ("config", Dir [("c.json", File "c")]);
                    ("a.txt", File "t")])].

(** An entry without compressed fields and an asset with a compressed
    sibling. *)
Definition plain_entry : FileEntry :=
  mkFileEntry "/x.png" 10 (Some "image") "old-url" 1 None None.

Definition zipped_entry : FileEntry :=
  mkFileEntry "/x.png" 10 (Some "image") "old-url" 1 (Some 4) (Some "old-zurl").

Definition zipped_asset : Asset := mkAsset 12 "new-url" 2 (Some (5, "new-zurl")).

(** ** Vocabulary of the statements *)

(** Every manifest key of the listing holds three integers. *)
Definition keys_well_formed (objects : list S3Object) : Prop :=
  forall item, In item objects -> is_config_key (Key item) = true ->
    exists a b c, item_version_of (Key item) = Ret [a; b; c].

(** What stays of the bucket when only the clock is read. *)
Definition same_bucket (w w' : World) : Prop :=
  bucket_name w' = bucket_name w /\ objects w' = objects w /\ put_log w' = put_log w.

(** The asset dict [update_asset] builds from the objects it reads back. *)
Definition asset_read (env : Env) (bucket name : string) (base : S3Object)
  (zipped : option S3Object) (version : Z) : Asset :=
  mkAsset (ContentLength base) (asset_url env bucket name "" (VersionId base)) version
    ((fun z => (ContentLength z, asset_url env bucket name ".gz" (VersionId z))) <$> zipped).

(** The bucket after the uploads of [update_asset]. *)
Definition after_base (env : Env) (name : string) (asset_type : option string)
  (content : string) (version : Z) (upload_file : bool) (w : World) : World :=
  if upload_file
  then stored env ("assets" ++ name) content (content_type_of name asset_type) None version w
  else w.

Definition after_uploads (env : Env) (name : string) (asset_type : option string)
  (content : string) (version : Z) (zcontent : option string) (upload_file : bool)
  (w : World) : World :=
  let w1 := after_base env name asset_type content version upload_file w in
  if upload_file && truthy zcontent
  then stored env ("assets" ++ name ++ ".gz") (default "" zcontent)
         (content_type_of name asset_type) (Some "gzip") version w1
  else w1.

(** Pieces of the loop body of [update_changed_assets]: the test on the
    name, the compressed sibling read from disk, the choice between
    uploading and skipping, and the record built from the asset dict. *)
Definition ends_gz (name : string) : bool := String.eqb (PyStr.last 3 name) ".gz".

Definition local_zcontent (fs : node) (asset_folder asset_name : string)
  : outcome (option string) :=
  if path_exists fs (path_join asset_folder (asset_name ++ ".gz"))
  then let* z := read_file fs (path_join asset_folder (asset_name ++ ".gz")) in Ret (Some z)
  else Ret None.

Definition upload_decision (existing_assets : gmap string ExistingAsset)
  (slash_asset_name asset_content : string) : outcome (Z * bool) :=
  match existing_assets !! slash_asset_name with
  | Some r =>
      if String.eqb (e_content r) asset_content then Ret (0, false)
      else let* v := int_or_raise (e_version r) in Ret (v, true)
  | None => Ret (0, true)
  end.

Definition built_asset (slash_asset_name : string) (asset_type : option string)
  (asset_details : Asset) : FileEntry :=
  mkFileEntry slash_asset_name (a_size asset_details) asset_type (a_url asset_details)
    (a_version asset_details) (fst <$> a_z asset_details) (snd <$> a_z asset_details).

(** What [update_asset] reads back from the bucket [w] for an asset. *)
Definition observed (env : Env) (w : World) (name : string) (zcontent : option string)
  : outcome Asset :=
  match fetch ("assets" ++ name) (objects w) with
  | None => Raise (NoSuchKey ("assets" ++ name))
  | Some base =>
      let* ver := int_or_raise (Metadata_version base) in
      if truthy zcontent then
        match fetch ("assets" ++ name ++ ".gz") (objects w) with
        | None => Raise (NoSuchKey ("assets" ++ name ++ ".gz"))
        | Some z => Ret (asset_read env (bucket_name w) name base (Some z) ver)
        end
      else Ret (asset_read env (bucket_name w) name base None ver)
  end.




(** The record of [existing_assets] made from the object [o], up to its
    [zipped] flag, and two records that differ in that flag at most. *)
Definition records (o : S3Object) (e : ExistingAsset) : Prop :=
  e_content e = Body o /\ e_version e = Metadata_version o /\ e_versionId e = VersionId o.

Definition same_data (e e' : ExistingAsset) : Prop :=
  e_content e' = e_content e /\ e_version e' = e_version e /\
  e_versionId e' = e_versionId e.

(** The two kinds of keys under [assets/], the key of [existing_assets] a
    base asset is recorded under, and the one a compressed sibling marks. *)
Definition is_gz_key (item : S3Object) : bool :=
  is_asset_key (Key item) && String.eqb (PyStr.last 3 (PyStr.drop 6 (Key item))) ".gz".

Definition is_base_key (item : S3Object) : bool :=
  is_asset_key (Key item) && negb (String.eqb (PyStr.last 3 (PyStr.drop 6 (Key item))) ".gz").

Definition base_of (item : S3Object) : string :=
  PyStr.but_last 3 (PyStr.drop 6 (Key item)).

(** A base asset recorded under [item_key] is among the objects [l]. *)
Definition base_listed (l : list S3Object) (item_key : string) : Prop :=
  exists b, In b l /\ is_base_key b = true /\ PyStr.drop 6 (Key b) = item_key.

(** Every compressed-suffix key of the listing comes after its base asset
    key. *)
Definition ordered (l : list S3Object) : Prop :=
  forall l1 item l2, l = (l1 ++ item :: l2)%list -> is_gz_key item = true ->
    base_listed l1 (base_of item).

(** Every manifest of the listing is decoded by [json.loads]. *)
Definition configs_decode (env : Env) (l : list S3Object) : Prop :=
  forall item, In item l -> is_config_key (Key item) = true ->
    json_loads env (Body item) <> None.

(** The listing [l] can be read by the loop over the bucket when the base
    assets recorded so far are those of [D]. *)
Fixpoint readable (env : Env) (D : gset string) (l : list S3Object) : Prop :=
  match l with
  | [] => True
  | item :: rest =>
      if is_config_key (Key item) then
        json_loads env (Body item) <> None /\ readable env D rest
      else if is_asset_key (Key item) then
        if ends_gz (PyStr.drop 6 (Key item)) then base_of item ∈ D /\ readable env D rest
        else readable env ({[PyStr.drop 6 (Key item)]} ∪ D) rest
      else readable env D rest
  end.

(** The names of the local assets the loop does not skip. *)
Definition processed_names (l : list (string * string)) : list string :=
  map snd (List.filter (fun a => negb (ends_gz (snd a))) l).

(** The local assets are told apart by their file names, none of which is
    empty. *)
Definition distinct_names (fs : node) (output_dir : string) (only : option (gset string))
  : Prop :=
  forall assets, get_all_assets fs output_dir = Ret assets ->
    List.NoDup (processed_names (List.filter (allowed only) assets)) /\
    Forall (fun n => n <> "") (processed_names (List.filter (allowed only) assets)).

(** The bucket [w] holds the local content of the asset, and reading the
    asset back from it succeeds. *)
Definition settled (env : Env) (fs : node) (w : World) (a : string * string) : Prop :=
  ends_gz (snd a) = true \/
  exists content z asset o,
    read_file fs (path_join (fst a) (snd a)) = Ret content /\
    local_zcontent fs (fst a) (snd a) = Ret z /\
    fetch ("assets" ++ "/" ++ snd a) (objects w) = Some o /\ Body o = content /\
    observed env w ("/" ++ snd a) z = Ret asset.

(** The records of the assets as they are read back from the bucket [w]. *)
Definition replay_one (env : Env) (fs : node) (w : World) (ua : list (string * FileEntry))
  (a : string * string) : list (string * FileEntry) :=
  if ends_gz (snd a) then ua
  else
    match local_zcontent fs (fst a) (snd a) with
    | Ret z =>
        match observed env w ("/" ++ snd a) z with
        | Ret asset =>
            dict_set ("/" ++ snd a)
              (built_asset ("/" ++ snd a) (get_asset_type (snd a)) asset) ua
        | Raise _ => ua
        end
    | Raise _ => ua
    end.

Definition replay (env : Env) (fs : node) (w : World) (l : list (string * string))
  (ua : list (string * FileEntry)) : list (string * FileEntry) :=
  fold_left (replay_one env fs w) l ua.

(** An asset the scanner may return: not a dot file, no [config] in its
    path. *)
Definition kept (asset : string * string) : Prop :=
  PyStr.startswith "." (snd asset) = false /\
  PyStr.contains "config" (path_join (fst asset) (snd asset)) = false.

(** The order of the scanner's result: by file name alone. *)
Definition by_name (x y : string * string) : Prop :=
  String.leb (snd x) (snd y) = true.

(** The entries [update_asset] rewrites: same name, one version behind. *)
Definition entry_matches (name : string) (version : Z) (file : FileEntry) : bool :=
  String.eqb (f_name file) name && (f_version file =? version - 1).

(** How [update_asset] leaves one record of [configs]. *)
Definition patched_record (env : Env) (name : string) (asset : Asset) (compatible : bool)
  (before after : string * ConfigRecord) : Prop :=
  fst after = fst before /\
  if compatible && existsb (entry_matches name (a_version asset)) (files (c_content (snd before)))
  then
    c_updated (snd after) = true /\ c_key (snd after) = c_key (snd before) /\
    files (c_content (snd after))
      = map (fun f => fst (patch_file name (a_version asset) asset f))
          (files (c_content (snd before))) /\
    exists t, lastUpdatedAt (c_content (snd after)) = clock env t
  else snd after = snd before.

(** ** Vocabulary and samples of the further properties *)

(** Python's order on lists of integers, and the versions of the manifest
    keys of a listing, in listing order. *)
Fixpoint tuple_ltb (a b : list Z) : bool :=
  match a, b with
  | [], [] => false
  | [], _ :: _ => true
  | _ :: _, [] => false
  | x :: a', y :: b' => (x <? y) || ((x =? y) && tuple_ltb a' b')
  end.

Definition tuple_le (a b : list Z) : Prop := a = b \/ tuple_ltb a b = true.

Fixpoint manifest_versions (objects : list S3Object) : list (list Z) :=
  match objects with
  | [] => []
  | item :: rest =>
      if is_config_key (Key item) then
        match item_version_of (Key item) with
        | Ret v => v :: manifest_versions rest
        | Raise _ => manifest_versions rest
        end
      else manifest_versions rest
  end.

(** Every version of the list is at most the next one. *)
Fixpoint ascending (l : list (list Z)) : Prop :=
  match l with
  | a :: (b :: _) as l' => tuple_le a b /\ ascending l'
  | _ => True
  end.

(** The manifests 0.9.0, 0.12.0 and 1.0.0 in the order of their versions,
    and a manifest key that holds one integer. *)
Definition listing_ascending : list S3Object :=
  [listed "config/0.9.0.json"; listed "assets/a.json"; listed "config/0.12.0.json";
   listed "config/1.0.0.json"].

Definition listing_short : list S3Object := [listed "config/2"].

(** A listing without manifests: an asset, a foreign key and the bare
    prefix. *)
Definition listing_no_manifest : list S3Object :=
  [listed "assets/a.json"; listed "readme.txt"; listed "config/"].

(** The record of [b.txt] of [pair_fs] after its first upload to the empty
    bucket. *)
Definition b_txt_record : FileEntry :=
  mkFileEntry "/b.txt" 4 (Some "text")
    "https://s3.ca-central-1.amazonaws.com/bucket/assets/b.txt?versionId=id-0" 1
    (Some 6)
    (Some "https://s3.ca-central-1.amazonaws.com/bucket/assets/b.txt.gz?versionId=id-1").

(** The file named [f] lies in the directory of path [d] of the tree [n],
    whose own path is [dir]; paths are joined as the scanner joins them. *)
Inductive file_in : string -> node -> string -> string -> Prop :=
| file_here dir es f content :
    In (f, File content) es -> file_in dir (Dir es) dir f
| file_below dir es sub es' d f :
    In (sub, Dir es') es -> file_in (path_join dir sub) (Dir es') d f ->
    file_in dir (Dir es) d f.

(** The keys [update_changed_configs] writes for [configs], in order. *)
Definition uploaded_keys (configs : list (string * ConfigRecord)) : list string :=
  map (fun c => c_key (snd c)) (List.filter (fun c => c_updated (snd c)) configs).

(** A stand-in for [json.dumps] on the sample manifests. *)
Definition sample_dumps (m : Manifest) : string :=
  "manifest@" ++ PyStr.str (lastUpdatedAt m).

(** The manifest 1.0.0 of the samples once [/a.json] has been patched to
    version 4. *)
Definition patched_configs : list (string * ConfigRecord) :=
  [("config/1.0.0.json",
    mkConfigRecord (mkManifest [sample_entry 4] 1000) "config/1.0.0.json" true)].

(** The options of a release from [out] with the version token [version]. *)
Definition sample_options (version : string) (only : option (gset string)) : Cli.Options :=
  Cli.mkOptions "bucket" "assets" "out" version true "ca-central-1" only false.

(** The empty bucket once [b.txt] of [pair_fs] and its compressed sibling
    have been uploaded. *)
Definition b_txt_world : World :=
  mkWorld "bucket"
    [mkS3Object "assets/b.txt" "text" "text/plain; charset=utf-8" None "1" "id-0";
     mkS3Object "assets/b.txt.gz" "zipped" "text/plain; charset=utf-8" (Some "gzip") "1"
       "id-1"]
    ["assets/b.txt"; "assets/b.txt.gz"] 0.

(** The options that take no value and the words that are no option leave
    [SKIP_NEXT] as it is. *)
Definition takes_no_value (arg : string) : Prop := arg <> "--only" /\ arg <> "--region".

Definition is_option (arg : string) : Prop :=
  arg = "--only" \/ arg = "--region" \/ arg = "--no-new-config" \/ arg = "--compatible".

(* ===================================================================== *)
(** * Properties *)
(* ===================================================================== *)

(** ** Version of the next config *)

Lemma adopts_total (todo max_version : list Z) (element : nat) :
  (element + List.length todo <= List.length max_version)%nat ->
  exists b, adopts element todo max_version = Ret b.
Proof.
  revert element. induction todo as [|x todo IH]; intros element Hlen; simpl in *.
  - eauto.
  - destruct (max_version !! element) as [m|] eqn:Hm.
    + destruct (x >? m); [eauto|]. apply IH. lia.
    + apply lookup_ge_None in Hm. lia.
Qed.

Lemma most_recent_loop_triple (objects : list S3Object) (max_version : list Z) :
  keys_well_formed objects -> List.length max_version = 3%nat ->
  exists x y z, most_recent_loop objects max_version = Ret [x; y; z].
Proof.
  revert max_version. induction objects as [|item rest IH]; intros mv Hwf Hlen; simpl.
  - destruct mv as [|x [|y [|z [|? ?]]]]; try discriminate. eauto.
  - assert (Hrest : keys_well_formed rest) by (intros i Hi; apply Hwf; now right).
    destruct (is_config_key (Key item)) eqn:Hk; simpl; [|now apply IH].
    destruct (Hwf item (or_introl eq_refl) Hk) as (a & b & c & ->). cbn [obind].
    destruct (adopts_total [a; b; c] mv 0) as [r ->]; [simpl; lia|]. cbn [obind].
    destruct r; now apply IH.
Qed.

Lemma get_release_config_version_matched (objects : list S3Object) (version : string) :
  PyStr.match_version version = true ->
  get_release_config_version objects version = Ret version.
Proof. intros H. unfold get_release_config_version. now rewrite H. Qed.

(** C2, at the listing order 0.9.0, 1.0.0, 0.12.0: the loop adopts 0.12.0
    after 1.0.0, because its second component is the greater one, and the
    three tokens resolve to 1.0.0, 0.13.0 and 0.12.1 instead of 2.0.0, 1.1.0
    and 1.0.1. *)
Theorem C2_most_recent_depends_on_listing_order :
  get_most_recent_config listing_0_9_first = Ret [0; 12; 0] /\
  get_release_config_version listing_0_9_first "major" = Ret "1.0.0" /\
  get_release_config_version listing_0_9_first "minor" = Ret "0.13.0" /\
  get_release_config_version listing_0_9_first "patch" = Ret "0.12.1".
Proof. repeat split; vm_compute; reflexivity. Qed.

(** With the keys listed in string order the three tokens resolve as the
    specification expects. *)
Lemma resolver_on_listing_by_key :
  get_release_config_version listing_by_key "major" = Ret "2.0.0" /\
  get_release_config_version listing_by_key "minor" = Ret "1.1.0" /\
  get_release_config_version listing_by_key "patch" = Ret "1.0.1".
Proof. repeat split; vm_compute; reflexivity. Qed.

(** The same slip under a listing in string order: 2.1.0 comes after
    10.0.0 and is adopted. *)
Lemma resolver_on_listing_10_then_2 :
  get_most_recent_config listing_10_then_2 = Ret [2; 1; 0] /\
  get_release_config_version listing_10_then_2 "major" = Ret "3.0.0".
Proof. split; vm_compute; reflexivity. Qed.

(** The pattern is matched at the start of the token only, so a token
    with a suffix is accepted and returned as it is. *)
Lemma resolver_accepts_prerelease_token objects :
  get_release_config_version objects "1.0.0-rc1" = Ret "1.0.0-rc1".
Proof. reflexivity. Qed.

(** C5, as the claim states it, fails: with a manifest key whose third
    component is no integer the resolver raises [ValueError] although the
    token is [major]. *)
Lemma C5_counterexample :
  ~ ((exists msg,
        get_release_config_version listing_prerelease "major" = Raise (ValueError msg)) <->
     "major" <> "major" /\ "major" <> "minor" /\ "major" <> "patch" /\
     PyStr.match_version "major" = false).
Proof.
  intros [Hraise _].
  destruct Hraise as [Hne _]; [|now apply Hne].
  eexists. vm_compute. reflexivity.
Qed.

(** C5, amended: when every manifest key of the listing holds three
    integers, the resolver raises exactly when the token is none of
    [major], [minor], [patch] and the pattern does not match at its start,
    and what it raises is the [ValueError] about the token; a token the
    pattern matches is returned unchanged whatever the listing is. *)
Theorem C5_raises_iff_bad_token (objects : list S3Object) (version : string) :
  keys_well_formed objects ->
  (get_release_config_version objects version = Raise version_token_error <->
     version <> "major" /\ version <> "minor" /\ version <> "patch" /\
     PyStr.match_version version = false) /\
  (forall e, get_release_config_version objects version = Raise e ->
     e = version_token_error) /\
  (PyStr.match_version version = true ->
     forall objects', get_release_config_version objects' version = Ret version).
Proof.
  intros Hwf.
  destruct (most_recent_loop_triple objects [0; 0; 0] Hwf eq_refl) as (x & y & z & Hmr).
  assert (Hcases :
    (PyStr.match_version version = true /\
       get_release_config_version objects version = Ret version) \/
    (PyStr.match_version version = false /\
       ((version = "major" \/ version = "minor" \/ version = "patch") /\
          (exists r, get_release_config_version objects version = Ret r) \/
        (version <> "major" /\ version <> "minor" /\ version <> "patch") /\
          get_release_config_version objects version = Raise version_token_error))).
  { destruct (PyStr.match_version version) eqn:Hm.
    - left. split; [easy|]. now apply get_release_config_version_matched.
    - right. split; [easy|]. unfold get_release_config_version, get_most_recent_config.
      rewrite Hm, Hmr. simpl.
      destruct (String.eqb_spec version "major") as [->|H1]; [left; split; eauto|].
      destruct (String.eqb_spec version "minor") as [->|H2]; [left; split; eauto|].
      destruct (String.eqb_spec version "patch") as [->|H3]; [left; split; eauto|].
      right. easy. }
  split; [|split].
  - split.
    + intros Hr. destruct Hcases as [[_ H]|[Hm [[_ [r H]]|[H _]]]];
        try (rewrite H in Hr; discriminate). tauto.
    + intros (H1 & H2 & H3 & Hm).
      destruct Hcases as [[H _]|[_ [[[H|[H|H]] _]|[_ H]]]]; congruence.
  - intros e He. destruct Hcases as [[_ H]|[_ [[_ [r H]]|[_ H]]]]; congruence.
  - intros Hm objects'. now apply get_release_config_version_matched.
Qed.

Lemma C5_raises_iff_bad_token_witness :
  get_release_config_version listing_by_key "bogus" = Raise version_token_error <->
  "bogus" <> "major" /\ "bogus" <> "minor" /\ "bogus" <> "patch" /\
  PyStr.match_version "bogus" = false.
Proof.
  refine (proj1 (C5_raises_iff_bad_token listing_by_key "bogus" _)).
  intros item Hin _. simpl in Hin.
  destruct Hin as [<-|[<-|[<-|[]]]]; vm_compute; eauto.
Defined.

(** ** Inversion of the monads *)

Lemma obind_ret_inv {A B} (m : outcome A) (k : A -> outcome B) (b : B) :
  obind m k = Ret b -> exists a, m = Ret a /\ k a = Ret b.
Proof. destruct m; simpl; [eauto | discriminate]. Qed.

Lemma sbind_ret_inv {S A B} (m : stateful S A) (k : A -> stateful S B) s b s' :
  sbind m k s = (Ret b, s') ->
  exists a s1, m s = (Ret a, s1) /\ k a s1 = (Ret b, s').
Proof.
  unfold sbind. destruct (m s) as [[a|e] s1]; [eauto | discriminate].
Qed.

Lemma sbind_run {S A B} (m : stateful S A) (k : A -> stateful S B) s a s1 :
  m s = (Ret a, s1) -> sbind m k s = k a s1.
Proof. unfold sbind. now intros ->. Qed.

Lemma sbind_raise {S A B} (m : stateful S A) (k : A -> stateful S B) s e s1 :
  m s = (Raise e, s1) -> sbind m k s = (Raise e, s1).
Proof. unfold sbind. now intros ->. Qed.

(** ** Patching manifests *)

Lemma patch_file_matched name version asset file :
  snd (patch_file name version asset file) = entry_matches name version file.
Proof.
  unfold patch_file, entry_matches.
  destruct (String.eqb (f_name file) name), (f_version file =? version - 1); simpl; try easy.
  destruct (f_zsize file); [destruct (a_z asset) as [[? ?]|]|]; easy.
Qed.

Lemma patch_file_unmatched name version asset file :
  entry_matches name version file = false ->
  patch_file name version asset file = (file, false).
Proof.
  unfold patch_file, entry_matches.
  destruct (String.eqb (f_name file) name), (f_version file =? version - 1); simpl; easy.
Qed.

Lemma existsb_patched name version asset fs :
  existsb snd (map (patch_file name version asset) fs)
  = existsb (entry_matches name version) fs.
Proof.
  induction fs as [|f fs IH]; simpl; [easy|].
  now rewrite patch_file_matched, IH.
Qed.

Lemma map_patch_unmatched name version asset fs :
  existsb (entry_matches name version) fs = false ->
  map fst (map (patch_file name version asset) fs) = fs.
Proof.
  induction fs as [|f fs IH]; simpl; [easy|].
  intros [Hf Hfs]%orb_false_iff.
  now rewrite patch_file_unmatched, IH.
Qed.

Lemma same_bucket_refl w : same_bucket w w.
Proof. now repeat split. Qed.

Lemma same_bucket_trans w1 w2 w3 :
  same_bucket w1 w2 -> same_bucket w2 w3 -> same_bucket w1 w3.
Proof. intros (?&?&?) (?&?&?). repeat split; congruence. Qed.

Lemma patch_config_spec env name asset config w :
  exists config' w',
    patch_config env name (a_version asset) asset config w = (Ret config', w') /\
    same_bucket w w' /\
    forall k, patched_record env name asset true (k, config) (k, config').
Proof.
  unfold patch_config. rewrite existsb_patched.
  destruct (existsb _ _) eqn:Hm.
  - do 2 eexists. split; [reflexivity|]. split; [now repeat split|].
    intros k. split; [easy|]. simpl. rewrite Hm. simpl.
    repeat split; [now rewrite map_map | eauto].
  - do 2 eexists. split; [reflexivity|]. split; [apply same_bucket_refl|].
    intros k. split; [easy|]. simpl. rewrite Hm.
    rewrite map_patch_unmatched by easy. now destruct config as [[? ?] ? ?].
Qed.

Lemma patch_configs_spec env name asset configs w :
  exists configs' w',
    patch_configs env name (a_version asset) asset configs w = (Ret configs', w') /\
    same_bucket w w' /\
    Forall2 (patched_record env name asset true) configs configs'.
Proof.
  revert w. induction configs as [|[k config] configs IH]; intros w; simpl.
  - do 2 eexists. unfold sret. repeat split; constructor.
  - destruct (patch_config_spec env name asset config w) as (c' & w1 & Hc & Hw1 & Hrec).
    destruct (IH w1) as (cs' & w2 & Hcs & Hw2 & Hall).
    exists ((k, c') :: cs'), w2.
    rewrite (sbind_run _ _ _ _ _ Hc), (sbind_run _ _ _ _ _ Hcs). unfold sret.
    split; [easy|]. split; [eapply same_bucket_trans; eassumption|].
    constructor; [apply Hrec | easy].
Qed.

Lemma patched_record_off env name asset configs :
  Forall2 (patched_record env name asset false) configs configs.
Proof. induction configs; constructor; [now split | easy]. Qed.

(** C4, as the claim states it, fails: an entry that had no compressed
    fields is rewritten without them although the new asset has a
    compressed sibling. *)
Lemma C4_counterexample :
  ~ (entry_matches "/x.png" 2 plain_entry = true ->
     f_zsize (fst (patch_file "/x.png" 2 zipped_asset plain_entry))
       = fst <$> a_z zipped_asset /\
     f_zurl (fst (patch_file "/x.png" 2 zipped_asset plain_entry))
       = snd <$> a_z zipped_asset).
Proof. intros H. destruct (H eq_refl) as [H1 _]. vm_compute in H1. discriminate. Qed.

(** C4, amended: a rewritten entry that had a [zsize] field gets the
    [zsize] and [zurl] of the new asset when this one has a compressed
    sibling and loses both fields when it has none; a rewritten entry that
    had no [zsize] field keeps its compressed fields as they were. *)
Theorem C4_compressed_fields_follow_asset name version asset file :
  entry_matches name version file = true ->
  let file' := fst (patch_file name version asset file) in
  match f_zsize file with
  | Some _ => f_zsize file' = fst <$> a_z asset /\ f_zurl file' = snd <$> a_z asset
  | None => f_zsize file' = None /\ f_zurl file' = f_zurl file
  end.
Proof.
  unfold entry_matches, patch_file.
  intros [-> ->]%andb_true_iff. simpl.
  destruct (f_zsize file); [destruct (a_z asset) as [[? ?]|]|]; simpl; easy.
Qed.

Lemma C4_compressed_fields_follow_asset_witness :
  f_zsize (fst (patch_file "/x.png" 2 zipped_asset zipped_entry)) = Some 5 /\
  f_zurl (fst (patch_file "/x.png" 2 zipped_asset zipped_entry)) = Some "new-zurl".
Proof.
  exact (C4_compressed_fields_follow_asset "/x.png" 2 zipped_asset zipped_entry eq_refl).
Defined.

(** ** Strings *)

Lemma length_append (a b : string) :
  String.length (a ++ b) = (String.length a + String.length b)%nat.
Proof. induction a as [|c a IH]; simpl; [easy | now rewrite IH]. Qed.

Lemma drop_append (a b : string) : PyStr.drop (String.length a) (a ++ b) = b.
Proof. induction a as [|c a IH]; simpl; [now destruct b | easy]. Qed.

Lemma take_append (a b : string) : PyStr.take (String.length a) (a ++ b) = a.
Proof. induction a as [|c a IH]; simpl; [now destruct b | now rewrite IH]. Qed.

Lemma last_append (a b : string) : PyStr.last (String.length b) (a ++ b) = b.
Proof.
  unfold PyStr.last. rewrite length_append.
  replace (String.length a + String.length b - String.length b)%nat
    with (String.length a) by lia.
  apply drop_append.
Qed.

Lemma but_last_append (a b : string) : PyStr.but_last (String.length b) (a ++ b) = a.
Proof.
  unfold PyStr.but_last. rewrite length_append.
  replace (String.length a + String.length b - String.length b)%nat
    with (String.length a) by lia.
  apply take_append.
Qed.

Lemma take_drop (n : nat) (s : string) : PyStr.take n s ++ PyStr.drop n s = s.
Proof.
  revert s. induction n as [|n IH]; intros [|c s]; simpl; try easy.
  now rewrite IH.
Qed.

Lemma but_last_last (n : nat) (s : string) : PyStr.but_last n s ++ PyStr.last n s = s.
Proof. apply take_drop. Qed.

Lemma last_cons (n : nat) (c : ascii) (s : string) :
  (n <= String.length s)%nat -> PyStr.last n (String c s) = PyStr.last n s.
Proof.
  intros H. unfold PyStr.last. simpl String.length.
  replace (S (String.length s) - n)%nat with (S (String.length s - n)) by lia.
  reflexivity.
Qed.

(** A name ends in [.gz] exactly when the name with a slash before it
    does. *)
Lemma last3_slash (n : string) :
  String.eqb (PyStr.last 3 ("/" ++ n)) ".gz" = String.eqb (PyStr.last 3 n) ".gz".
Proof.
  destruct n as [|a [|b [|c n]]].
  - reflexivity.
  - unfold PyStr.last; simpl. now destruct (Ascii.eqb a ".").
  - unfold PyStr.last; simpl. destruct (Ascii.eqb a "."); [|easy].
    now destruct (Ascii.eqb b "g").
  - simpl. now rewrite (last_cons 3 "/") by (simpl; lia).
Qed.

Lemma append_inj_r (a b c : string) : a ++ c = b ++ c -> a = b.
Proof.
  intros H.
  rewrite <- (but_last_append a c), <- (but_last_append b c). now rewrite H.
Qed.

Lemma gz_key_not_base (n m : string) :
  String.eqb (PyStr.last 3 n) ".gz" = false -> n <> m ++ ".gz".
Proof.
  intros H ->. change 3%nat with (String.length ".gz") in H.
  now rewrite last_append in H.
Qed.

(** ** [int] reads what [str] writes *)

Lemma lstrip_digits d : PyStr.lstrip (NilEmpty.string_of_uint d) = NilEmpty.string_of_uint d.
Proof. destruct d; reflexivity. Qed.

Lemma rstrip_digits d : PyStr.rstrip (NilEmpty.string_of_uint d) = NilEmpty.string_of_uint d.
Proof.
  induction d; simpl; [easy|..]; rewrite IHd;
    now destruct (NilEmpty.string_of_uint d).
Qed.

Lemma digit_groups_digits d :
  PyStr.digit_groups true (NilEmpty.string_of_uint d) = Some (NilEmpty.string_of_uint d).
Proof. induction d; simpl; [easy|..]; now rewrite IHd. Qed.

Lemma int_digits d :
  d <> Decimal.Nil ->
  PyStr.int (NilEmpty.string_of_uint d) = Some (Z.of_uint d) /\
  PyStr.int (String "-" (NilEmpty.string_of_uint d)) = Some (- Z.of_uint d).
Proof.
  intros Hd.
  assert (Hu : NilZero.uint_of_string (NilEmpty.string_of_uint d) = Some d).
  { rewrite <- (NilZero.usu d Hd) at 1. now destruct d. }
  assert (Hg : PyStr.digit_groups false (NilEmpty.string_of_uint d)
               = Some (NilEmpty.string_of_uint d)).
  { destruct d; [easy|..]; simpl; now rewrite digit_groups_digits. }
  unfold PyStr.int. split.
  - rewrite lstrip_digits, rstrip_digits.
    replace (match NilEmpty.string_of_uint d with
             | String "-" r => (-1, r)
             | String "+" r => (1, r)
             | _ => (1, NilEmpty.string_of_uint d)
             end) with (1, NilEmpty.string_of_uint d) by (now destruct d).
    rewrite Hg. simpl. rewrite Hu. simpl. first [reflexivity | f_equal; lia].
  - change (PyStr.lstrip (String "-" (NilEmpty.string_of_uint d)))
      with (String "-" (NilEmpty.string_of_uint d)).
    assert (Hr : PyStr.rstrip (String "-" (NilEmpty.string_of_uint d))
                 = String "-" (NilEmpty.string_of_uint d)).
    { simpl. rewrite rstrip_digits. now destruct d. }
    rewrite Hr, Hg. simpl. rewrite Hu. simpl. first [reflexivity | f_equal; lia].
Qed.

Lemma int_str (v : Z) : PyStr.int (PyStr.str v) = Some v.
Proof.
  destruct v as [|p|p]; [reflexivity|..];
    pose proof (DecimalPos.Unsigned.to_uint_nonnil p) as Hnn;
    pose proof (DecimalPos.Unsigned.of_to p) as Hof;
    destruct (int_digits (Pos.to_uint p) Hnn) as [Hpos Hneg];
    unfold PyStr.str; simpl; unfold NilZero.string_of_uint.
  - replace (match Pos.to_uint p with Decimal.Nil => "0" | _ => NilEmpty.string_of_uint (Pos.to_uint p) end)
      with (NilEmpty.string_of_uint (Pos.to_uint p)) by (now destruct (Pos.to_uint p)).
    rewrite Hpos. unfold Z.of_uint. now rewrite Hof.
  - replace (match Pos.to_uint p with Decimal.Nil => "0" | _ => NilEmpty.string_of_uint (Pos.to_uint p) end)
      with (NilEmpty.string_of_uint (Pos.to_uint p)) by (now destruct (Pos.to_uint p)).
    rewrite Hneg. unfold Z.of_uint. now rewrite Hof.
Qed.

Lemma int_or_raise_str (v : Z) : int_or_raise (PyStr.str v) = Ret v.
Proof. unfold int_or_raise. now rewrite int_str. Qed.

(** ** The bucket *)

Lemma fetch_store_eq (o : S3Object) (l : list S3Object) :
  fetch (Key o) (store o l) = Some o.
Proof.
  induction l as [|o' l IH]; simpl.
  - now rewrite String.eqb_refl.
  - destruct (String.eqb_spec (Key o') (Key o)) as [He|Hne]; simpl.
    + now rewrite String.eqb_refl.
    + now apply String.eqb_neq in Hne as ->.
Qed.

Lemma fetch_store_ne (k : string) (o : S3Object) (l : list S3Object) :
  k <> Key o -> fetch k (store o l) = fetch k l.
Proof.
  intros Hk. induction l as [|o' l IH]; simpl.
  - destruct (String.eqb_spec (Key o) k); [congruence|easy].
  - destruct (String.eqb_spec (Key o') (Key o)) as [He|Hne]; simpl.
    + destruct (String.eqb_spec (Key o) k); [congruence|].
      destruct (String.eqb_spec (Key o') k); [congruence|easy].
    + now rewrite IH.
Qed.

Lemma fetch_Some (k : string) (l : list S3Object) (o : S3Object) :
  fetch k l = Some o -> In o l /\ Key o = k.
Proof.
  induction l as [|o' l IH]; simpl; [easy|].
  destruct (String.eqb_spec (Key o') k).
  - intros [= ->]. auto.
  - intros H. destruct (IH H). auto.
Qed.

Lemma fetch_None (k : string) (l : list S3Object) :
  fetch k l = None <-> ~ In k (map Key l).
Proof.
  induction l as [|o' l IH]; simpl; [tauto|].
  destruct (String.eqb_spec (Key o') k); [split; [easy | tauto]|].
  rewrite IH. tauto.
Qed.

Lemma fetch_In (l : list S3Object) (o : S3Object) :
  List.NoDup (map Key l) -> In o l -> fetch (Key o) l = Some o.
Proof.
  induction l as [|o' l IH]; simpl; [easy|].
  intros Hnd [->|Hin].
  - now rewrite String.eqb_refl.
  - inversion Hnd as [|? ? Hni Hnd']; subst.
    destruct (String.eqb_spec (Key o') (Key o)) as [He|_]; [|now apply IH].
    exfalso. apply Hni. rewrite He. now apply in_map.
Qed.

Lemma keys_store (o : S3Object) (l : list S3Object) :
  map Key (store o l)
  = match fetch (Key o) l with
    | Some _ => map Key l
    | None => (map Key l ++ [Key o])%list
    end.
Proof.
  induction l as [|o' l IH]; simpl; [easy|].
  destruct (String.eqb_spec (Key o') (Key o)) as [He|Hne]; simpl.
  - now rewrite He.
  - rewrite IH. now destruct (fetch (Key o) l).
Qed.

Lemma NoDup_store (o : S3Object) (l : list S3Object) :
  List.NoDup (map Key l) -> List.NoDup (map Key (store o l)).
Proof.
  intros Hnd. rewrite keys_store.
  destruct (fetch (Key o) l) eqn:Hf; [easy|].
  apply fetch_None in Hf.
  apply NoDup_ListNoDup, NoDup_app. apply NoDup_ListNoDup in Hnd.
  split; [easy|]. split; [|apply NoDup_singleton].
  intros x Hx Hx'. apply list_elem_of_singleton in Hx'. subst x.
  apply Hf. now apply list_elem_of_In.
Qed.

(** ** What [update_asset] does *)

Lemma update_asset_inv env name asset_type content version zcontent compatible configs
  upload_file w asset configs' w' :
  update_asset env name asset_type content version zcontent compatible configs upload_file w
    = (Ret (asset, configs'), w') ->
  let w1 := after_base env name asset_type content version upload_file w in
  let w2 := after_uploads env name asset_type content version zcontent upload_file w in
  exists base ver zipped,
    fetch ("assets" ++ name) (objects w1) = Some base /\
    PyStr.int (Metadata_version base) = Some ver /\
    (if truthy zcontent
     then exists z, fetch ("assets" ++ name ++ ".gz") (objects w2) = Some z /\ zipped = Some z
     else zipped = None) /\
    asset = asset_read env (bucket_name w) name base zipped ver /\
    same_bucket w2 w' /\
    Forall2 (patched_record env name asset compatible) configs configs'.
Proof.
  intros H w1 w2. unfold update_asset in H.
  apply sbind_ret_inv in H as ([] & w1' & Hput & H).
  assert (w1' = w1) as ->.
  { unfold w1, after_base. destruct upload_file; unfold put_object, sret in Hput; congruence. }
  apply sbind_ret_inv in H as (base & w1' & Hget & H).
  unfold get_object in Hget.
  destruct (fetch ("assets" ++ name) (objects w1)) as [base'|] eqn:Hbase; [|discriminate].
  injection Hget as <- <-.
  apply sbind_ret_inv in H as (ver & w1' & Hint & H).
  unfold lift, int_or_raise in Hint.
  destruct (PyStr.int (Metadata_version base')) as [ver'|] eqn:Hver; [|discriminate].
  injection Hint as <- <-.
  apply sbind_ret_inv in H as (bucket & w1' & Hname & H).
  unfold get_bucket_name in Hname. injection Hname as <- <-.
  apply sbind_ret_inv in H as (asset' & w2' & Hz & H).
  apply sbind_ret_inv in H as (cfgs & w3 & Hpatch & H).
  unfold sret in H. injection H as <- <- <-.
  assert (Hb1 : bucket_name w1 = bucket_name w).
  { unfold w1, after_base. now destruct upload_file. }
  assert (Hz' : w2' = w2 /\
    exists zipped,
      (if truthy zcontent
       then exists z, fetch ("assets" ++ name ++ ".gz") (objects w2) = Some z /\ zipped = Some z
       else zipped = None) /\
      asset' = asset_read env (bucket_name w) name base' zipped ver').
  { unfold w2, after_uploads. fold w1. destruct (truthy zcontent) eqn:Htz.
    - apply sbind_ret_inv in Hz as ([] & w2'' & Hputz & Hz).
      assert (w2'' = if upload_file && true
                     then stored env ("assets" ++ name ++ ".gz") (default "" zcontent)
                            (content_type_of name asset_type) (Some "gzip") version w1
                     else w1) as ->.
      { destruct upload_file; unfold put_object, sret in Hputz; now injection Hputz. }
      apply sbind_ret_inv in Hz as (z & w2'' & Hgetz & Hz).
      unfold get_object in Hgetz.
      destruct (fetch _ _) as [z'|] eqn:Hfz in Hgetz; [|discriminate].
      injection Hgetz as <- <-. unfold sret in Hz. injection Hz as <- <-.
      split; [easy|]. exists (Some z'). rewrite Hb1. split; [eauto|easy].
    - unfold sret in Hz. injection Hz as <- <-. rewrite andb_false_r.
      split; [easy|]. exists None. rewrite Hb1. now split. }
  destruct Hz' as (-> & zipped & Hzipped & ->).
  assert (Hfinish : same_bucket w2 w3 /\
            Forall2 (patched_record env name
                       (asset_read env (bucket_name w) name base' zipped ver') compatible)
              configs cfgs).
  { destruct compatible.
    - destruct (patch_configs_spec env name
                  (asset_read env (bucket_name w) name base' zipped ver') configs w2)
        as (cs & w3' & Hcs & Hsame & Hall).
      simpl in Hcs. rewrite Hcs in Hpatch. now injection Hpatch as <- <-.
    - unfold sret in Hpatch. injection Hpatch as <- <-.
      split; [apply same_bucket_refl | apply patched_record_off]. }
  destruct Hfinish as [Hsame Hall].
  exists base', ver', zipped.
  split; [reflexivity|]. split; [exact Hver|]. split; [exact Hzipped|].
  split; [reflexivity|]. split; [exact Hsame | exact Hall].
Qed.

(** C1, as the claim states it, fails: the local [a.json] is
    byte-identical to the remote one, which is at version 4, and nothing is
    uploaded; yet the manifest 1.0.0, which lists [/a.json] at version 3,
    comes back rewritten. *)
Lemma C1_counterexample :
  ~ (forall updated configs w',
       update_changed_assets sample_env (sample_fs "new") "out" None true
         (sample_world "new" "4") = (Ret (updated, configs), w') ->
       put_log w' = put_log (sample_world "new" "4") ->
       forall existing_assets existing_configs,
         parse_existing sample_env (objects (sample_world "new" "4")) ∅ []
           = Ret (existing_assets, existing_configs) ->
         configs = existing_configs).
Proof.
  intros H.
  pose proof (H _ _ _ ltac:(vm_compute; reflexivity) ltac:(reflexivity)
                _ _ ltac:(vm_compute; reflexivity)) as E.
  discriminate E.
Qed.

(** C1, amended: [update_asset] rewrites the records of [configs]
    whether or not it uploads. A manifest is rewritten (its matching
    entries patched, the record marked updated, [lastUpdatedAt] read from
    the clock) exactly when compatible mode is on and the manifest has an
    entry with the asset's name whose version is one less than the
    version read back from the store; every other manifest is left as it
    was; and a call that does not upload leaves the bucket as it was. *)
Theorem C1_patching_follows_stored_version env name asset_type content version zcontent
  compatible configs upload_file w asset configs' w' :
  update_asset env name asset_type content version zcontent compatible configs upload_file w
    = (Ret (asset, configs'), w') ->
  Forall2 (patched_record env name asset compatible) configs configs' /\
  (upload_file = false -> objects w' = objects w /\ put_log w' = put_log w).
Proof.
  intros H. apply update_asset_inv in H as (base & ver & zipped & _ & _ & _ & _ & Hsame & Hall).
  split; [easy|]. intros ->. unfold after_uploads, after_base in Hsame. simpl in Hsame.
  now destruct Hsame as (_ & ? & ?).
Qed.

Lemma C1_patching_follows_stored_version_witness :
  Forall2
    (patched_record sample_env "/a.json"
       (mkAsset 3 "https://s3.ca-central-1.amazonaws.com/bucket/assets/a.json?versionId=id-a"
          4 None) true)
    [("config/1.0.0.json",
      mkConfigRecord (mkManifest [sample_entry 3] 100) "config/1.0.0.json" false)]
    [("config/1.0.0.json",
      mkConfigRecord
        (mkManifest
           [mkFileEntry "/a.json" 3 (Some "json")
              "https://s3.ca-central-1.amazonaws.com/bucket/assets/a.json?versionId=id-a"
              4 None None] 1000)
        "config/1.0.0.json" true)] /\
  (false = false ->
   objects (mkWorld "bucket" (objects (sample_world "new" "4")) [] 1)
     = objects (sample_world "new" "4") /\
   put_log (mkWorld "bucket" (objects (sample_world "new" "4")) [] 1)
     = put_log (sample_world "new" "4")).
Proof.
  apply (C1_patching_follows_stored_version sample_env "/a.json" (Some "json") "new" 1 None
           true _ false (sample_world "new" "4")).
  vm_compute. reflexivity.
Defined.

(** ** The scanner *)

Lemma ascii_compare_trans_le (a b c : ascii) :
  Ascii.compare a b <> Gt -> Ascii.compare b c <> Gt -> Ascii.compare a c <> Gt.
Proof.
  unfold Ascii.compare. rewrite !N.compare_le_iff. lia.
Qed.

Lemma string_compare_refl (s : string) : String.compare s s = Eq.
Proof.
  induction s as [|c s IH]; simpl; [easy|].
  unfold Ascii.compare. now rewrite N.compare_refl.
Qed.

Lemma string_leb_trans (a b c : string) :
  String.leb a b = true -> String.leb b c = true -> String.leb a c = true.
Proof.
  unfold String.leb. revert b c.
  induction a as [|x a IH]; intros [|y b] [|z c]; simpl; try easy.
  unfold Ascii.compare.
  destruct (N.compare_spec (N_of_ascii x) (N_of_ascii y)) as [Hxy|Hxy|Hxy];
    destruct (N.compare_spec (N_of_ascii y) (N_of_ascii z)) as [Hyz|Hyz|Hyz];
    destruct (N.compare_spec (N_of_ascii x) (N_of_ascii z)) as [Hxz|Hxz|Hxz];
    try easy; try lia.
  apply IH.
Qed.

Lemma Forall_insert_by_name (P : string * string -> Prop) x l :
  P x -> Forall P l -> Forall P (insert_by_name x l).
Proof.
  intros Hx Hl. induction Hl as [|y l Hy Hl IH]; simpl.
  - now constructor.
  - destruct (String.leb (snd x) (snd y)).
    + constructor; [exact Hx|]. constructor; [exact Hy | exact Hl].
    + constructor; [exact Hy | exact IH].
Qed.

Lemma Forall_sort_by_name (P : string * string -> Prop) l :
  Forall P l -> Forall P (sort_by_name l).
Proof.
  induction 1 as [|x l Hx Hl IH]; simpl; [constructor|].
  now apply Forall_insert_by_name.
Qed.

Lemma sorted_insert_by_name x l :
  StronglySorted by_name l -> StronglySorted by_name (insert_by_name x l).
Proof.
  induction 1 as [|y l Hl IH Hy]; simpl.
  - repeat constructor.
  - destruct (String.leb (snd x) (snd y)) eqn:Hxy.
    + constructor; [now constructor|]. constructor; [easy|].
      eapply Forall_impl; [exact Hy|]. intros z Hz. unfold by_name in *.
      eapply string_leb_trans; eassumption.
    + constructor; [easy|]. apply Forall_insert_by_name; [|easy].
      unfold by_name. destruct (String.leb_total (snd x) (snd y)); congruence.
Qed.

Lemma sorted_sort_by_name l : StronglySorted by_name (sort_by_name l).
Proof.
  induction l as [|x l IH]; simpl; [constructor|]. now apply sorted_insert_by_name.
Qed.

Lemma node_induction (P : node -> Prop) :
  (forall content, P (File content)) ->
  (forall es, Forall (fun e => P (snd e)) es -> P (Dir es)) ->
  forall n, P n.
Proof.
  intros HF HD. fix IH 1. intros [content|es]; [apply HF|].
  apply HD. induction es as [|[name x] es IHes]; constructor; [apply IH | apply IHes].
Qed.

Lemma kept_files_kept asset_dir es : Forall kept (kept_files asset_dir es).
Proof.
  induction es as [|[file [content|sub]] es IH]; cbn [kept_files]; [constructor| |easy].
  destruct (PyStr.startswith "." file) eqn:Hdot; cbn [negb andb]; [easy|].
  destruct (PyStr.contains "config" (path_join asset_dir file)) eqn:Hcfg; cbn [negb]; [easy|].
  constructor; [now split | easy].
Qed.

Lemma scan_node_kept n : forall asset_dir, Forall kept (scan_node asset_dir n).
Proof.
  induction n as [content|es IH] using node_induction; intros asset_dir; simpl.
  - constructor.
  - apply Forall_sort_by_name, Forall_app. split; [apply kept_files_kept|].
    induction IH as [|[file [content|sub]] es Hx Hes IHes]; simpl; [constructor|easy|].
    apply Forall_app. split; [apply Hx | apply IHes].
Qed.

Lemma scan_node_sorted asset_dir es : StronglySorted by_name (scan_node asset_dir (Dir es)).
Proof. apply sorted_sort_by_name. Qed.

(** C9: every asset the scanner returns has a name that does not start
    with a dot and a path that does not contain [config], and the list is
    in the order of the file names. *)
Theorem C9_scanner_filters_and_sorts root asset_dir assets :
  get_all_assets root asset_dir = Ret assets ->
  Forall kept assets /\ StronglySorted by_name assets.
Proof.
  unfold get_all_assets. intros H.
  apply obind_ret_inv in H as (es & _ & [= <-]).
  split; [apply (scan_node_kept (Dir es)) | apply (scan_node_sorted asset_dir es)].
Qed.

Lemma C9_scanner_filters_and_sorts_witness :
  Forall kept [("out/img", "a.PNG"); ("out", "a.txt"); ("out", "b.json")] /\
  StronglySorted by_name [("out/img", "a.PNG"); ("out", "a.txt"); ("out", "b.json")].
Proof.
  apply (C9_scanner_filters_and_sorts sample_tree "out").
  vm_compute. reflexivity.
Defined.

(** ** The manifest of a development environment *)

Lemma find_entry_set_entry name x es : find_entry name (set_entry name x es) = Some x.
Proof.
  induction es as [|[n y] es IH]; simpl.
  - now rewrite String.eqb_refl.
  - destruct (String.eqb n name) eqn:Hn; simpl; now rewrite Hn.
Qed.

Lemma node_at_put_node root loc new :
  loc <> [] -> is_dir_at root (removelast loc) = true ->
  node_at (put_node root loc new) loc = Some new.
Proof.
  revert root. induction loc as [|c loc IH]; intros root Hne Hdir; [easy|].
  destruct loc as [|c' loc].
  - unfold is_dir_at in Hdir. simpl in *. destruct root as [|es]; [easy|].
    simpl. now rewrite find_entry_set_entry.
  - unfold is_dir_at in Hdir. cbn [removelast node_at] in Hdir.
    destruct root as [|es]; [easy|].
    cbn [put_node]. destruct (find_entry c es) as [x|] eqn:Hx; [|easy].
    cbn [node_at]. rewrite find_entry_set_entry. apply IH; [easy|].
    unfold is_dir_at. exact Hdir.
Qed.

Lemma open_w_inv path fs fs' :
  open_w path fs = (Ret tt, fs') ->
  exists loc, resolve fs path = Some loc /\ node_at fs' loc = Some (File "").
Proof.
  unfold open_w. destruct (resolve fs path) as [loc|]; [|easy].
  destruct loc as [|c loc]; [easy|].
  destruct (node_at fs (c :: loc)) as [[content|es]|] eqn:Hn; try easy;
    destruct (is_dir_at fs (removelast (c :: loc))) eqn:Hd; try easy;
    intros [= <-]; exists (c :: loc); (split; [easy|]);
    now apply (node_at_put_node fs (c :: loc) (File "")).
Qed.

(** C10, as the claim states it, fails: when the output directory exists
    already, [os.makedirs] raises before the serialization step is
    reached. *)
Lemma C10_counterexample :
  ~ (exists fs',
       build_dev_config 0 "out" "out/config" "dev.json" sample_tree
         = (Raise (NameError "config_json"), fs')).
Proof. intros [fs' H]. vm_compute in H. discriminate H. Qed.

(** C10, amended: the development manifest builder never returns
    normally; when scanning the asset directory, making the output
    directory, measuring the assets and opening the output file all
    succeed, it raises the undefined-variable error of the serialization
    step, and the file it opened is left empty. *)
Theorem C10_dev_config_raises now asset_dir output_dir filename fs :
  (exists e fs', build_dev_config now asset_dir output_dir filename fs = (Raise e, fs')) /\
  forall assets fs1 dev_files fs2,
    get_all_assets fs asset_dir = Ret assets ->
    makedirs output_dir fs = (Ret tt, fs1) ->
    omap (dev_file fs1) assets = Ret dev_files ->
    open_w (path_join output_dir filename) fs1 = (Ret tt, fs2) ->
    build_dev_config now asset_dir output_dir filename fs
      = (Raise (NameError "config_json"), fs2) /\
    exists loc, resolve fs1 (path_join output_dir filename) = Some loc /\
                node_at fs2 loc = Some (File "").
Proof.
  unfold build_dev_config, sbind, sraise. split.
  - destruct (get_all_assets fs asset_dir) as [assets|e]; [|eauto].
    destruct (makedirs output_dir fs) as [[[]|e] fs1]; [|eauto].
    destruct (omap (dev_file fs1) assets) as [dev_files|e]; [|eauto].
    destruct (open_w (path_join output_dir filename) fs1) as [[[]|e] fs2]; eauto.
  - intros assets fs1 dev_files fs2 -> -> -> Hopen. rewrite Hopen.
    split; [easy|]. now apply open_w_inv.
Qed.

Lemma C10_dev_config_raises_witness :
  build_dev_config 0 "out" "dev" "dev.json" sample_tree
    = (Raise (NameError "config_json"),
       Dir [("out", Dir [("b.json", File "bb"); (".hidden", File "h");
                         ("img", Dir [("a.PNG", File "png")]);
                         ("config", Dir [("c.json", File "c")]);
                         ("a.txt", File "t")]);
            ("dev", Dir [("dev.json", File "")])]).
Proof.
  refine (proj1 (proj2 (C10_dev_config_raises 0 "out" "dev" "dev.json" sample_tree)
                   _ _ _ _ _ _ _ _));
    vm_compute; reflexivity.
Defined.

(** ** Reading the remote state *)

Lemma asset_key_not_config (k : string) : is_asset_key k = true -> is_config_key k = false.
Proof.
  unfold is_asset_key, is_config_key.
  intros [->%String.eqb_eq _]%andb_true_iff. reflexivity.
Qed.

Lemma asset_key_form (k : string) : is_asset_key k = true -> k = "assets" ++ PyStr.drop 6 k.
Proof.
  unfold is_asset_key. intros [H _]%andb_true_iff. apply String.eqb_eq in H.
  destruct k as [|c1 [|c2 [|c3 [|c4 [|c5 [|c6 [|c7 k]]]]]]]; try discriminate.
  simpl in H. injection H as -> -> -> -> -> -> _. reflexivity.
Qed.

Lemma parse_existing_app env l1 l2 ea ec :
  parse_existing env (l1 ++ l2) ea ec
  = let* (ea1, ec1) := parse_existing env l1 ea ec in parse_existing env l2 ea1 ec1.
Proof.
  revert ea ec. induction l1 as [|item l1 IH]; intros ea ec; cbn [parse_existing app obind].
  - reflexivity.
  - destruct (is_config_key (Key item)).
    + destruct (parse_existing_config env item ec); cbn [obind]; [apply IH | reflexivity].
    + destruct (is_asset_key (Key item)); [|apply IH].
      destruct (parse_existing_asset item ea); cbn [obind]; [apply IH | reflexivity].
Qed.

Lemma parse_existing_asset_dom item ea ea' :
  parse_existing_asset item ea = Ret ea' ->
  forall k, is_Some (ea' !! k) <->
            is_Some (ea !! k) \/
            (String.eqb (PyStr.last 3 (PyStr.drop 6 (Key item))) ".gz" = false /\
             k = PyStr.drop 6 (Key item)).
Proof.
  unfold parse_existing_asset.
  destruct (String.eqb (PyStr.last 3 (PyStr.drop 6 (Key item))) ".gz") eqn:Hgz.
  - destruct (ea !! PyStr.but_last 3 (PyStr.drop 6 (Key item))) as [r|] eqn:Hr; [|easy].
    intros [= <-] k.
    destruct (decide (k = PyStr.but_last 3 (PyStr.drop 6 (Key item)))) as [->|Hk].
    + rewrite lookup_insert_eq, Hr. split; [eauto | intros _; eauto].
    + rewrite lookup_insert_ne by easy. split; [eauto | intros [|[? _]]; easy].
  - intros [= <-] k.
    destruct (decide (k = PyStr.drop 6 (Key item))) as [->|Hk].
    + rewrite lookup_insert_eq. split; eauto.
    + rewrite lookup_insert_ne by easy. split; [eauto | intros [|[_ ?]]; easy].
Qed.

Lemma base_listed_cons item l k :
  base_listed (item :: l) k <->
  (is_base_key item = true /\ PyStr.drop 6 (Key item) = k) \/ base_listed l k.
Proof.
  unfold base_listed. split.
  - intros (b & [<-|Hin] & Hb & Hk); [now left | right; eauto].
  - intros [[Hb Hk]|(b & Hin & Hb & Hk)]; [exists item | exists b]; simpl; auto.
Qed.

Lemma parse_existing_dom env l ea0 ec0 ea ec :
  parse_existing env l ea0 ec0 = Ret (ea, ec) ->
  forall k, is_Some (ea !! k) <-> is_Some (ea0 !! k) \/ base_listed l k.
Proof.
  revert ea0 ec0. induction l as [|item l IH]; intros ea0 ec0; cbn [parse_existing].
  - intros [= <- <-] k. split; [eauto | intros [|(b & [] & _)]; easy].
  - intros H k. rewrite base_listed_cons. unfold is_base_key.
    destruct (is_config_key (Key item)) eqn:Hc.
    + apply obind_ret_inv in H as (ec1 & _ & H). rewrite (IH _ _ H).
      destruct (is_asset_key (Key item)) eqn:Ha;
        [apply asset_key_not_config in Ha; congruence|].
      simpl. intuition congruence.
    + destruct (is_asset_key (Key item)) eqn:Ha.
      * apply obind_ret_inv in H as (ea1 & Hstep & H). rewrite (IH _ _ H).
        rewrite (parse_existing_asset_dom _ _ _ Hstep). simpl.
        rewrite negb_true_iff. intuition congruence.
      * rewrite (IH _ _ H). simpl. intuition congruence.
Qed.

Lemma parse_existing_asset_gz item ea r :
  is_gz_key item = true -> ea !! base_of item = Some r ->
  exists ea', parse_existing_asset item ea = Ret ea' /\
    exists r', ea' !! base_of item = Some r' /\ e_zipped r' = true.
Proof.
  unfold is_gz_key, base_of, parse_existing_asset.
  intros [_ ->]%andb_true_iff ->. eexists. split; [reflexivity|].
  rewrite lookup_insert_eq. eauto.
Qed.


Lemma parse_existing_asset_base item ea :
  is_gz_key item = false -> is_asset_key (Key item) = true ->
  exists ea', parse_existing_asset item ea = Ret ea'.
Proof.
  unfold is_gz_key, parse_existing_asset. intros H Ha. rewrite Ha in H.
  cbn [andb] in H. rewrite H. eauto.
Qed.

Lemma ordered_prefix l1 l2 : ordered (l1 ++ l2) -> ordered l1.
Proof.
  intros H l1' item l2' -> Hgz.
  apply (H l1' item (l2' ++ l2)%list); [|easy]. now rewrite <- app_assoc.
Qed.

Lemma configs_decode_prefix env l1 l2 : configs_decode env (l1 ++ l2) -> configs_decode env l1.
Proof. intros H item Hin. apply H, in_app_iff. now left. Qed.

(** Under the ordering and with manifests that decode, the whole listing is
    read. *)
Lemma parse_existing_ordered env l :
  ordered l -> configs_decode env l ->
  exists ea ec, parse_existing env l ∅ [] = Ret (ea, ec).
Proof.
  induction l as [|item l IH] using rev_ind; intros Hord Hdec; [simpl; eauto|].
  destruct (IH (ordered_prefix _ _ Hord) (configs_decode_prefix _ _ _ Hdec)) as (ea & ec & Hl).
  rewrite parse_existing_app, Hl. cbn [obind parse_existing].
  destruct (is_config_key (Key item)) eqn:Hc.
  - unfold parse_existing_config.
    destruct (json_loads env (Body item)) eqn:Hj; cbn [obind]; [eauto|].
    exfalso. apply (Hdec item); [apply in_app_iff; right; now left | easy | easy].
  - destruct (is_asset_key (Key item)) eqn:Ha; [|eauto].
    destruct (is_gz_key item) eqn:Hgz.
    + pose proof (Hord l item [] eq_refl Hgz) as Hb.
      assert (Hsome : is_Some (ea !! base_of item)).
      { apply (parse_existing_dom _ _ _ _ _ _ Hl). now right. }
      destruct Hsome as [r Hr].
      destruct (parse_existing_asset_gz item ea r Hgz Hr) as (ea' & -> & _).
      cbn [obind]. eauto.
    + destruct (parse_existing_asset_base item ea Hgz Ha) as (ea' & ->). cbn [obind]. eauto.
Qed.



(** ** One step of the reconciler *)

Lemma update_changed_asset_eq env fs ea compatible ua cfgs folder name w :
  update_changed_asset env fs ea compatible (ua, cfgs) (folder, name) w =
  if ends_gz name then (Ret (ua, cfgs), w)
  else
    match read_file fs (path_join folder name) with
    | Raise e => (Raise e, w)
    | Ret content =>
        match local_zcontent fs folder name with
        | Raise e => (Raise e, w)
        | Ret z =>
            match upload_decision ea ("/" ++ name) content with
            | Raise e => (Raise e, w)
            | Ret (last_version, upload_file) =>
                match update_asset env ("/" ++ name) (get_asset_type name) content
                        (last_version + 1) z compatible cfgs upload_file w with
                | (Ret (asset, cfgs'), w') =>
                    (Ret (dict_set ("/" ++ name)
                            (built_asset ("/" ++ name) (get_asset_type name) asset) ua,
                          cfgs'), w')
                | (Raise e, w') => (Raise e, w')
                end
            end
        end
    end.
Proof.
  unfold update_changed_asset, ends_gz, local_zcontent, upload_decision. cbn [fst snd].
  destruct (String.eqb (PyStr.last 3 name) ".gz"); [reflexivity|].
  unfold sbind at 1. unfold lift at 1.
  destruct (read_file fs (path_join folder name)) as [content|e]; [|reflexivity].
  unfold sbind at 1.
  destruct (path_exists fs (path_join folder (name ++ ".gz"))).
  - unfold sbind at 1. unfold lift at 1.
    destruct (read_file fs (path_join folder (name ++ ".gz"))) as [z|e]; [|reflexivity].
    cbn [obind]. unfold sret at 1. unfold sbind at 1. unfold lift at 1.
    destruct (ea !! ("/" ++ name)) as [r|].
    + destruct (String.eqb (e_content r) content).
      * unfold sbind. destruct (update_asset _ _ _ _ _ _ _ _ _ _) as [[[a c]|e] w']; reflexivity.
      * destruct (int_or_raise (e_version r)) as [v|e]; cbn [obind]; [|reflexivity].
        unfold sbind. destruct (update_asset _ _ _ _ _ _ _ _ _ _) as [[[a c]|e] w']; reflexivity.
    + unfold sbind. destruct (update_asset _ _ _ _ _ _ _ _ _ _) as [[[a c]|e] w']; reflexivity.
  - unfold sret at 1. unfold sbind at 1. unfold lift at 1.
    destruct (ea !! ("/" ++ name)) as [r|].
    + destruct (String.eqb (e_content r) content).
      * unfold sbind. destruct (update_asset _ _ _ _ _ _ _ _ _ _) as [[[a c]|e] w']; reflexivity.
      * destruct (int_or_raise (e_version r)) as [v|e]; cbn [obind]; [|reflexivity].
        unfold sbind. destruct (update_asset _ _ _ _ _ _ _ _ _ _) as [[[a c]|e] w']; reflexivity.
    + unfold sbind. destruct (update_asset _ _ _ _ _ _ _ _ _ _) as [[[a c]|e] w']; reflexivity.
Qed.

Lemma append_gz_ne (s : string) : s ++ ".gz" <> s.
Proof.
  intros H. apply (f_equal String.length) in H. rewrite length_append in H. simpl in H. lia.
Qed.

Lemma bucket_name_after_uploads env name ty content v z up w :
  bucket_name (after_uploads env name ty content v z up w) = bucket_name w.
Proof. unfold after_uploads, after_base. now destruct up, (truthy z). Qed.

Lemma fetch_base_after_uploads env name ty content v z up w :
  fetch ("assets" ++ name) (objects (after_uploads env name ty content v z up w))
  = fetch ("assets" ++ name) (objects (after_base env name ty content v up w)).
Proof.
  unfold after_uploads. destruct (up && truthy z); [|reflexivity].
  cbn [stored objects]. apply fetch_store_ne. cbn [Key].
  intros H. apply (append_gz_ne ("assets" ++ name)).
  rewrite H at 2. simpl. reflexivity.
Qed.

Lemma put_log_after_uploads env name ty content v z up w :
  put_log (after_uploads env name ty content v z up w)
  = app (put_log w)
      (if up then ("assets" ++ name) :: (if truthy z then ["assets" ++ name ++ ".gz"] else [])
       else []).
Proof.
  unfold after_uploads, after_base. destruct up; cbn [andb].
  - destruct (truthy z); cbn [stored put_log]; [now rewrite <- app_assoc | reflexivity].
  - now rewrite app_nil_r.
Qed.

Lemma update_asset_observed env name ty content v z compat cfgs up w asset cfgs' w' :
  update_asset env name ty content v z compat cfgs up w = (Ret (asset, cfgs'), w') ->
  observed env w' name z = Ret asset.
Proof.
  intros H. apply update_asset_inv in H
    as (base & ver & zipped & Hbase & Hver & Hz & -> & (Hn & Ho & _) & _).
  rewrite <- fetch_base_after_uploads with (z := z) in Hbase.
  unfold observed, int_or_raise. rewrite Hn, Ho, Hbase, Hver, bucket_name_after_uploads.
  cbn [obind]. destruct (truthy z).
  - destruct Hz as (zo & -> & ->). reflexivity.
  - now subst zipped.
Qed.

Lemma update_asset_run env name ty content v z compat cfgs up w asset :
  observed env (after_uploads env name ty content v z up w) name z = Ret asset ->
  exists cfgs' w',
    update_asset env name ty content v z compat cfgs up w = (Ret (asset, cfgs'), w') /\
    same_bucket (after_uploads env name ty content v z up w) w' /\
    Forall2 (patched_record env name asset compat) cfgs cfgs'.
Proof.
  intros Hobs. unfold observed in Hobs.
  rewrite fetch_base_after_uploads, bucket_name_after_uploads in Hobs.
  destruct (fetch ("assets" ++ name) (objects (after_base env name ty content v up w)))
    as [base|] eqn:Hbase; [|discriminate].
  unfold int_or_raise in Hobs.
  destruct (PyStr.int (Metadata_version base)) as [ver|] eqn:Hver; [|discriminate].
  cbn [obind] in Hobs.
  assert (Hfinish : forall w2 : World,
    exists cfgs' w',
      (let! configs := (if compat then patch_configs env name (a_version asset) asset cfgs
                        else sret cfgs) in sret (asset, configs)) w2
        = (Ret (asset, cfgs'), w') /\
      same_bucket w2 w' /\ Forall2 (patched_record env name asset compat) cfgs cfgs').
  { intros w2. destruct compat.
    - destruct (patch_configs_spec env name asset cfgs w2) as (cs & w3 & Hcs & Hsame & Hall).
      exists cs, w3. now rewrite (sbind_run _ _ _ _ _ Hcs).
    - exists cfgs, w2. unfold sbind, sret.
      split; [easy|]. split; [apply same_bucket_refl | apply patched_record_off]. }
  unfold update_asset.
  assert (Hput : (if up then put_object env ("assets" ++ name) content
                               (content_type_of name ty) None v else sret ()) w
                 = (Ret (), after_base env name ty content v up w)).
  { unfold after_base. now destruct up. }
  rewrite (sbind_run _ _ _ _ _ Hput).
  assert (Hget : get_object ("assets" ++ name) (after_base env name ty content v up w)
                 = (Ret base, after_base env name ty content v up w)).
  { unfold get_object. now rewrite Hbase. }
  rewrite (sbind_run _ _ _ _ _ Hget).
  unfold sbind at 1. unfold lift at 1. unfold int_or_raise. rewrite Hver.
  unfold sbind at 1. unfold get_bucket_name at 1.
  assert (Hb1 : bucket_name (after_base env name ty content v up w) = bucket_name w).
  { unfold after_base. now destruct up. }
  rewrite Hb1.
  unfold after_uploads in *. destruct (truthy z) eqn:Htz.
  - rewrite andb_true_r in *.
    set (w2 := if up then stored env ("assets" ++ name ++ ".gz") (default "" z)
                            (content_type_of name ty) (Some "gzip") v
                            (after_base env name ty content v up w)
               else after_base env name ty content v up w) in *.
    destruct (fetch ("assets" ++ name ++ ".gz") (objects w2)) as [zo|] eqn:Hzo; [|discriminate].
    injection Hobs as <-.
    assert (Hputz : (if up then put_object env ("assets" ++ name ++ ".gz") (default "" z)
                                  (content_type_of name ty) (Some "gzip") v else sret ())
                      (after_base env name ty content v up w) = (Ret (), w2)).
    { unfold w2. now destruct up. }
    unfold sbind at 1. unfold sbind at 1. rewrite Hputz.
    unfold sbind at 1. unfold get_object at 1. rewrite Hzo. unfold sret at 1.
    apply (Hfinish w2).
  - rewrite andb_false_r in *. injection Hobs as <-.
    unfold sbind at 1. unfold sret at 1.
    apply (Hfinish (after_base env name ty content v up w)).
Qed.

Lemma update_asset_skip env name ty content v z compat cfgs w asset :
  observed env w name z = Ret asset ->
  exists cfgs' w',
    update_asset env name ty content v z compat cfgs false w = (Ret (asset, cfgs'), w') /\
    same_bucket w w' /\
    Forall2 (patched_record env name asset compat) cfgs cfgs'.
Proof. apply (update_asset_run env name ty content v z compat cfgs false w asset). Qed.

Lemma observed_after_upload env name ty content v z w :
  exists asset,
    observed env (after_uploads env name ty content v z true w) name z = Ret asset /\
    a_version asset = v /\ a_size asset = Z.of_nat (String.length content) /\
    a_url asset = asset_url env (bucket_name w) name ""
                    (new_version_id env (List.length (put_log w))).
Proof.
  unfold observed. rewrite fetch_base_after_uploads, bucket_name_after_uploads.
  unfold after_base. cbn [stored objects].
  change ("assets" ++ name)
    with (Key (mkS3Object ("assets" ++ name) content (content_type_of name ty) None
                 (PyStr.str v) (new_version_id env (List.length (put_log w))))) at 1.
  rewrite fetch_store_eq. cbn [Metadata_version]. rewrite int_or_raise_str. cbn [obind].
  unfold after_uploads, after_base. cbn [andb]. destruct (truthy z).
  - cbn [stored objects].
    change ("assets" ++ name ++ ".gz")
      with (Key (mkS3Object ("assets" ++ name ++ ".gz") (default "" z)
                   (content_type_of name ty) (Some "gzip") (PyStr.str v)
                   (new_version_id env
                      (List.length (put_log w ++ [("assets" ++ name)%string])%list)))) at 1.
    rewrite fetch_store_eq. eexists. split; [reflexivity|]. now repeat split.
  - eexists. split; [reflexivity|]. now repeat split.
Qed.

Lemma dict_get_set_eq {V} (k : string) (v : V) d : dict_get k (dict_set k v d) = Some v.
Proof.
  induction d as [|[k' v'] d IH]; simpl.
  - now rewrite String.eqb_refl.
  - destruct (String.eqb k' k) eqn:Hk; simpl; now rewrite Hk.
Qed.

Lemma dict_get_set_ne {V} (k k' : string) (v : V) d :
  k' <> k -> dict_get k' (dict_set k v d) = dict_get k' d.
Proof.
  intros Hne. induction d as [|[k0 v0] d IH]; simpl.
  - destruct (String.eqb_spec k k'); [congruence | reflexivity].
  - destruct (String.eqb_spec k0 k) as [->|Hk0]; simpl.
    + destruct (String.eqb_spec k k'); [congruence | reflexivity].
    + now rewrite IH.
Qed.




(** ** The remote state agrees with the bucket *)

Lemma same_data_refl e : same_data e e.
Proof. now repeat split. Qed.

Lemma same_data_trans e1 e2 e3 : same_data e1 e2 -> same_data e2 e3 -> same_data e1 e3.
Proof. intros (?&?&?) (?&?&?). repeat split; congruence. Qed.

Lemma records_same_data o e e' : records o e -> same_data e e' -> records o e'.
Proof. intros (?&?&?) (?&?&?). repeat split; congruence. Qed.

Lemma base_key_form item :
  is_base_key item = true -> Key item = "assets" ++ PyStr.drop 6 (Key item).
Proof. unfold is_base_key. intros [H _]%andb_true_iff. now apply asset_key_form. Qed.

(** One asset key of the listing: the key [k] of [existing_assets] either
    is the one the item is recorded under, or keeps its data. *)
Lemma parse_existing_asset_step item ea0 ea1 k :
  is_asset_key (Key item) = true ->
  parse_existing_asset item ea0 = Ret ea1 ->
  (is_base_key item = true /\ Key item = "assets" ++ k /\
     exists e1, ea1 !! k = Some e1 /\ records item e1) \/
  ((Key item = "assets" ++ k -> is_base_key item = false) /\
   match ea0 !! k with
   | Some e0 => exists e1, ea1 !! k = Some e1 /\ same_data e0 e1
   | None => ea1 !! k = None
   end).
Proof.
  intros Ha. unfold parse_existing_asset, is_base_key. rewrite Ha. cbn [andb].
  destruct (String.eqb (PyStr.last 3 (PyStr.drop 6 (Key item))) ".gz") eqn:Hgz.
  - destruct (ea0 !! PyStr.but_last 3 (PyStr.drop 6 (Key item))) as [r|] eqn:Hr; [|easy].
    intros [= <-]. right. split; [reflexivity|].
    destruct (decide (k = PyStr.but_last 3 (PyStr.drop 6 (Key item)))) as [->|Hk].
    + rewrite lookup_insert_eq, Hr. eexists. split; [reflexivity | now repeat split].
    + rewrite lookup_insert_ne by easy.
      destruct (ea0 !! k) as [e0|]; [|easy]. eexists. split; [reflexivity|apply same_data_refl].
  - intros [= <-].
    destruct (decide (k = PyStr.drop 6 (Key item))) as [->|Hk].
    + left. split; [reflexivity|]. split; [now apply asset_key_form|].
      rewrite lookup_insert_eq. eexists. split; [reflexivity | now repeat split].
    + right. split.
      * intros Hkey. exfalso. apply Hk. rewrite Hkey. reflexivity.
      * rewrite lookup_insert_ne by easy.
        destruct (ea0 !! k) as [e0|]; [|easy].
        eexists. split; [reflexivity|apply same_data_refl].
Qed.

(** Where a record of the remote state comes from. *)
Lemma parse_existing_source env l ea0 ec0 ea ec k e :
  parse_existing env l ea0 ec0 = Ret (ea, ec) ->
  ea !! k = Some e ->
  (exists o, In o l /\ is_base_key o = true /\ Key o = "assets" ++ k /\ records o e) \/
  (exists e0, ea0 !! k = Some e0 /\ same_data e0 e).
Proof.
  revert ea0 ec0. induction l as [|item l IH]; intros ea0 ec0; cbn [parse_existing].
  - intros [= <- <-] He. right. eexists. split; [exact He | apply same_data_refl].
  - intros H He.
    assert (Hlift : forall ea1 ec1,
      parse_existing env l ea1 ec1 = Ret (ea, ec) ->
      (forall e1, ea1 !! k = Some e1 ->
         (is_base_key item = true /\ Key item = "assets" ++ k /\ records item e1) \/
         (exists e0, ea0 !! k = Some e0 /\ same_data e0 e1)) ->
      (exists o, In o (item :: l) /\ is_base_key o = true /\ Key o = "assets" ++ k /\
                 records o e) \/
      (exists e0, ea0 !! k = Some e0 /\ same_data e0 e)).
    { intros ea1 ec1 Hl Hstep.
      destruct (IH _ _ Hl He) as [(o & Hin & Hb & Hk & Hr)|(e1 & He1 & Hsd)].
      - left. exists o. simpl. auto.
      - destruct (Hstep _ He1) as [(Hb & Hk & Hr)|(e0 & He0 & Hsd0)].
        + left. exists item. simpl. split; [now left|].
          split; [easy|]. split; [easy|]. eapply records_same_data; eassumption.
        + right. exists e0. split; [easy|]. eapply same_data_trans; eassumption. }
    destruct (is_config_key (Key item)) eqn:Hc.
    + apply obind_ret_inv in H as (ec1 & _ & H). apply (Hlift _ _ H).
      intros e1 He1. right. exists e1. split; [easy | apply same_data_refl].
    + destruct (is_asset_key (Key item)) eqn:Ha.
      * apply obind_ret_inv in H as (ea1 & Hstep & H). apply (Hlift _ _ H).
        intros e1 He1.
        destruct (parse_existing_asset_step item ea0 ea1 k Ha Hstep)
          as [(Hb & Hk & e1' & He1' & Hr)|(_ & Hkeep)].
        -- left. rewrite He1 in He1'. injection He1' as <-. easy.
        -- destruct (ea0 !! k) as [e0|]; [|congruence].
           destruct Hkeep as (e1' & He1' & Hsd). rewrite He1 in He1'. injection He1' as <-.
           right. eauto.
      * apply (Hlift _ _ H). intros e1 He1. right. exists e1.
        split; [easy | apply same_data_refl].
Qed.

(** A record stays, up to its flag, while no object with its key is
    listed. *)
Lemma parse_existing_keeps env l ea0 ec0 ea ec k e0 :
  parse_existing env l ea0 ec0 = Ret (ea, ec) ->
  ea0 !! k = Some e0 ->
  ~ In ("assets" ++ k) (map Key l) ->
  exists e, ea !! k = Some e /\ same_data e0 e.
Proof.
  revert ea0 ec0 e0. induction l as [|item l IH]; intros ea0 ec0 e0; cbn [parse_existing].
  - intros [= <- <-] He _. eexists. split; [exact He | apply same_data_refl].
  - intros H He Hnotin. cbn [map] in Hnotin.
    assert (Hhead : Key item <> "assets" ++ k) by (intros Hk; apply Hnotin; now left).
    assert (Htail : ~ In ("assets" ++ k) (map Key l)) by (intros Hk; apply Hnotin; now right).
    destruct (is_config_key (Key item)) eqn:Hc.
    + apply obind_ret_inv in H as (ec1 & _ & H). now apply (IH _ _ _ H).
    + destruct (is_asset_key (Key item)) eqn:Ha; [|now apply (IH _ _ _ H)].
      apply obind_ret_inv in H as (ea1 & Hstep & H).
      destruct (parse_existing_asset_step item ea0 ea1 k Ha Hstep)
        as [(_ & Hk & _)|(_ & Hkeep)]; [congruence|].
      rewrite He in Hkeep. destruct Hkeep as (e1 & He1 & Hsd).
      destruct (IH _ _ _ H He1 Htail) as (e & Hee & Hsd').
      exists e. split; [easy|]. eapply same_data_trans; eassumption.
Qed.

(** With distinct keys, every base asset of the listing is recorded with
    its own data. *)
Lemma parse_existing_records env l ea0 ec0 ea ec o :
  parse_existing env l ea0 ec0 = Ret (ea, ec) ->
  List.NoDup (map Key l) -> In o l -> is_base_key o = true ->
  exists e, ea !! PyStr.drop 6 (Key o) = Some e /\ records o e.
Proof.
  revert ea0 ec0. induction l as [|item l IH]; intros ea0 ec0; cbn [parse_existing]; [easy|].
  intros H Hnd Hin Hb. cbn [map] in Hnd. inversion Hnd as [|? ? Hni Hnd']; subst.
  destruct Hin as [->|Hin].
  - pose proof Hb as Ha. unfold is_base_key in Ha. apply andb_true_iff in Ha as [Ha _].
    rewrite (asset_key_not_config _ Ha), Ha in H.
    apply obind_ret_inv in H as (ea1 & Hstep & H).
    destruct (parse_existing_asset_step o ea0 ea1 (PyStr.drop 6 (Key o)) Ha Hstep)
      as [(_ & _ & e1 & He1 & Hr)|(Hno & _)].
    + rewrite (base_key_form _ Hb) in Hni.
      destruct (parse_existing_keeps _ _ _ _ _ _ _ _ H He1 Hni) as (e & He & Hsd).
      exists e. split; [easy|]. eapply records_same_data; eassumption.
    + rewrite Hno in Hb; [discriminate | now apply base_key_form].
  - destruct (is_config_key (Key item)).
    + apply obind_ret_inv in H as (ec1 & _ & H). now apply (IH _ _ H).
    + destruct (is_asset_key (Key item)); [|now apply (IH _ _ H)].
      apply obind_ret_inv in H as (ea1 & _ & H). now apply (IH _ _ H).
Qed.

Lemma parse_existing_fetch env l ea ec k e :
  parse_existing env l ∅ [] = Ret (ea, ec) ->
  List.NoDup (map Key l) ->
  ea !! k = Some e ->
  exists o, fetch ("assets" ++ k) l = Some o /\ records o e.
Proof.
  intros H Hnd He.
  destruct (parse_existing_source _ _ _ _ _ _ _ _ H He)
    as [(o & Hin & _ & Hk & Hr)|(e0 & He0 & _)]; [|now rewrite lookup_empty in He0].
  exists o. split; [|easy]. rewrite <- Hk. now apply fetch_In.
Qed.

(** ** Versions through a run of the reconciler *)

Lemma ends_gz_slash (n : string) : ends_gz ("/" ++ n) = ends_gz n.
Proof. apply last3_slash. Qed.


Lemma fetch_after_uploads_other env name ty content v z up w K :
  K <> "assets" ++ name -> K <> "assets" ++ name ++ ".gz" ->
  fetch K (objects (after_uploads env name ty content v z up w)) = fetch K (objects w).
Proof.
  intros H1 H2. unfold after_uploads, after_base.
  destruct up; [|reflexivity]. cbn [andb].
  destruct (truthy z); cbn [stored objects];
    rewrite ?fetch_store_ne by (cbn [Key]; congruence); reflexivity.
Qed.


Lemma upload_decision_skip ea s content lv :
  upload_decision ea s content = Ret (lv, false) ->
  exists e, ea !! s = Some e /\ e_content e = content.
Proof.
  unfold upload_decision. destruct (ea !! s) as [e|]; [|discriminate].
  destruct (String.eqb_spec (e_content e) content) as [He|_]; [eauto|].
  destruct (int_or_raise (e_version e)); discriminate.
Qed.

(** What a successful step of the loop amounts to. *)
Lemma update_changed_asset_inv env fs ea compatible ua cfgs folder name w ua' cfgs' w' :
  update_changed_asset env fs ea compatible (ua, cfgs) (folder, name) w
    = (Ret (ua', cfgs'), w') ->
  (ends_gz name = true /\ ua' = ua /\ cfgs' = cfgs /\ w' = w) \/
  (ends_gz name = false /\
   exists content z lv up asset,
     read_file fs (path_join folder name) = Ret content /\
     local_zcontent fs folder name = Ret z /\
     upload_decision ea ("/" ++ name) content = Ret (lv, up) /\
     update_asset env ("/" ++ name) (get_asset_type name) content (lv + 1) z compatible
       cfgs up w = (Ret (asset, cfgs'), w') /\
     ua' = dict_set ("/" ++ name)
             (built_asset ("/" ++ name) (get_asset_type name) asset) ua).
Proof.
  rewrite update_changed_asset_eq. destruct (ends_gz name).
  - intros [= <- <- <-]. now left.
  - destruct (read_file fs (path_join folder name)) as [content|] eqn:Hr; [|discriminate].
    destruct (local_zcontent fs folder name) as [z|] eqn:Hz; [|discriminate].
    destruct (upload_decision ea ("/" ++ name) content) as [[lv up]|] eqn:Hd; [|discriminate].
    destruct (update_asset _ _ _ _ _ _ _ _ _ _) as [[[asset c]|] w1] eqn:Hu; [|discriminate].
    intros [= <- <- <-]. right. split; [reflexivity|].
    exists content, z, lv, up, asset.
    split; [reflexivity|]. split; [reflexivity|]. split; [exact Hd|].
    split; [exact Hu | reflexivity].
Qed.



(** A run that returns has parsed the listing, scanned the tree and folded
    the loop body over the selected files, all from the same bucket. *)
Lemma update_changed_assets_inv env fs output_dir only compatible w ua cfgs w' :
  update_changed_assets env fs output_dir only compatible w = (Ret (ua, cfgs), w') ->
  exists ea ec assets,
    parse_existing env (objects w) ∅ [] = Ret (ea, ec) /\
    get_all_assets fs output_dir = Ret assets /\
    sfold (update_changed_asset env fs ea compatible)
      ([], ec) (List.filter (allowed only) assets) w = (Ret (ua, cfgs), w').
Proof.
  unfold update_changed_assets. intros H.
  apply sbind_ret_inv in H as (l0 & w0 & Hlist & H).
  unfold list_objects in Hlist. injection Hlist as <- <-.
  apply sbind_ret_inv in H as ([ea ec] & w0 & Hparse & H).
  unfold lift in Hparse. injection Hparse as Hparse <-.
  apply sbind_ret_inv in H as (assets & w0 & Hscan & H).
  unfold lift in Hscan. injection Hscan as Hscan <-.
  now exists ea, ec, assets.
Qed.



(** ** Listings the loop can read *)

Lemma config_key_not_asset (k : string) : is_config_key k = true -> is_asset_key k = false.
Proof.
  unfold is_asset_key, is_config_key.
  intros [->%String.eqb_eq _]%andb_true_iff. reflexivity.
Qed.

Lemma parse_readable env l :
  forall ea0 ec0,
    readable env (dom ea0) l <-> exists ea ec, parse_existing env l ea0 ec0 = Ret (ea, ec).
Proof.
  induction l as [|item l IH]; intros ea0 ec0; cbn [readable parse_existing].
  - split; eauto.
  - destruct (is_config_key (Key item)).
    + unfold parse_existing_config.
      destruct (json_loads env (Body item)) as [m|]; cbn [obind].
      * rewrite (IH ea0 (dict_set (Key item) (mkConfigRecord m (Key item) false) ec0)).
        split; [now intros [_ ?] | now split].
      * split; [now intros [? _] | now intros (? & ? & ?)].
    + destruct (is_asset_key (Key item)); [|apply IH].
      unfold parse_existing_asset, ends_gz, base_of.
      destruct (String.eqb (PyStr.last 3 (PyStr.drop 6 (Key item))) ".gz").
      * destruct (ea0 !! PyStr.but_last 3 (PyStr.drop 6 (Key item))) as [r|] eqn:Hr;
          cbn [obind].
        -- rewrite <- IH. rewrite dom_insert_L.
           assert (Hin : PyStr.but_last 3 (PyStr.drop 6 (Key item)) ∈ dom ea0)
             by (apply elem_of_dom; eauto).
           rewrite (subseteq_union_1_L {[PyStr.but_last 3 (PyStr.drop 6 (Key item))]}
                      (dom ea0)) by (now apply singleton_subseteq_l).
           split; [now intros [_ ?] | now split].
        -- split; [|now intros (? & ? & ?)].
           intros [Hin _]. apply elem_of_dom in Hin as [? Hin]. congruence.
      * cbn [obind]. rewrite <- IH. now rewrite dom_insert_L.
Qed.

Lemma In_store o l : In o (store o l).
Proof.
  induction l as [|o' l IH]; simpl; [now left|].
  destruct (String.eqb (Key o') (Key o)); simpl; auto.
Qed.

Lemma readable_store env o :
  is_asset_key (Key o) = true ->
  forall l D,
    (is_gz_key o = true -> base_of o ∈ D \/ base_listed l (base_of o)) ->
    readable env D l -> readable env D (store o l).
Proof.
  intros Ha. pose proof (asset_key_not_config _ Ha) as Hc.
  induction l as [|o' l IH]; intros D Hb Hr.
  - cbn [store readable]. rewrite Hc, Ha.
    destruct (ends_gz (PyStr.drop 6 (Key o))) eqn:Hgz; [|easy].
    split; [|easy]. destruct Hb as [?|(? & [] & _)]; [|easy].
    unfold is_gz_key. rewrite Ha. exact Hgz.
  - cbn [store]. destruct (String.eqb_spec (Key o') (Key o)) as [He|Hne].
    + cbn [readable] in *. unfold base_of in *. rewrite He in Hr.
      rewrite Hc in *. exact Hr.
    + cbn [readable] in *.
      assert (Htail : forall D', (D ⊆ D') ->
                (is_base_key o' = true -> PyStr.drop 6 (Key o') ∈ D') ->
                is_gz_key o = true -> base_of o ∈ D' \/ base_listed l (base_of o)).
      { intros D' Hsub Hhead Hgz.
        destruct (Hb Hgz) as [Hin|[[Hbo Hk]|Hl]%base_listed_cons]; [left|left|right].
        - now apply Hsub.
        - rewrite <- Hk. now apply Hhead.
        - easy. }
      unfold is_base_key in Htail.
      destruct (is_config_key (Key o')) eqn:Hc'.
      * destruct Hr as [Hj Hr]. split; [easy|]. apply IH; [|easy].
        apply Htail; [easy|]. rewrite (config_key_not_asset _ Hc'). easy.
      * destruct (is_asset_key (Key o')) eqn:Ha'.
        -- unfold ends_gz in *.
           destruct (String.eqb (PyStr.last 3 (PyStr.drop 6 (Key o'))) ".gz") eqn:Hgz'.
           ++ destruct Hr as [Hin Hr]. split; [easy|]. apply IH; [|easy].
              apply Htail; easy.
           ++ apply IH; [|easy]. apply Htail; [set_solver|]. intros _. set_solver.
        -- apply IH; [|easy]. apply Htail; easy.
Qed.

(** ** Idempotence of the reconciler *)

Lemma asset_key_of_name (n : string) :
  n <> "" -> is_asset_key ("assets" ++ "/" ++ n) = true.
Proof. intros Hn. unfold is_asset_key. simpl. destruct n; [easy | reflexivity]. Qed.

Lemma asset_key_of_gz_name (n : string) :
  is_asset_key ("assets" ++ "/" ++ n ++ ".gz") = true.
Proof.
  unfold is_asset_key. change ("assets" ++ "/" ++ n ++ ".gz") with ("assets/" ++ (n ++ ".gz")).
  change 7%nat with (String.length "assets/") at 1. rewrite take_append, length_append.
  rewrite length_append. simpl. apply Nat.ltb_lt. lia.
Qed.

Lemma after_uploads_wf env n ty content v z up w D :
  n <> "" -> ends_gz n = false ->
  List.NoDup (map Key (objects w)) -> readable env D (objects w) ->
  List.NoDup (map Key (objects (after_uploads env ("/" ++ n) ty content v z up w))) /\
  readable env D (objects (after_uploads env ("/" ++ n) ty content v z up w)).
Proof.
  intros Hn Hgz Hnd Hr. unfold after_uploads, after_base.
  destruct up; [|easy]. cbn [andb stored objects].
  set (base := mkS3Object ("assets" ++ "/" ++ n) content (content_type_of ("/" ++ n) ty)
                 None (PyStr.str v) (new_version_id env (List.length (put_log w)))).
  assert (Hbase_key : is_base_key base = true).
  { unfold is_base_key. cbn [Key base]. rewrite (asset_key_of_name _ Hn).
    change (PyStr.drop 6 ("assets" ++ "/" ++ n)) with ("/" ++ n).
    fold (ends_gz ("/" ++ n)). now rewrite ends_gz_slash, Hgz. }
  assert (Hr1 : readable env D (store base (objects w))).
  { apply readable_store; [now apply asset_key_of_name | | easy].
    intros Hgz'. unfold is_gz_key, is_base_key in *.
    apply andb_true_iff in Hgz' as [_ Hgz'], Hbase_key as [_ Hb].
    rewrite Hgz' in Hb. discriminate. }
  destruct (truthy z); cbn [stored objects].
  - split; [now apply NoDup_store, NoDup_store|].
    apply readable_store; [apply asset_key_of_gz_name | | easy].
    intros _. right. exists base. split; [apply In_store|]. split; [easy|].
    symmetry. exact (but_last_append ("/" ++ n) ".gz").
  - split; [now apply NoDup_store | easy].
Qed.

Lemma observed_same env w w' name z :
  bucket_name w' = bucket_name w ->
  fetch ("assets" ++ name) (objects w') = fetch ("assets" ++ name) (objects w) ->
  fetch ("assets" ++ name ++ ".gz") (objects w') = fetch ("assets" ++ name ++ ".gz") (objects w) ->
  observed env w' name z = observed env w name z.
Proof. unfold observed. now intros -> -> ->. Qed.

(** A step leaves alone every key but the two of its asset. *)
Lemma update_changed_asset_frame env fs ea compatible ua cfgs folder n w ua' cfgs' w' :
  update_changed_asset env fs ea compatible (ua, cfgs) (folder, n) w
    = (Ret (ua', cfgs'), w') ->
  bucket_name w' = bucket_name w /\
  forall K, (ends_gz n = false -> K <> "assets" ++ "/" ++ n /\ K <> "assets" ++ "/" ++ n ++ ".gz") ->
    fetch K (objects w') = fetch K (objects w).
Proof.
  intros Hstep. apply update_changed_asset_inv in Hstep
    as [(_ & _ & _ & ->)|(Hgz & content & z & lv & up & asset & _ & _ & _ & Hup & _)];
    [easy|].
  apply update_asset_inv in Hup as (_ & _ & _ & _ & _ & _ & _ & (Hbn & Hobj & _) & _).
  split; [now rewrite Hbn, bucket_name_after_uploads|].
  intros K HK. destruct (HK Hgz) as [H1 H2]. rewrite Hobj.
  now apply fetch_after_uploads_other.
Qed.

Lemma in_processed_names l n :
  In n (processed_names l) <-> exists folder, In (folder, n) l /\ ends_gz n = false.
Proof.
  unfold processed_names. rewrite in_map_iff. split.
  - intros ([folder n'] & <- & [Hin Hgz]%filter_In). simpl in *.
    exists folder. split; [easy|]. now apply negb_true_iff.
  - intros (folder & Hin & Hgz). exists (folder, n). split; [easy|].
    apply filter_In. split; [easy|]. simpl. now rewrite Hgz.
Qed.

Lemma processed_names_cons folder n l :
  processed_names ((folder, n) :: l)
  = if ends_gz n then processed_names l else n :: processed_names l.
Proof. unfold processed_names. simpl. now destruct (ends_gz n). Qed.

Lemma sfold_frame env fs ea compatible l :
  forall ua cfgs w ua' cfgs' w',
    sfold (update_changed_asset env fs ea compatible) (ua, cfgs) l w
      = (Ret (ua', cfgs'), w') ->
    bucket_name w' = bucket_name w /\
    forall K, (forall n, In n (processed_names l) ->
                 K <> "assets" ++ "/" ++ n /\ K <> "assets" ++ "/" ++ n ++ ".gz") ->
      fetch K (objects w') = fetch K (objects w).
Proof.
  induction l as [|[folder n] l IH]; intros ua cfgs w ua' cfgs' w'; simpl.
  - now intros [= <- <- <-].
  - intros H. apply sbind_ret_inv in H as ([ua1 cfgs1] & w1 & Hstep & H).
    destruct (update_changed_asset_frame _ _ _ _ _ _ _ _ _ _ _ _ Hstep) as [Hbn1 Hf1].
    destruct (IH _ _ _ _ _ _ H) as [Hbn Hf].
    split; [congruence|]. intros K HK. rewrite Hf, Hf1; [reflexivity| |].
    + intros Hgz. apply HK. rewrite processed_names_cons, Hgz. now left.
    + intros n' Hn'. apply HK. rewrite processed_names_cons.
      destruct (ends_gz n); [easy | now right].
Qed.

(** A step of the first run: the bucket it leaves holds the local content
    of the asset, and the record it makes is read back from that bucket. *)
Lemma update_changed_asset_settles env fs ea compatible ua cfgs folder n w ua' cfgs' w' :
  update_changed_asset env fs ea compatible (ua, cfgs) (folder, n) w
    = (Ret (ua', cfgs'), w') ->
  ends_gz n = false -> n <> "" ->
  List.NoDup (map Key (objects w)) -> readable env ∅ (objects w) ->
  (forall e, ea !! ("/" ++ n) = Some e ->
     exists o, fetch ("assets" ++ "/" ++ n) (objects w) = Some o /\ Body o = e_content e) ->
  List.NoDup (map Key (objects w')) /\ readable env ∅ (objects w') /\
  exists content z asset o,
    read_file fs (path_join folder n) = Ret content /\
    local_zcontent fs folder n = Ret z /\
    fetch ("assets" ++ "/" ++ n) (objects w') = Some o /\ Body o = content /\
    observed env w' ("/" ++ n) z = Ret asset /\
    ua' = dict_set ("/" ++ n) (built_asset ("/" ++ n) (get_asset_type n) asset) ua.
Proof.
  intros Hstep Hgz Hn Hnd Hr Hagree.
  apply update_changed_asset_inv in Hstep
    as [(Hgz' & _)|(_ & content & z & lv & up & asset & Hread & Hz & Hdec & Hup & ->)];
    [congruence|].
  pose proof (update_asset_observed _ _ _ _ _ _ _ _ _ _ _ _ _ Hup) as Hobs.
  pose proof (update_asset_inv _ _ _ _ _ _ _ _ _ _ _ _ _ Hup)
    as (base & ver & zipped & Hbase & _ & _ & _ & (_ & Hobj & _) & _).
  cbv zeta in Hbase.
  destruct (after_uploads_wf env n (get_asset_type n) content (lv + 1) z up w ∅
              Hn Hgz Hnd Hr) as [Hnd' Hr'].
  rewrite <- Hobj in Hnd', Hr'.
  split; [easy|]. split; [easy|].
  exists content, z, asset, base. split; [easy|]. split; [easy|].
  split; [rewrite Hobj, fetch_base_after_uploads; exact Hbase|].
  split; [|easy].
  unfold after_base in Hbase. destruct up.
  - cbn [stored objects] in Hbase.
    change ("assets" ++ "/" ++ n)
      with (Key (mkS3Object ("assets" ++ "/" ++ n) content
                   (content_type_of ("/" ++ n) (get_asset_type n)) None (PyStr.str (lv + 1))
                   (new_version_id env (List.length (put_log w))))) in Hbase at 1.
    rewrite fetch_store_eq in Hbase. now injection Hbase as <-.
  - destruct (upload_decision_skip _ _ _ _ Hdec) as (e & He & <-).
    destruct (Hagree e He) as (o & Ho & Hbody).
    change ("assets" ++ "/" ++ n) with ("assets" ++ ("/" ++ n)) in Ho.
    rewrite Ho in Hbase. now injection Hbase as <-.
Qed.

Lemma sfold_first env fs ea compatible l :
  forall ua cfgs w ua1 cfgs1 w1,
    sfold (update_changed_asset env fs ea compatible) (ua, cfgs) l w
      = (Ret (ua1, cfgs1), w1) ->
    List.NoDup (processed_names l) -> Forall (fun n => n <> "") (processed_names l) ->
    List.NoDup (map Key (objects w)) -> readable env ∅ (objects w) ->
    (forall n e, In n (processed_names l) -> ea !! ("/" ++ n) = Some e ->
       exists o, fetch ("assets" ++ "/" ++ n) (objects w) = Some o /\ Body o = e_content e) ->
    List.NoDup (map Key (objects w1)) /\ readable env ∅ (objects w1) /\
    Forall (settled env fs w1) l /\ ua1 = replay env fs w1 l ua.
Proof.
  induction l as [|[folder n] l IH]; intros ua cfgs w ua1 cfgs1 w1; simpl.
  - intros [= <- <- <-] _ _ Hnd Hr _. now repeat split.
  - intros H Hnames Hnonempty Hnd Hr Hagree.
    apply sbind_ret_inv in H as ([ua' cfgs'] & w' & Hstep & H).
    rewrite processed_names_cons in Hnames, Hnonempty, Hagree.
    destruct (sfold_frame _ _ _ _ _ _ _ _ _ _ _ H) as [Hbn Hframe].
    destruct (ends_gz n) eqn:Hgz.
    + apply update_changed_asset_inv in Hstep
        as [(_ & -> & -> & ->)|(Hgz' & _)]; [|congruence].
      destruct (IH _ _ _ _ _ _ H Hnames Hnonempty Hnd Hr Hagree) as (Hnd1 & Hr1 & Hall & ->).
      split; [easy|]. split; [easy|]. split.
      * constructor; [now left | easy].
      * unfold replay at 2. cbn [fold_left]. unfold replay_one at 2. cbn [snd]. now rewrite Hgz.
    + inversion Hnames as [|? ? Hnotin Hnames']; subst.
      inversion Hnonempty as [|? ? Hn Hnonempty']; subst.
      destruct (update_changed_asset_frame _ _ _ _ _ _ _ _ _ _ _ _ Hstep) as [_ Hframe1].
      destruct (update_changed_asset_settles _ _ _ _ _ _ _ _ _ _ _ _ Hstep Hgz Hn Hnd Hr)
        as (Hnd' & Hr' & content & z & asset & o & Hread & Hz & Ho & Hbody & Hobs & ->).
      { intros e He. apply (Hagree n e); [now left | easy]. }
      assert (Hdiff : forall n', In n' (processed_names l) ->
                forall K, K = "assets" ++ "/" ++ n \/ K = "assets" ++ "/" ++ n ++ ".gz" ->
                  K <> "assets" ++ "/" ++ n' /\ K <> "assets" ++ "/" ++ n' ++ ".gz").
      { intros n' Hn' K HK.
        assert (Hne : n' <> n) by (intros ->; easy).
        assert (Hgz' : ends_gz n' = false) by (apply in_processed_names in Hn' as (? & _ & ?); easy).
        destruct HK as [-> | ->]; split; simpl; intros HK; injection HK as HK.
        - congruence.
        - now apply (gz_key_not_base n n').
        - now apply (gz_key_not_base n' n).
        - apply append_inj_r in HK. congruence. }
      destruct (IH _ _ _ _ _ _ H Hnames' Hnonempty' Hnd' Hr') as (Hnd1 & Hr1 & Hall & ->).
      { intros n' e Hn' He.
        rewrite Hframe1; [apply (Hagree n' e); [now right | easy]|].
        intros _. destruct (Hdiff n' Hn' ("assets" ++ "/" ++ n)) as [H1 _]; [now left|].
        destruct (Hdiff n' Hn' ("assets" ++ "/" ++ n ++ ".gz")) as [H2 _]; [now right|].
        split; congruence. }
      assert (Hbase1 : fetch ("assets" ++ "/" ++ n) (objects w1)
                       = fetch ("assets" ++ "/" ++ n) (objects w')).
      { apply Hframe. intros n' Hn'. apply (Hdiff n' Hn'). now left. }
      assert (Hgz1 : fetch ("assets" ++ "/" ++ n ++ ".gz") (objects w1)
                     = fetch ("assets" ++ "/" ++ n ++ ".gz") (objects w')).
      { apply Hframe. intros n' Hn'. apply (Hdiff n' Hn'). now right. }
      assert (Hobs1 : observed env w1 ("/" ++ n) z = Ret asset).
      { rewrite <- Hobs. now apply observed_same. }
      split; [easy|]. split; [easy|]. split.
      * constructor; [|easy]. right. exists content, z, asset, o. cbn [fst snd].
        rewrite Hbase1. now repeat split.
      * unfold replay at 2. cbn [fold_left]. unfold replay_one at 2. cbn [fst snd].
        now rewrite Hgz, Hz, Hobs1.
Qed.

Lemma observed_same_bucket env w w' name z :
  same_bucket w w' -> observed env w' name z = observed env w name z.
Proof. intros (Hbn & Hobj & _). unfold observed. now rewrite Hbn, Hobj. Qed.

Lemma replay_cons env fs w a l ua :
  replay env fs w (a :: l) ua = replay env fs w l (replay_one env fs w ua a).
Proof. reflexivity. Qed.

Lemma sfold_second env fs ea compatible w l :
  Forall (settled env fs w) l ->
  (forall folder n content,
     In (folder, n) l -> ends_gz n = false ->
     read_file fs (path_join folder n) = Ret content ->
     exists e, ea !! ("/" ++ n) = Some e /\ e_content e = content) ->
  forall ua cfgs w',
    same_bucket w w' ->
    exists cfgs2 w2,
      sfold (update_changed_asset env fs ea compatible) (ua, cfgs) l w'
        = (Ret (replay env fs w l ua, cfgs2), w2) /\
      same_bucket w w2.
Proof.
  induction l as [|[folder n] l IH]; intros Hall Hea ua cfgs w' Hsame.
  - exists cfgs, w'. now split.
  - inversion Hall as [|? ? Hhead Hall']; subst.
    assert (Hea' : forall folder n content,
              In (folder, n) l -> ends_gz n = false ->
              read_file fs (path_join folder n) = Ret content ->
              exists e, ea !! ("/" ++ n) = Some e /\ e_content e = content).
    { intros f' n' c' Hin. apply Hea. now right. }
    cbn [sfold]. rewrite replay_cons. unfold replay_one. cbn [fst snd].
    destruct Hhead as [Hgz|(content & z & asset & o & Hread & Hz & _ & _ & Hobs)];
      cbn [fst snd] in *.
    + assert (Hstep : update_changed_asset env fs ea compatible (ua, cfgs) (folder, n) w'
                      = (Ret (ua, cfgs), w')).
      { rewrite update_changed_asset_eq. now rewrite Hgz. }
      rewrite (sbind_run _ _ _ _ _ Hstep), Hgz. now apply IH.
    + destruct (ends_gz n) eqn:Hgz.
      * assert (Hstep : update_changed_asset env fs ea compatible (ua, cfgs) (folder, n) w'
                        = (Ret (ua, cfgs), w')).
        { rewrite update_changed_asset_eq. now rewrite Hgz. }
        rewrite (sbind_run _ _ _ _ _ Hstep). now apply IH.
      * destruct (Hea folder n content (or_introl eq_refl) Hgz Hread) as (e & He & Hcontent).
        rewrite <- (observed_same_bucket env w w' _ _ Hsame) in Hobs.
        destruct (update_asset_skip env ("/" ++ n) (get_asset_type n) content (0 + 1) z
                    compatible cfgs w' asset Hobs) as (cfgs' & w'' & Hup & Hsame' & _).
        assert (Hstep : update_changed_asset env fs ea compatible (ua, cfgs) (folder, n) w'
                        = (Ret (dict_set ("/" ++ n)
                                  (built_asset ("/" ++ n) (get_asset_type n) asset) ua,
                                cfgs'), w'')).
        { rewrite update_changed_asset_eq, Hgz, Hread, Hz.
          unfold upload_decision. rewrite He.
          apply String.eqb_eq in Hcontent. rewrite Hcontent. now rewrite Hup. }
        rewrite (sbind_run _ _ _ _ _ Hstep), Hz.
        rewrite (observed_same_bucket env w w' _ _ Hsame) in Hobs. rewrite Hobs.
        apply IH; [easy | easy |]. eapply same_bucket_trans; eassumption.
Qed.

(** C3, as the claim states it, fails: two local assets in different
    directories share the file name [x.json]. The first run uploads both
    under the one key, the second run finds the content of the second there,
    uploads the first again and gives the asset version 2. *)
Lemma C3_counterexample :
  ~ (forall ua cfgs w1,
       update_changed_assets sample_env twin_fs "out" None false empty_world
         = (Ret (ua, cfgs), w1) ->
       exists cfgs2 w2,
         update_changed_assets sample_env twin_fs "out" None false w1
           = (Ret (ua, cfgs2), w2) /\
         put_log w2 = put_log w1).
Proof.
  intros H.
  destruct (H _ _ _ ltac:(vm_compute; reflexivity)) as (cfgs2 & w2 & Hrun & Hlog).
  vm_compute in Hrun. discriminate Hrun.
Qed.

(** C3, amended: when the local assets are told apart by their file
    names and the keys of the bucket are distinct, a second run of the
    reconciler after a first one that returned, with the local content
    unchanged, returns too, writes nothing to the bucket and yields the
    same record, so the same version, url and size, for every asset. *)
Theorem C3_second_run_uploads_nothing env fs output_dir only compatible w ua cfgs w1 :
  update_changed_assets env fs output_dir only compatible w = (Ret (ua, cfgs), w1) ->
  List.NoDup (map Key (objects w)) ->
  distinct_names fs output_dir only ->
  exists cfgs2 w2,
    update_changed_assets env fs output_dir only compatible w1 = (Ret (ua, cfgs2), w2) /\
    put_log w2 = put_log w1 /\ objects w2 = objects w1.
Proof.
  intros H Hnd Hnames.
  apply update_changed_assets_inv in H as (ea & ec & assets & Hparse & Hscan & H).
  unfold update_changed_assets.
  destruct (Hnames assets Hscan) as [Hdistinct Hnonempty].
  set (l := List.filter (allowed only) assets) in *.
  assert (Hr : readable env ∅ (objects w)).
  { rewrite <- (dom_empty_L (D := gset string) (A := ExistingAsset)).
    apply (parse_readable env (objects w) ∅ []). eauto. }
  destruct (sfold_first _ _ _ _ _ _ _ _ _ _ _ H Hdistinct Hnonempty Hnd Hr)
    as (Hnd1 & Hr1 & Hall & ->).
  { intros n e _ He.
    destruct (parse_existing_fetch _ _ _ _ _ _ Hparse Hnd He) as (o & Ho & Hbody & _).
    exists o. split; [exact Ho | now rewrite Hbody]. }
  rewrite <- (dom_empty_L (D := gset string) (A := ExistingAsset)) in Hr1.
  apply (parse_readable env (objects w1) ∅ []) in Hr1 as (ea2 & ec2 & Hparse2).
  destruct (sfold_second env fs ea2 compatible w1 l Hall) with (ua := @nil (string * FileEntry))
    (cfgs := ec2) (w' := w1) as (cfgs2 & w2 & Hrun2 & (_ & Hobj & Hlog)).
  { intros folder n content Hin Hgz Hread.
    assert (Hn : n <> "").
    { apply (proj1 (List.Forall_forall _ _) Hnonempty). apply in_processed_names. eauto. }
    pose proof (proj1 (List.Forall_forall _ _) Hall _ Hin) as [Hgz'|Hs]; cbn [fst snd] in *;
      [congruence|].
    destruct Hs as (content' & z & asset & o & Hread' & _ & Ho & Hbody & _).
    rewrite Hread in Hread'. injection Hread' as <-.
    apply fetch_Some in Ho as [Hin_o Hkey].
    assert (Hbase : is_base_key o = true).
    { unfold is_base_key. rewrite Hkey, (asset_key_of_name _ Hn).
      change (PyStr.drop 6 ("assets" ++ "/" ++ n)) with ("/" ++ n).
      fold (ends_gz ("/" ++ n)). now rewrite ends_gz_slash, Hgz. }
    destruct (parse_existing_records _ _ _ _ _ _ _ Hparse2 Hnd1 Hin_o Hbase)
      as (e & He & Hcontent & _).
    rewrite Hkey in He. exists e. split; [exact He | now rewrite Hcontent]. }
  { apply same_bucket_refl. }
  exists cfgs2, w2. split; [|easy].
  unfold list_objects. unfold sbind at 1. unfold sbind at 1. unfold lift at 1.
  rewrite Hparse2. unfold sbind at 1. unfold lift at 1. rewrite Hscan. exact Hrun2.
Qed.

Lemma C3_second_run_uploads_nothing_witness :
  exists ua cfgs w1,
    update_changed_assets sample_env pair_fs "out" None true (sample_world "old" "3")
      = (Ret (ua, cfgs), w1) /\
    exists cfgs2 w2,
      update_changed_assets sample_env pair_fs "out" None true w1 = (Ret (ua, cfgs2), w2) /\
      put_log w2 = put_log w1 /\ objects w2 = objects w1.
Proof.
  do 3 eexists. split; [vm_compute; reflexivity|].
  eapply (C3_second_run_uploads_nothing sample_env pair_fs "out" None true
            (sample_world "old" "3")).
  - vm_compute. reflexivity.
  - apply NoDup_ListNoDup. apply (bool_decide_unpack _). vm_compute. exact I.
  - intros assets Hscan. vm_compute in Hscan. injection Hscan as <-. split.
    + apply NoDup_ListNoDup. apply (bool_decide_unpack _). vm_compute. exact I.
    + repeat constructor; discriminate.
Defined.

(** ** The compatibility patch through a run *)






Lemma update_changed_asset_log env fs ea compat ua cfgs a w ua' cfgs' w' :
  update_changed_asset env fs ea compat (ua, cfgs) a w = (Ret (ua', cfgs'), w') ->
  exists new, put_log w' = (put_log w ++ new)%list.
Proof.
  destruct a as [folder n]. intros Hstep.
  apply update_changed_asset_inv in Hstep
    as [(_ & _ & _ & ->)|(_ & content & z & lv & up & asset & _ & _ & _ & Hup & _)].
  { exists []. now rewrite app_nil_r. }
  apply update_asset_inv in Hup as (_ & _ & _ & _ & _ & _ & _ & (_ & _ & Hlog) & _).
  rewrite Hlog, put_log_after_uploads. eauto.
Qed.

Lemma sfold_log env fs ea compat l :
  forall ua cfgs w ua' cfgs' w',
    sfold (update_changed_asset env fs ea compat) (ua, cfgs) l w = (Ret (ua', cfgs'), w') ->
    exists new, put_log w' = (put_log w ++ new)%list.
Proof.
  induction l as [|a l IH]; intros ua cfgs w ua' cfgs' w'; cbn [sfold].
  - intros [= <- <- <-]. exists []. now rewrite app_nil_r.
  - intros H. apply sbind_ret_inv in H as ([ua1 cfgs1] & w1 & Hstep & H).
    destruct (update_changed_asset_log _ _ _ _ _ _ _ _ _ _ _ Hstep) as (new1 & Hlog1).
    destruct (IH _ _ _ _ _ _ H) as (new2 & Hlog2).
    exists (new1 ++ new2)%list. now rewrite Hlog2, Hlog1, <- app_assoc.
Qed.



(* ===================================================================== *)
(** * Further properties *)
(* ===================================================================== *)

(** ** More on the version of the next config *)

Lemma most_recent_loop_skips objects m :
  Forall (fun item => is_config_key (Key item) = false) objects ->
  most_recent_loop objects m = Ret m.
Proof.
  induction 1 as [|item rest Hk _ IH]; simpl; [easy|]. now rewrite Hk.
Qed.

(** X1: in a bucket without manifest keys (an empty one, or one that holds
    assets, foreign keys and the bare prefix only) the most recent version
    is 0.0.0, and the three bumps give 1.0.0, 0.1.0 and 0.0.1. *)
Theorem resolver_without_manifests objects :
  Forall (fun item => is_config_key (Key item) = false) objects ->
  get_most_recent_config objects = Ret [0; 0; 0] /\
  get_release_config_version objects "major" = Ret "1.0.0" /\
  get_release_config_version objects "minor" = Ret "0.1.0" /\
  get_release_config_version objects "patch" = Ret "0.0.1".
Proof.
  intros H. pose proof (most_recent_loop_skips objects [0; 0; 0] H) as Hm.
  unfold get_release_config_version, get_most_recent_config.
  repeat split; [exact Hm | ..]; cbn [PyStr.match_version]; simpl; rewrite Hm; reflexivity.
Qed.

Lemma resolver_without_manifests_witness :
  get_most_recent_config listing_no_manifest = Ret [0; 0; 0] /\
  get_release_config_version listing_no_manifest "major" = Ret "1.0.0" /\
  get_release_config_version listing_no_manifest "minor" = Ret "0.1.0" /\
  get_release_config_version listing_no_manifest "patch" = Ret "0.0.1".
Proof.
  apply (resolver_without_manifests listing_no_manifest).
  repeat constructor.
Defined.

Lemma most_recent_loop_listed objects :
  forall m v, most_recent_loop objects m = Ret v ->
    v = m \/ exists item, In item objects /\ is_config_key (Key item) = true /\
                          item_version_of (Key item) = Ret v.
Proof.
  induction objects as [|item rest IH]; intros m v H; simpl in H.
  - left. now injection H.
  - destruct (is_config_key (Key item)) eqn:Hk; simpl in H.
    + apply obind_ret_inv in H as (iv & Hiv & H).
      apply obind_ret_inv in H as (b & _ & H).
      destruct (IH _ _ H) as [->|(it & Hin & Hk' & Hv)].
      * destruct b; [right; exists item; simpl; eauto | now left].
      * right. exists it. simpl. eauto.
    + destruct (IH _ _ H) as [->|(it & Hin & Hk' & Hv)]; [now left|].
      right. exists it. simpl. eauto.
Qed.

(** X2: the version [get_most_recent_config] returns is 0.0.0 or the
    version of a manifest key of the listing. *)
Theorem most_recent_is_listed objects v :
  get_most_recent_config objects = Ret v ->
  v = [0; 0; 0] \/
  exists item, In item objects /\ is_config_key (Key item) = true /\
               item_version_of (Key item) = Ret v.
Proof. apply most_recent_loop_listed. Qed.

Lemma most_recent_is_listed_witness :
  [0; 12; 0] = [0; 0; 0] \/
  exists item, In item listing_0_9_first /\ is_config_key (Key item) = true /\
               item_version_of (Key item) = Ret [0; 12; 0].
Proof. apply (most_recent_is_listed listing_0_9_first). vm_compute. reflexivity. Defined.

Lemma tuple_ltb_trans a : forall b c,
  tuple_ltb a b = true -> tuple_ltb b c = true -> tuple_ltb a c = true.
Proof.
  induction a as [|x a IH]; intros [|y b] [|z c]; simpl; try easy.
  intros H1 H2.
  apply orb_true_iff in H1 as [H1|[H1 H1']%andb_true_iff];
    apply orb_true_iff in H2 as [H2|[H2 H2']%andb_true_iff];
    apply orb_true_iff.
  - left. lia.
  - left. lia.
  - left. lia.
  - right. apply andb_true_iff. split; [lia | eauto].
Qed.

Lemma tuple_le_trans a b c : tuple_le a b -> tuple_le b c -> tuple_le a c.
Proof.
  intros [->|H1] [->|H2]; [now left | now right | now right |].
  right. eapply tuple_ltb_trans; eauto.
Qed.

Lemma adopts_tuple_le x y z a b c :
  tuple_le [x; y; z] [a; b; c] ->
  exists r, adopts 0 [a; b; c] [x; y; z] = Ret r /\
            (if r : bool then [a; b; c] else [x; y; z]) = [a; b; c].
Proof.
  intros [[= -> -> ->]|H].
  - exists false. simpl. now rewrite !Z.gtb_ltb, !Z.ltb_irrefl.
  - simpl in H. simpl. rewrite !Z.gtb_ltb.
    destruct (x <? a) eqn:H1; [now exists true|].
    destruct (x =? a) eqn:H2; [|easy]. simpl in H.
    destruct (y <? b) eqn:H3; [now exists true|].
    destruct (y =? b) eqn:H4; [|easy]. simpl in H.
    destruct (z <? c) eqn:H5; [now exists true|].
    destruct (z =? c); easy.
Qed.

Lemma last_cons_default {A} (l : list A) :
  forall a d, List.last (a :: l) d = List.last l a.
Proof.
  induction l as [|b l IH]; intros a d; [easy|].
  change (List.last (a :: b :: l) d) with (List.last (b :: l) d). now rewrite !IH.
Qed.

Lemma most_recent_loop_ascending objects :
  forall x y z,
    keys_well_formed objects ->
    ascending ([x; y; z] :: manifest_versions objects) ->
    most_recent_loop objects [x; y; z]
      = Ret (List.last (manifest_versions objects) [x; y; z]) /\
    Forall (fun v => tuple_le v (List.last (manifest_versions objects) [x; y; z]))
      ([x; y; z] :: manifest_versions objects).
Proof.
  induction objects as [|item rest IH]; intros x y z Hwf Hasc.
  - simpl. split; [easy|]. constructor; [now left | constructor].
  - assert (Hrest : keys_well_formed rest) by (intros i Hi; apply Hwf; now right).
    cbn [most_recent_loop manifest_versions] in *.
    destruct (is_config_key (Key item)) eqn:Hk; cbn [negb]; [|now apply IH].
    destruct (Hwf item (or_introl eq_refl) Hk) as (a & b & c & Hv).
    rewrite Hv in *. cbn [obind].
    destruct Hasc as [Hle Hasc].
    destruct (adopts_tuple_le x y z a b c Hle) as (r & -> & Hr). cbn [obind].
    rewrite Hr. destruct (IH a b c Hrest Hasc) as [Hloop Hall].
    rewrite (last_cons_default (manifest_versions rest) [a; b; c] [x; y; z]).
    split; [exact Hloop|].
    constructor; [|exact Hall].
    apply (tuple_le_trans _ [a; b; c]); [exact Hle|].
    now apply Forall_inv in Hall.
Qed.

(** X3: when the versions of the manifest keys come in ascending order in
    the listing, each a triple, [get_most_recent_config] returns the last
    of them, which is the greatest in the order of tuples. *)
Theorem most_recent_of_ascending_listing objects :
  keys_well_formed objects ->
  ascending ([0; 0; 0] :: manifest_versions objects) ->
  get_most_recent_config objects
    = Ret (List.last (manifest_versions objects) [0; 0; 0]) /\
  Forall (fun v => tuple_le v (List.last (manifest_versions objects) [0; 0; 0]))
    (manifest_versions objects).
Proof.
  intros Hwf Hasc.
  destruct (most_recent_loop_ascending objects 0 0 0 Hwf Hasc) as [Hloop Hall].
  split; [exact Hloop | now apply Forall_inv_tail in Hall].
Qed.

Lemma most_recent_of_ascending_listing_witness :
  get_most_recent_config listing_ascending = Ret [1; 0; 0] /\
  Forall (fun v => tuple_le v [1; 0; 0]) [[0; 9; 0]; [0; 12; 0]; [1; 0; 0]].
Proof.
  apply (most_recent_of_ascending_listing listing_ascending).
  - intros item [<-|[<-|[<-|[<-|[]]]]] Hk; try discriminate Hk;
      vm_compute; eauto.
  - vm_compute. repeat split; right; reflexivity.
Defined.

(** The decimal numerals [str] writes. *)

Lemma str_nonneg (v : Z) :
  0 <= v -> exists d, d <> Decimal.Nil /\ PyStr.str v = NilEmpty.string_of_uint d.
Proof.
  intros Hv. destruct v as [|p|p]; [| |lia].
  - exists (Decimal.D0 Decimal.Nil). easy.
  - exists (Pos.to_uint p). split; [apply DecimalPos.Unsigned.to_uint_nonnil|].
    unfold PyStr.str. simpl. unfold NilZero.string_of_uint.
    pose proof (DecimalPos.Unsigned.to_uint_nonnil p). now destruct (Pos.to_uint p).
Qed.

Lemma str_neg (p : positive) :
  PyStr.str (Z.neg p) = String "-" (NilEmpty.string_of_uint (Pos.to_uint p)).
Proof.
  unfold PyStr.str. simpl. unfold NilZero.string_of_uint.
  pose proof (DecimalPos.Unsigned.to_uint_nonnil p). now destruct (Pos.to_uint p).
Qed.

Lemma skip_digits_opt_numeral d rest :
  PyStr.skip_digits_opt (NilEmpty.string_of_uint d ++ rest) = PyStr.skip_digits_opt rest.
Proof. induction d; simpl; easy. Qed.

Lemma skip_digits_numeral d rest :
  d <> Decimal.Nil ->
  PyStr.skip_digits (NilEmpty.string_of_uint d ++ rest) = Some (PyStr.skip_digits_opt rest).
Proof.
  destruct d; [easy|..]; intros _; simpl; now rewrite skip_digits_opt_numeral.
Qed.

Lemma append_empty_r (s : string) : s ++ "" = s.
Proof. induction s as [|c s IH]; simpl; [easy | now rewrite IH]. Qed.

Lemma match_version_numerals d1 d2 d3 :
  d1 <> Decimal.Nil -> d2 <> Decimal.Nil -> d3 <> Decimal.Nil ->
  PyStr.match_version
    (NilEmpty.string_of_uint d1 ++ "." ++ NilEmpty.string_of_uint d2 ++ "."
       ++ NilEmpty.string_of_uint d3) = true.
Proof.
  intros H1 H2 H3. unfold PyStr.match_version.
  rewrite (skip_digits_numeral d1 _ H1).
  change ("." ++ NilEmpty.string_of_uint d2 ++ "." ++ NilEmpty.string_of_uint d3)
    with (String "." (NilEmpty.string_of_uint d2 ++ String "." (NilEmpty.string_of_uint d3))).
  change (PyStr.skip_digits_opt (String "." ?s)) with (String "." s).
  cbn [mbind option_bind PyStr.skip_dot].
  rewrite (skip_digits_numeral d2 _ H2).
  cbn [mbind option_bind PyStr.skip_dot PyStr.skip_digits_opt].
  change (PyStr.is_digit ".") with false. cbn [mbind option_bind PyStr.skip_dot].
  rewrite <- (append_empty_r (NilEmpty.string_of_uint d3)).
  now rewrite (skip_digits_numeral d3 _ H3).
Qed.

(** X4: a version made by a bump from a most recent version without
    negative components is a token the pattern accepts: given back to the
    resolver it is returned as it is, whatever the listing. *)
Theorem bumped_version_is_accepted objects x y z :
  get_most_recent_config objects = Ret [x; y; z] ->
  0 <= x -> 0 <= y -> 0 <= z ->
  get_release_config_version objects "major" = Ret (PyStr.str (x + 1) ++ ".0.0") /\
  get_release_config_version objects "minor"
    = Ret (PyStr.str x ++ "." ++ PyStr.str (y + 1) ++ ".0") /\
  get_release_config_version objects "patch"
    = Ret (PyStr.str x ++ "." ++ PyStr.str y ++ "." ++ PyStr.str (z + 1)) /\
  forall token r,
    token = "major" \/ token = "minor" \/ token = "patch" ->
    get_release_config_version objects token = Ret r ->
    PyStr.match_version r = true /\
    forall objects', get_release_config_version objects' r = Ret r.
Proof.
  intros Hm Hx Hy Hz.
  assert (Hmajor : get_release_config_version objects "major"
                   = Ret (PyStr.str (x + 1) ++ ".0.0")).
  { unfold get_release_config_version. rewrite Hm. reflexivity. }
  assert (Hminor : get_release_config_version objects "minor"
                   = Ret (PyStr.str x ++ "." ++ PyStr.str (y + 1) ++ ".0")).
  { unfold get_release_config_version. rewrite Hm. reflexivity. }
  assert (Hpatch : get_release_config_version objects "patch"
                   = Ret (PyStr.str x ++ "." ++ PyStr.str y ++ "." ++ PyStr.str (z + 1))).
  { unfold get_release_config_version. rewrite Hm. reflexivity. }
  split; [exact Hmajor|]. split; [exact Hminor|]. split; [exact Hpatch|].
  intros token r Htoken Hr.
  assert (Hacc : PyStr.match_version r = true).
  { destruct (str_nonneg x Hx) as (dx & Hdx & Ex).
    destruct (str_nonneg y Hy) as (dy & Hdy & Ey).
    destruct (str_nonneg (x + 1)) as (dx' & Hdx' & Ex'); [lia|].
    destruct (str_nonneg (y + 1)) as (dy' & Hdy' & Ey'); [lia|].
    destruct (str_nonneg (z + 1)) as (dz' & Hdz' & Ez'); [lia|].
    destruct Htoken as [-> | [-> | ->]]; rewrite ?Hmajor, ?Hminor, ?Hpatch in Hr;
      injection Hr as <-; rewrite ?Ex, ?Ey, ?Ex', ?Ey', ?Ez'.
    - now apply (match_version_numerals dx' (Decimal.D0 Decimal.Nil) (Decimal.D0 Decimal.Nil)).
    - now apply (match_version_numerals dx dy' (Decimal.D0 Decimal.Nil)).
    - now apply match_version_numerals. }
  split; [exact Hacc|]. intros objects'. now apply get_release_config_version_matched.
Qed.

Lemma bumped_version_is_accepted_witness :
  get_release_config_version listing_ascending "minor" = Ret "1.1.0" /\
  forall objects', get_release_config_version objects' "1.1.0" = Ret "1.1.0".
Proof.
  destruct (bumped_version_is_accepted listing_ascending 1 0 0)
    as (_ & Hminor & _ & Hall); [vm_compute; reflexivity | lia | lia | lia |].
  split; [exact Hminor|].
  apply (Hall "minor" "1.1.0"); [now right; left | exact Hminor].
Defined.

(** Splitting at a separator the parts do not hold. *)

Lemma rfind_cons_None c a s :
  PyStr.rfind c (String a s) = None <-> Ascii.eqb a c = false /\ PyStr.rfind c s = None.
Proof.
  simpl. destruct (PyStr.rfind c s); [easy|]. destruct (Ascii.eqb a c); easy.
Qed.

Lemma rfind_app_None c a b :
  PyStr.rfind c a = None -> PyStr.rfind c b = None -> PyStr.rfind c (a ++ b) = None.
Proof.
  induction a as [|x a IH]; [easy|]. intros [Hx Ha]%rfind_cons_None Hb.
  change (String x a ++ b) with (String x (a ++ b)). apply rfind_cons_None. auto.
Qed.

Lemma split_no_sep sep s : PyStr.rfind sep s = None -> PyStr.split sep s = [s].
Proof.
  induction s as [|x s IH]; [easy|]. intros [Hx Hs]%rfind_cons_None.
  simpl. now rewrite Hx, (IH Hs).
Qed.

Lemma split_app_sep sep a b :
  PyStr.rfind sep a = None ->
  PyStr.split sep (a ++ String sep b) = a :: PyStr.split sep b.
Proof.
  induction a as [|x a IH].
  - intros _. simpl. now rewrite Ascii.eqb_refl.
  - intros [Hx Ha]%rfind_cons_None.
    change (String x a ++ String sep b) with (String x (a ++ String sep b)).
    cbn [PyStr.split]. now rewrite Hx, (IH Ha).
Qed.

Lemma rfind_numeral c d :
  PyStr.is_digit c = false -> PyStr.rfind c (NilEmpty.string_of_uint d) = None.
Proof.
  intros Hc. induction d; [easy|..]; cbn [NilEmpty.string_of_uint];
    apply rfind_cons_None; (split; [|exact IHd]);
    (destruct (Ascii.eqb_spec c c) as [_|]; [|easy]);
    match goal with
    | |- Ascii.eqb ?a c = false =>
        destruct (Ascii.eqb_spec a c) as [<-|]; [discriminate Hc | reflexivity]
    end.
Qed.

Lemma rfind_str c v :
  PyStr.is_digit c = false -> c <> "-"%char -> PyStr.rfind c (PyStr.str v) = None.
Proof.
  intros Hc Hm. destruct v as [|p|p].
  - apply (rfind_numeral c (Decimal.D0 Decimal.Nil) Hc).
  - destruct (str_nonneg (Z.pos p)) as (d & _ & ->); [lia|]. now apply rfind_numeral.
  - rewrite str_neg. apply rfind_cons_None. split; [|now apply rfind_numeral].
    destruct (Ascii.eqb_spec "-"%char c); congruence.
Qed.

Lemma append_cons_assoc (a : string) (c : ascii) (b d : string) :
  (a ++ String c b) ++ d = a ++ String c (b ++ d).
Proof. induction a as [|x a IH]; simpl; [easy | now rewrite IH]. Qed.

Lemma item_version_of_release_key x y z :
  item_version_of
    ("config/" ++ PyStr.join "." (map PyStr.str [x; y; z]) ++ ".json") = Ret [x; y; z].
Proof.
  cbn [map PyStr.join].
  assert (Hslash : forall v, PyStr.rfind "/" (PyStr.str v) = None)
    by (intros v; now apply rfind_str).
  assert (Hdot : forall v, PyStr.rfind "." (PyStr.str v) = None)
    by (intros v; now apply rfind_str).
  unfold item_version_of.
  change ("config/" ++ ?s) with ("config" ++ String "/" s).
  rewrite split_app_sep by reflexivity.
  rewrite split_no_sep.
  2:{ repeat first [apply Hslash | reflexivity | apply rfind_app_None]. }
  cbn [lookup list_lookup].
  change ((PyStr.str x ++ "." ++ PyStr.str y ++ "." ++ PyStr.str z) ++ ".json")
    with ((PyStr.str x ++ String "." (PyStr.str y ++ String "." (PyStr.str z)))
            ++ String "." "json").
  rewrite !append_cons_assoc.
  rewrite !split_app_sep by apply Hdot.
  cbn [firstn omap]. now rewrite !int_or_raise_str.
Qed.

Lemma release_key_is_config_key (version : string) :
  is_config_key ("config/" ++ version ++ ".json") = true.
Proof.
  unfold is_config_key. apply andb_true_iff. split; [reflexivity|].
  apply Nat.ltb_lt. rewrite !length_append. simpl. lia.
Qed.

(** X5: the key [build_release_config] gives to the manifest of version
    x.y.z is a manifest key, and [get_most_recent_config] reads the
    version [x, y, z] back from it; the bucket is left as it is. *)
Theorem release_key_round_trip env assets x y z w :
  exists key details w',
    build_release_config env assets (PyStr.join "." (map PyStr.str [x; y; z])) w
      = (Ret (key, details), w') /\
    c_key details = key /\ c_updated details = true /\
    files (c_content details) = map snd assets /\
    is_config_key key = true /\
    item_version_of key = Ret [x; y; z] /\
    same_bucket w w'.
Proof.
  do 3 eexists. split; [reflexivity|].
  split; [reflexivity|]. split; [reflexivity|]. split; [reflexivity|].
  split; [apply release_key_is_config_key|].
  split; [apply item_version_of_release_key | now repeat split].
Qed.

(** X6: when the most recent version holds fewer than three integers,
    which a manifest key such as [config/2] brings about, each of the
    three bumps raises [IndexError]. *)
Theorem short_version_breaks_bump objects v token :
  get_most_recent_config objects = Ret v ->
  (List.length v < 3)%nat ->
  token = "major" \/ token = "minor" \/ token = "patch" ->
  get_release_config_version objects token = Raise IndexError.
Proof.
  intros Hm Hlen Htoken. unfold get_release_config_version.
  destruct Htoken as [-> | [-> | ->]]; simpl; rewrite Hm;
    destruct v as [|a [|b [|c v]]]; simpl in Hlen; try lia; reflexivity.
Qed.

Lemma short_version_breaks_bump_witness :
  get_release_config_version listing_short "patch" = Raise IndexError.
Proof.
  apply (short_version_breaks_bump listing_short [2]);
    [vm_compute; reflexivity | simpl; lia | now right; right].
Defined.

(** ** Asset types and content types *)

Lemma rfind_app_last c a b :
  PyStr.rfind c b = None -> PyStr.rfind c (a ++ String c b) = Some (String.length a).
Proof.
  intros Hb. induction a as [|x a IH].
  - simpl. now rewrite Hb, Ascii.eqb_refl.
  - change (String x a ++ String c b) with (String x (a ++ String c b)).
    cbn [PyStr.rfind String.length]. now rewrite IH.
Qed.

Lemma lower_char_dot c : Ascii.eqb (PyStr.lower_char c) "." = Ascii.eqb c ".".
Proof. destruct c as [[] [] [] [] [] [] [] []]; reflexivity. Qed.

Lemma lower_char_idem c : PyStr.lower_char (PyStr.lower_char c) = PyStr.lower_char c.
Proof. destruct c as [[] [] [] [] [] [] [] []]; reflexivity. Qed.

Lemma lower_idem s : PyStr.lower (PyStr.lower s) = PyStr.lower s.
Proof. induction s as [|c s IH]; simpl; [easy | now rewrite lower_char_idem, IH]. Qed.

Lemma rfind_lower_dot s :
  PyStr.rfind "." s = None -> PyStr.rfind "." (PyStr.lower s) = None.
Proof.
  induction s as [|c s IH]; [easy|]. intros [Hc Hs]%rfind_cons_None.
  cbn [PyStr.lower]. apply rfind_cons_None. rewrite lower_char_dot. auto.
Qed.

Lemma filetype_of_extension stem ext :
  PyStr.rfind "." ext = None ->
  match PyStr.rfind "." (stem ++ "." ++ ext) with
  | Some i => PyStr.drop i (stem ++ "." ++ ext)
  | None => PyStr.last 1 (stem ++ "." ++ ext)
  end = String "." ext.
Proof.
  intros Hext. change ("." ++ ext) with (String "." ext).
  now rewrite (rfind_app_last "." stem ext Hext), drop_append.
Qed.

(** X7: the type of an asset is read from what follows the last dot of
    its name, whatever the case of the letters: [json] gives [json];
    [png], [gif] and [jpg] give [image]; [txt] gives [text]; any other
    extension gives no type. *)
Theorem asset_type_of_extension stem ext :
  PyStr.rfind "." ext = None ->
  get_asset_type (stem ++ "." ++ ext) =
    let e := PyStr.lower ext in
    if String.eqb e "json" then Some "json"
    else if String.eqb e "png" || String.eqb e "gif" || String.eqb e "jpg" then Some "image"
    else if String.eqb e "txt" then Some "text"
    else None.
Proof.
  intros Hext. unfold get_asset_type.
  rewrite (filetype_of_extension stem ext Hext).
  cbn [PyStr.lower]. change (PyStr.lower_char ".") with "."%char.
  cbv zeta. unfold ASSET_TYPES, string_in.
  cbn [List.find existsb snd fst].
  change (String.eqb (String "." ?e) (String "." ?x)) with (String.eqb e x).
  rewrite !orb_false_r.
  destruct (String.eqb (PyStr.lower ext) "json"); [reflexivity|].
  destruct (String.eqb (PyStr.lower ext) "png"); [reflexivity|].
  destruct (String.eqb (PyStr.lower ext) "gif"); [reflexivity|].
  destruct (String.eqb (PyStr.lower ext) "jpg"); [reflexivity|].
  destruct (String.eqb (PyStr.lower ext) "txt"); reflexivity.
Qed.

Lemma asset_type_of_extension_witness :
  get_asset_type ("photo.backup" ++ "." ++ "PNG") = Some "image".
Proof. apply (asset_type_of_extension "photo.backup" "PNG"). reflexivity. Defined.

Lemma length_drop n : forall s, String.length (PyStr.drop n s) = (String.length s - n)%nat.
Proof.
  induction n as [|n IH]; intros [|c s]; simpl; easy.
Qed.

Lemma length_lower s : String.length (PyStr.lower s) = String.length s.
Proof. induction s as [|c s IH]; simpl; [easy | now rewrite IH]. Qed.

Lemma short_filetype_has_no_type s :
  (String.length s <= 1)%nat ->
  List.find (fun t => string_in s (snd t)) ASSET_TYPES = None.
Proof.
  destruct s as [|c [|c' s]]; simpl; [reflexivity | | lia]. intros _.
  now destruct (Ascii.eqb c ".").
Qed.

Lemma get_asset_type_no_dot name :
  PyStr.rfind "." name = None -> get_asset_type name = None.
Proof.
  intros Hdot. unfold get_asset_type. rewrite Hdot.
  rewrite short_filetype_has_no_type; [reflexivity|].
  rewrite length_lower. unfold PyStr.last. rewrite length_drop. lia.
Qed.

(** X8: a name without a dot has no type: [rfind] gives -1 and the slice
    keeps the last character of the name, which is no extension. *)
Theorem asset_type_without_dot name :
  PyStr.rfind "." name = None -> get_asset_type name = None.
Proof. apply get_asset_type_no_dot. Qed.

Lemma asset_type_without_dot_witness : get_asset_type "LICENSE" = None.
Proof. apply (asset_type_without_dot "LICENSE"). reflexivity. Defined.

(** X9: in the manifest of a development environment the entry of an
    asset whose name has no dot has no type, and its URL holds [None]
    where the type goes. *)
Theorem dev_file_without_type fs folder name file :
  PyStr.rfind "." name = None ->
  dev_file fs (folder, name) = Ret file ->
  f_name file = "/" ++ name /\ f_type file = None /\ f_version file = 1 /\
  f_url file = "http://localhost:8080/None/" ++ name.
Proof.
  intros Hdot. unfold dev_file. cbn [fst snd].
  rewrite (get_asset_type_no_dot name Hdot).
  intros H. apply obind_ret_inv in H as (size & _ & H).
  destruct (path_exists fs (path_join folder (name ++ ".gz"))).
  - apply obind_ret_inv in H as (zsize & _ & [= <-]). now repeat split.
  - injection H as <-. now repeat split.
Qed.

Lemma dev_file_without_type_witness :
  f_name (mkFileEntry "/LICENSE" 4 None "http://localhost:8080/None/LICENSE" 1 None None)
    = "/" ++ "LICENSE" /\
  f_type (mkFileEntry "/LICENSE" 4 None "http://localhost:8080/None/LICENSE" 1 None None)
    = None /\
  f_version (mkFileEntry "/LICENSE" 4 None "http://localhost:8080/None/LICENSE" 1 None None)
    = 1 /\
  f_url (mkFileEntry "/LICENSE" 4 None "http://localhost:8080/None/LICENSE" 1 None None)
    = "http://localhost:8080/None/" ++ "LICENSE".
Proof.
  apply (dev_file_without_type (Dir [("out", Dir [("LICENSE", File "text")])]) "out" "LICENSE");
    reflexivity.
Defined.

Lemma lower_char_letters c :
  (PyStr.lower_char c = "."%char -> c = "."%char) /\
  (PyStr.lower_char c = "p"%char -> c = "p"%char \/ c = "P"%char) /\
  (PyStr.lower_char c = "n"%char -> c = "n"%char \/ c = "N"%char) /\
  (PyStr.lower_char c = "g"%char -> c = "g"%char \/ c = "G"%char) /\
  (PyStr.lower_char c = "i"%char -> c = "i"%char \/ c = "I"%char) /\
  (PyStr.lower_char c = "f"%char -> c = "f"%char \/ c = "F"%char) /\
  (PyStr.lower_char c = "j"%char -> c = "j"%char \/ c = "J"%char).
Proof.
  destruct c as [[] [] [] [] [] [] [] []]; vm_compute;
    repeat split; intros H; try discriminate H; auto.
Qed.

Lemma last_append_ge n (a b : string) :
  (n <= String.length b)%nat -> PyStr.last n (a ++ b) = PyStr.last n b.
Proof.
  intros Hn. induction a as [|c a IH]; [easy|].
  change (String c a ++ b) with (String c (a ++ b)).
  rewrite last_cons; [exact IH|]. rewrite length_append. lia.
Qed.

Lemma image_filetype filetype :
  fst <$> List.find (fun t => string_in filetype (snd t)) ASSET_TYPES = Some "image" ->
  filetype = ".png" \/ filetype = ".gif" \/ filetype = ".jpg".
Proof.
  unfold ASSET_TYPES, string_in. cbn [List.find existsb snd].
  destruct (String.eqb_spec filetype ".png") as [->|_]; [auto|].
  destruct (String.eqb_spec filetype ".gif") as [->|_]; [auto|].
  destruct (String.eqb_spec filetype ".jpg") as [->|_]; [auto|].
  rewrite !orb_false_r.
  destruct (String.eqb filetype ".json"); [discriminate|].
  destruct (String.eqb filetype ".txt"); discriminate.
Qed.

Lemma lower_four s x y z :
  PyStr.lower s = String "." (String x (String y (String z ""))) ->
  exists a b c,
    s = String "." (String a (String b (String c ""))) /\
    PyStr.lower_char a = x /\ PyStr.lower_char b = y /\ PyStr.lower_char c = z.
Proof.
  destruct s as [|d [|a [|b [|c [|e s]]]]]; try discriminate.
  cbn [PyStr.lower]. intros [= Hd Ha Hb Hc].
  apply (lower_char_letters d) in Hd as ->. exists a, b, c. auto.
Qed.

Lemma image_type_inv name :
  get_asset_type name = Some "image" ->
  exists stem a b c,
    name = stem ++ String "." (String a (String b (String c ""))) /\
    (PyStr.lower (String a (String b (String c ""))) = "png" \/
     PyStr.lower (String a (String b (String c ""))) = "gif" \/
     PyStr.lower (String a (String b (String c ""))) = "jpg").
Proof.
  unfold get_asset_type. destruct (PyStr.rfind "." name) as [i|] eqn:Hr.
  - intros H. exists (PyStr.take i name).
    pose proof (take_drop i name) as Hname.
    apply image_filetype in H as [H|[H|H]];
      apply lower_four in H as (a & b & c & Hd & Ha & Hb & Hc);
      exists a, b, c; rewrite Hd in Hname; (split; [now symmetry|]);
      cbn [PyStr.lower]; rewrite Ha, Hb, Hc; auto.
  - intros H. exfalso. revert H.
    rewrite short_filetype_has_no_type; [discriminate|].
    rewrite length_lower. unfold PyStr.last. rewrite length_drop. lia.
Qed.

(** X10: an image asset is uploaded with an image content type when the
    three letters of its extension are in lower case, and with the content
    type of JSON otherwise: its type is found whatever the case, the content
    type by comparing the end of the name as it is. *)
Theorem image_content_type name :
  get_asset_type name = Some "image" ->
  (PyStr.lower (PyStr.last 3 name) = PyStr.last 3 name ->
   content_type_of ("/" ++ name) (get_asset_type name)
     = "image/" ++ (if String.eqb (PyStr.last 3 name) "jpg" then "jpeg"
                    else PyStr.last 3 name)) /\
  (PyStr.lower (PyStr.last 3 name) <> PyStr.last 3 name ->
   content_type_of ("/" ++ name) (get_asset_type name)
     = "application/json; charset=utf-8").
Proof.
  intros Himage. rewrite Himage.
  destruct (image_type_inv name Himage) as (stem & a & b & c & -> & Hext).
  unfold content_type_of.
  change ("/" ++ stem ++ String "." (String a (String b (String c ""))))
    with (String "/" (stem ++ String "." (String a (String b (String c ""))))).
  rewrite last_cons by (rewrite length_append; simpl; lia).
  rewrite (last_append_ge 3 stem) by (simpl; lia).
  change (PyStr.last 3 (String "." (String a (String b (String c "")))))
    with (String a (String b (String c ""))).
  cbn [PyStr.lower] in *.
  destruct Hext as [Hext|[Hext|Hext]]; injection Hext as Ha Hb Hc;
    apply (lower_char_letters a) in Ha; apply (lower_char_letters b) in Hb;
    apply (lower_char_letters c) in Hc;
    destruct Ha as [-> | ->], Hb as [-> | ->], Hc as [-> | ->];
    (split; intros H; [try reflexivity; try discriminate H | try reflexivity; try (now elim H)]).
Qed.

Lemma image_content_type_witness :
  content_type_of ("/" ++ "a.PNG") (get_asset_type "a.PNG")
    = "application/json; charset=utf-8".
Proof.
  apply (image_content_type "a.PNG"); [reflexivity | discriminate].
Defined.

(** ** More on the scanner *)

Lemma in_insert_by_name x y l : In x (insert_by_name y l) <-> x = y \/ In x l.
Proof.
  induction l as [|z l IH]; simpl; [intuition|].
  destruct (String.leb (snd y) (snd z)); simpl; [intuition|].
  rewrite IH. intuition.
Qed.

Lemma in_sort_by_name x l : In x (sort_by_name l) <-> In x l.
Proof.
  induction l as [|y l IH]; simpl; [easy|].
  rewrite in_insert_by_name, IH. intuition.
Qed.

Lemma in_kept_files dir es d f :
  In (d, f) (kept_files dir es) <->
  d = dir /\ (exists content, In (f, File content) es) /\ kept (d, f).
Proof.
  induction es as [|[file [content|sub]] es IH]; cbn [kept_files].
  - split; [easy | now intros (_ & [? []] & _)].
  - destruct (negb (PyStr.startswith "." file)
              && negb (PyStr.contains "config" (path_join dir file))) eqn:Hk.
    + simpl. rewrite IH. split.
      * intros [[= <- <-]|(-> & [c Hc] & Hkept)].
        -- apply andb_true_iff in Hk as [H1%negb_true_iff H2%negb_true_iff].
           split; [easy|]. split; [exists content; now left | now split].
        -- split; [easy|]. split; [exists c; now right | easy].
      * intros (-> & [c [[= <- <-]|Hc]] & Hkept); [now left|].
        right. split; [easy|]. split; [now exists c | easy].
    + rewrite IH. split.
      * intros (-> & [c Hc] & Hkept). split; [easy|]. split; [exists c; now right | easy].
      * intros (-> & [c [[= <- <-]|Hc]] & Hkept).
        -- destruct Hkept as [H1 H2]. cbn [fst snd] in H1, H2. now rewrite H1, H2 in Hk.
        -- split; [easy|]. split; [now exists c | easy].
  - rewrite IH. split.
    + intros (-> & [c Hc] & Hkept). split; [easy|]. split; [exists c; now right | easy].
    + intros (-> & [c [[=]|Hc]] & Hkept). split; [easy|]. split; [now exists c | easy].
Qed.

Lemma file_in_dir dir es d f :
  file_in dir (Dir es) d f <->
  (d = dir /\ exists content, In (f, File content) es) \/
  (exists sub es', In (sub, Dir es') es /\ file_in (path_join dir sub) (Dir es') d f).
Proof.
  split.
  - inversion 1; subst; [left | right]; eauto.
  - intros [(-> & c & Hc)|(sub & es' & Hin & Hf)]; [eapply file_here | eapply file_below]; eauto.
Qed.

Lemma scan_node_files n :
  forall dir d f, In (d, f) (scan_node dir n) <-> file_in dir n d f /\ kept (d, f).
Proof.
  induction n as [content|es IH] using node_induction; intros dir d f.
  - simpl. split; [easy | now intros [H _]; inversion H].
  - cbn [scan_node]. rewrite in_sort_by_name, in_app_iff, in_kept_files, file_in_dir.
    match goal with
    | |- context [In (d, f) (?F es)] =>
        assert (HF : In (d, f) (F es) <->
                     exists sub es', In (sub, Dir es') es /\
                       file_in (path_join dir sub) (Dir es') d f /\ kept (d, f))
    end.
    { clear -IH. induction IH as [|[file [content|sub]] es Hx Hes IHes].
      - split; [easy | now intros (? & ? & [] & _)].
      - rewrite IHes. split.
        + intros (sub & es' & Hin & Hfk). exists sub, es'. split; [now right | exact Hfk].
        + intros (sub & es' & [[=]|Hin] & Hfk). exists sub, es'. now split.
      - rewrite in_app_iff, IHes. cbn [snd] in Hx. rewrite (Hx (path_join dir file) d f).
        split.
        + intros [[H1 H2]|(s & es' & Hin & Hfk)].
          * exists file, sub. split; [now left | easy].
          * exists s, es'. split; [now right | exact Hfk].
        + intros (s & es' & [[= <- <-]|Hin] & Hfk); [now left|].
          right. exists s, es'. now split. }
    rewrite HF. clear. split.
    + intros [(-> & Hc & Hk)|(sub & es' & Hin & Hf & Hk)]; (split; [|easy]).
      * now left.
      * right. eauto.
    + intros [[(-> & Hc)|(sub & es' & Hin & Hf)] Hk]; [left | right]; eauto.
Qed.

(** X11: the scanner returns exactly the files of the tree under the
    directory it is given whose name does not start with a dot and whose
    path does not hold [config], each with the path of its directory;
    sub-directories are searched whatever their name. *)
Theorem scanner_returns_kept_files root asset_dir assets :
  get_all_assets root asset_dir = Ret assets ->
  exists es, listdir root asset_dir = Ret es /\
    forall d f, In (d, f) assets <-> file_in asset_dir (Dir es) d f /\ kept (d, f).
Proof.
  unfold get_all_assets. intros H.
  apply obind_ret_inv in H as (es & Hes & [= <-]).
  exists es. split; [exact Hes|]. intros d f. apply (scan_node_files (Dir es)).
Qed.

Lemma scanner_returns_kept_files_witness :
  exists es, listdir sample_tree "out" = Ret es /\
    forall d f,
      In (d, f) [("out/img", "a.PNG"); ("out", "a.txt"); ("out", "b.json")] <->
      file_in "out" (Dir es) d f /\ kept (d, f).
Proof. apply (scanner_returns_kept_files sample_tree "out"). reflexivity. Defined.

(** ** More on uploading one asset *)

Lemma observed_after_upload_sibling env name ty content v z w asset :
  observed env (after_uploads env name ty content v z true w) name z = Ret asset ->
  match a_z asset with
  | Some (zsize, _) =>
      truthy z = true /\ zsize = Z.of_nat (String.length (default "" z))
  | None => truthy z = false
  end.
Proof.
  unfold observed. rewrite fetch_base_after_uploads.
  unfold after_base. cbn [stored objects].
  change ("assets" ++ name)
    with (Key (mkS3Object ("assets" ++ name) content (content_type_of name ty) None
                 (PyStr.str v) (new_version_id env (List.length (put_log w))))) at 1.
  rewrite fetch_store_eq. cbn [Metadata_version]. rewrite int_or_raise_str. cbn [obind].
  unfold after_uploads, after_base. cbn [andb]. destruct (truthy z).
  - cbn [stored objects].
    change ("assets" ++ name ++ ".gz")
      with (Key (mkS3Object ("assets" ++ name ++ ".gz") (default "" z)
                   (content_type_of name ty) (Some "gzip") (PyStr.str v)
                   (new_version_id env
                      (List.length (put_log w ++ [("assets" ++ name)%string])%list)))) at 1.
    rewrite fetch_store_eq. now intros [= <-].
  - now intros [= <-].
Qed.

(** X12: a call of [update_asset] that uploads never fails, and what it
    reads back is what it wrote: the asset it returns has the version it
    was given (written as a string in the metadata and parsed again) and
    the length of the content as size, the object under the key of the
    asset holds the content, and the keys written are the key of the asset
    and then, when the compressed content is not empty, the key of its
    sibling, whose length is the compressed size. *)
Theorem upload_reads_back env name ty content v z compat cfgs w :
  exists asset cfgs' w',
    update_asset env name ty content v z compat cfgs true w = (Ret (asset, cfgs'), w') /\
    a_version asset = v /\
    a_size asset = Z.of_nat (String.length content) /\
    a_url asset = asset_url env (bucket_name w) name ""
                    (new_version_id env (List.length (put_log w))) /\
    match a_z asset with
    | Some (zsize, _) =>
        truthy z = true /\ zsize = Z.of_nat (String.length (default "" z))
    | None => truthy z = false
    end /\
    (exists o, fetch ("assets" ++ name) (objects w') = Some o /\
               Body o = content /\ Metadata_version o = PyStr.str v /\
               ContentType o = content_type_of name ty) /\
    put_log w' = app (put_log w)
                   (("assets" ++ name) :: (if truthy z then ["assets" ++ name ++ ".gz"] else [])).
Proof.
  destruct (observed_after_upload env name ty content v z w)
    as (asset & Hobs & Hv & Hsize & Hurl).
  destruct (update_asset_run env name ty content v z compat cfgs true w asset Hobs)
    as (cfgs' & w' & Hrun & (Hbn & Hobj & Hlog) & _).
  exists asset, cfgs', w'. split; [exact Hrun|].
  split; [exact Hv|]. split; [exact Hsize|]. split; [exact Hurl|].
  split; [exact (observed_after_upload_sibling _ _ _ _ _ _ _ _ Hobs)|].
  split.
  - rewrite Hobj, fetch_base_after_uploads. unfold after_base. cbn [stored objects].
    change ("assets" ++ name)
      with (Key (mkS3Object ("assets" ++ name) content (content_type_of name ty) None
                   (PyStr.str v) (new_version_id env (List.length (put_log w))))) at 1.
    rewrite fetch_store_eq. eexists. split; [reflexivity|]. now repeat split.
  - now rewrite Hlog, put_log_after_uploads.
Qed.

(** X13: the content of a local asset is the one the bucket holds, the
    asset has a compressed sibling on disk that is not empty, and the
    bucket holds no object under the key of that sibling. Then the body of
    the loop over the local assets uploads nothing and raises the error of
    the missing key. *)
Theorem unchanged_asset_with_new_sibling env fs ea compatible ua cfgs folder n w
  content z e o v :
  ends_gz n = false ->
  read_file fs (path_join folder n) = Ret content ->
  local_zcontent fs folder n = Ret (Some z) -> z <> "" ->
  ea !! ("/" ++ n) = Some e -> e_content e = content ->
  fetch ("assets" ++ "/" ++ n) (objects w) = Some o ->
  PyStr.int (Metadata_version o) = Some v ->
  fetch ("assets" ++ "/" ++ n ++ ".gz") (objects w) = None ->
  update_changed_asset env fs ea compatible (ua, cfgs) (folder, n) w
    = (Raise (NoSuchKey ("assets" ++ "/" ++ n ++ ".gz")), w).
Proof.
  intros Hgz Hread Hz Hne He Hsame Ho Hv Hnone.
  rewrite update_changed_asset_eq, Hgz, Hread, Hz.
  unfold upload_decision. rewrite He.
  destruct (String.eqb_spec (e_content e) content) as [_|Hd]; [|easy].
  assert (Ht : truthy (Some z) = true).
  { unfold truthy. destruct (String.eqb_spec z ""); [easy | reflexivity]. }
  unfold update_asset, sbind, sret, get_object, lift, get_bucket_name, int_or_raise.
  change (("/" ++ n) ++ ".gz") with ("/" ++ n ++ ".gz").
  now rewrite Ho, Hv, Ht, Hnone.
Qed.

Lemma unchanged_asset_with_new_sibling_witness :
  update_changed_asset sample_env pair_fs
    (<["/b.txt" := mkExistingAsset "text" "1" "id-b" false]> ∅) false ([], [])
    ("out", "b.txt")
    (mkWorld "bucket"
       [mkS3Object "assets/b.txt" "text" "text/plain; charset=utf-8" None "1" "id-b"] [] 0)
  = (Raise (NoSuchKey "assets/b.txt.gz"),
     mkWorld "bucket"
       [mkS3Object "assets/b.txt" "text" "text/plain; charset=utf-8" None "1" "id-b"] [] 0).
Proof.
  apply (unchanged_asset_with_new_sibling sample_env pair_fs
           (<["/b.txt" := mkExistingAsset "text" "1" "id-b" false]> ∅) false [] []
           "out" "b.txt" _ "text" "zipped"
           (mkExistingAsset "text" "1" "id-b" false)
           (mkS3Object "assets/b.txt" "text" "text/plain; charset=utf-8" None "1" "id-b") 1);
    try reflexivity; discriminate.
Defined.

(** ** More on reading the remote state *)

Lemma most_recent_loop_app l1 l2 m :
  most_recent_loop (l1 ++ l2) m = let* m1 := most_recent_loop l1 m in most_recent_loop l2 m1.
Proof.
  revert m. induction l1 as [|item l1 IH]; intros m; [reflexivity|].
  change ((item :: l1) ++ l2)%list with (item :: (l1 ++ l2))%list.
  cbn [most_recent_loop]. destruct (negb (is_config_key (Key item))); [apply IH|].
  destruct (item_version_of (Key item)) as [iv|e]; cbn [obind]; [|reflexivity].
  destruct (adopts 0 iv m) as [b|e]; cbn [obind]; [apply IH | reflexivity].
Qed.

(** X14: an object whose key is neither under [config/] nor under
    [assets/] (the two bare prefixes are such keys) changes nothing to what
    is read from the bucket: the remote state is the one of the listing
    without it, and so is the most recent version. *)
Theorem foreign_keys_are_ignored env l1 item l2 ea ec :
  is_config_key (Key item) = false -> is_asset_key (Key item) = false ->
  parse_existing env (l1 ++ item :: l2) ea ec = parse_existing env (l1 ++ l2) ea ec /\
  get_most_recent_config (l1 ++ item :: l2) = get_most_recent_config (l1 ++ l2).
Proof.
  intros Hc Ha. split.
  - rewrite !parse_existing_app. destruct (parse_existing env l1 ea ec) as [[ea1 ec1]|e];
      cbn [obind]; [|reflexivity].
    cbn [parse_existing]. now rewrite Hc, Ha.
  - unfold get_most_recent_config. rewrite !most_recent_loop_app.
    destruct (most_recent_loop l1 [0; 0; 0]) as [m|e]; cbn [obind]; [|reflexivity].
    cbn [most_recent_loop]. now rewrite Hc.
Qed.

Lemma foreign_keys_are_ignored_witness :
  parse_existing sample_env ([listed "assets/x.png"] ++ listed "assets/" :: [listed "config/"])
    ∅ []
  = parse_existing sample_env ([listed "assets/x.png"] ++ [listed "config/"]) ∅ [] /\
  get_most_recent_config ([listed "assets/x.png"] ++ listed "assets/" :: [listed "config/"])
  = get_most_recent_config ([listed "assets/x.png"] ++ [listed "config/"]).
Proof.
  apply (foreign_keys_are_ignored sample_env [listed "assets/x.png"] (listed "assets/")
           [listed "config/"]); reflexivity.
Defined.

(** X15: when a manifest of the bucket does not decode, the manifests and
    the assets listed before it being read without error, the reconciler
    raises the error of [json.loads] and leaves the bucket as it is: no
    asset is uploaded. *)
Theorem corrupt_manifest_blocks_the_run env fs output_dir only compatible w l1 item l2 :
  objects w = (l1 ++ item :: l2)%list ->
  ordered l1 -> configs_decode env l1 ->
  is_config_key (Key item) = true -> json_loads env (Body item) = None ->
  update_changed_assets env fs output_dir only compatible w = (Raise JSONDecodeError, w).
Proof.
  intros Hobj Hord Hdec Hk Hbody.
  destruct (parse_existing_ordered env l1 Hord Hdec) as (ea & ec & Hparse).
  unfold update_changed_assets, sbind, list_objects, lift.
  rewrite Hobj, parse_existing_app, Hparse. cbn [obind parse_existing].
  rewrite Hk. unfold parse_existing_config. now rewrite Hbody.
Qed.

Lemma corrupt_manifest_blocks_the_run_witness :
  update_changed_assets sample_env (sample_fs "new") "out" None false
    (mkWorld "bucket" [listed "assets/a.json"; listed "config/1.0.0.json"] [] 0)
  = (Raise JSONDecodeError,
     mkWorld "bucket" [listed "assets/a.json"; listed "config/1.0.0.json"] [] 0).
Proof.
  apply (corrupt_manifest_blocks_the_run sample_env (sample_fs "new") "out" None false
           (mkWorld "bucket" [listed "assets/a.json"; listed "config/1.0.0.json"] [] 0)
           [listed "assets/a.json"] (listed "config/1.0.0.json") []);
    try reflexivity.
  - intros l1 item l2 Hl Hgz.
    destruct l1 as [|x l1];
      [injection Hl as <- _; discriminate Hgz | injection Hl as _ Hl; now destruct l1].
  - intros item [<-|[]] Hk. discriminate Hk.
Defined.

(** X16: read from a listing with distinct keys, the remote state mirrors
    the bucket: every base asset object (a key under [assets/] that does
    not end in [.gz]) is recorded under its key without [assets], with its
    body, the version of its metadata and its version id, and every record
    comes from the object under that key. *)
Theorem remote_state_mirrors_bucket env l ea ec :
  parse_existing env l ∅ [] = Ret (ea, ec) ->
  List.NoDup (map Key l) ->
  (forall o, In o l -> is_base_key o = true ->
     exists e, ea !! PyStr.drop 6 (Key o) = Some e /\ records o e) /\
  (forall k e, ea !! k = Some e ->
     exists o, fetch ("assets" ++ k) l = Some o /\ is_base_key o = true /\ records o e).
Proof.
  intros Hparse Hnd. split.
  - intros o Hin Hbase. exact (parse_existing_records _ _ _ _ _ _ _ Hparse Hnd Hin Hbase).
  - intros k e He.
    destruct (parse_existing_source _ _ _ _ _ _ _ _ Hparse He)
      as [(o & Hin & Hbase & Hkey & Hrec)|(e0 & He0 & _)];
      [|now rewrite lookup_empty in He0].
    exists o. rewrite <- Hkey. split; [now apply fetch_In | easy].
Qed.

Lemma remote_state_mirrors_bucket_witness :
  (forall o, In o (objects (sample_world "old" "3")) -> is_base_key o = true ->
     exists e, sample_existing_assets !! PyStr.drop 6 (Key o) = Some e /\ records o e) /\
  (forall k e, sample_existing_assets !! k = Some e ->
     exists o, fetch ("assets" ++ k) (objects (sample_world "old" "3")) = Some o /\
               is_base_key o = true /\ records o e).
Proof.
  apply (remote_state_mirrors_bucket sample_env (objects (sample_world "old" "3"))
           sample_existing_assets sample_configs).
  - vm_compute. reflexivity.
  - repeat constructor; simpl; intuition discriminate.
Defined.

Lemma dict_set_new {V} (k : string) (v : V) d :
  ~ In k (map fst d) -> dict_set k v d = (d ++ [(k, v)])%list.
Proof.
  induction d as [|[k' v'] d IH]; [reflexivity|]. cbn [map fst In dict_set app].
  intros Hk. destruct (String.eqb_spec k' k) as [->|_]; [elim Hk; now left|].
  rewrite IH; [reflexivity | tauto].
Qed.

Lemma parse_existing_configs env l :
  forall ea0 ec0 ea ec,
    parse_existing env l ea0 ec0 = Ret (ea, ec) ->
    List.NoDup (map fst ec0 ++ map Key l) ->
    exists new,
      ec = (ec0 ++ new)%list /\
      Forall2 (fun item kc =>
                 kc = (Key item, mkConfigRecord (c_content (snd kc)) (Key item) false) /\
                 json_loads env (Body item) = Some (c_content (snd kc)))
        (List.filter (fun item => is_config_key (Key item)) l) new.
Proof.
  induction l as [|item l IH]; intros ea0 ec0 ea ec; cbn [parse_existing List.filter].
  - intros [= _ <-] _. exists []. now rewrite app_nil_r.
  - intros H Hnd. cbn [map] in Hnd.
    assert (Hfresh : ~ In (Key item) (map fst ec0)).
    { intros Hin. apply NoDup_remove_2 in Hnd. apply Hnd, in_app_iff. now left. }
    destruct (is_config_key (Key item)) eqn:Hk.
    + apply obind_ret_inv in H as (ec1 & Hc & H). unfold parse_existing_config in Hc.
      destruct (json_loads env (Body item)) as [m|] eqn:Hm; [|discriminate].
      injection Hc as <-. rewrite (dict_set_new _ _ _ Hfresh) in H.
      destruct (IH _ _ _ _ H) as (new & -> & Hall).
      { rewrite map_app, <- app_assoc. exact Hnd. }
      exists ((Key item, mkConfigRecord m (Key item) false) :: new).
      split; [now rewrite <- app_assoc|]. constructor; [now split | exact Hall].
    + assert (Hnd' : List.NoDup (map fst ec0 ++ map Key l)) by (now apply NoDup_remove_1 in Hnd).
      destruct (is_asset_key (Key item)).
      * apply obind_ret_inv in H as (ea1 & _ & H). exact (IH _ _ _ _ H Hnd').
      * exact (IH _ _ _ _ H Hnd').
Qed.

(** X17: read from a listing with distinct keys, the manifests come in
    the order of the listing, one for each key under [config/]: each is
    the decoded body of its object, filed under the key of the object, and
    is not marked as updated. *)
Theorem manifests_are_read_in_order env l ea ec :
  parse_existing env l ∅ [] = Ret (ea, ec) ->
  List.NoDup (map Key l) ->
  Forall2 (fun item kc =>
             kc = (Key item, mkConfigRecord (c_content (snd kc)) (Key item) false) /\
             json_loads env (Body item) = Some (c_content (snd kc)))
    (List.filter (fun item => is_config_key (Key item)) l) ec.
Proof.
  intros Hparse Hnd.
  destruct (parse_existing_configs env l _ _ _ _ Hparse Hnd) as (new & -> & Hall).
  exact Hall.
Qed.

Lemma manifests_are_read_in_order_witness :
  Forall2 (fun item kc =>
             kc = (Key item, mkConfigRecord (c_content (snd kc)) (Key item) false) /\
             json_loads sample_env (Body item) = Some (c_content (snd kc)))
    (List.filter (fun item => is_config_key (Key item)) (objects (sample_world "old" "3")))
    sample_configs.
Proof.
  apply (manifests_are_read_in_order sample_env (objects (sample_world "old" "3"))
           sample_existing_assets sample_configs).
  - vm_compute. reflexivity.
  - repeat constructor; simpl; intuition discriminate.
Defined.

(** ** More on the reconciler *)

Lemma update_changed_asset_keys env fs ea compat ua cfgs folder n w ua' cfgs' w' :
  update_changed_asset env fs ea compat (ua, cfgs) (folder, n) w = (Ret (ua', cfgs'), w') ->
  exists new, put_log w' = (put_log w ++ new)%list /\
    forall k, In k new ->
      ends_gz n = false /\ (k = "assets/" ++ n \/ k = "assets/" ++ n ++ ".gz").
Proof.
  intros Hstep.
  apply update_changed_asset_inv in Hstep
    as [(_ & _ & _ & ->)|(Hgz & content & z & lv & up & asset & _ & _ & _ & Hup & _)].
  { exists []. now rewrite app_nil_r. }
  apply update_asset_inv in Hup as (_ & _ & _ & _ & _ & _ & _ & (_ & _ & Hlog) & _).
  rewrite Hlog, put_log_after_uploads. eexists. split; [reflexivity|].
  intros k Hk. split; [exact Hgz|].
  destruct up; [|easy]. destruct Hk as [<-|Hk]; [now left|].
  destruct (truthy z); [|easy]. destruct Hk as [<-|[]]. now right.
Qed.

Lemma sfold_keys env fs ea compat l :
  forall ua cfgs w ua' cfgs' w',
    sfold (update_changed_asset env fs ea compat) (ua, cfgs) l w = (Ret (ua', cfgs'), w') ->
    exists new, put_log w' = (put_log w ++ new)%list /\
      forall k, In k new ->
        exists folder n, In (folder, n) l /\ ends_gz n = false /\
                         (k = "assets/" ++ n \/ k = "assets/" ++ n ++ ".gz").
Proof.
  induction l as [|[folder n] l IH]; intros ua cfgs w ua' cfgs' w'; cbn [sfold].
  - intros [= <- <- <-]. exists []. now rewrite app_nil_r.
  - intros H. apply sbind_ret_inv in H as ([ua1 cfgs1] & w1 & Hstep & H).
    destruct (update_changed_asset_keys _ _ _ _ _ _ _ _ _ _ _ _ Hstep) as (new1 & Hlog1 & H1).
    destruct (IH _ _ _ _ _ _ H) as (new2 & Hlog2 & H2).
    exists (new1 ++ new2)%list. split; [now rewrite Hlog2, Hlog1, <- app_assoc|].
    intros k [Hk|Hk]%in_app_iff.
    + destruct (H1 k Hk) as [Hgz Hform]. exists folder, n. split; [now left | easy].
    + destruct (H2 k Hk) as (folder' & n' & Hin & Hrest).
      exists folder', n'. split; [now right | easy].
Qed.

(** X18: the keys a run of the reconciler writes are keys of local assets
    it has selected: each is [assets/] followed by the name of a scanned
    file that passes the [only] filter and does not end in [.gz], or that
    key followed by [.gz]. No manifest key is written. *)
Theorem reconciler_writes_asset_keys env fs output_dir only compatible w ua cfgs w' :
  update_changed_assets env fs output_dir only compatible w = (Ret (ua, cfgs), w') ->
  exists assets new,
    get_all_assets fs output_dir = Ret assets /\
    put_log w' = (put_log w ++ new)%list /\
    forall k, In k new ->
      is_config_key k = false /\
      exists folder n,
        In (folder, n) assets /\ allowed only (folder, n) = true /\ ends_gz n = false /\
        (k = "assets/" ++ n \/ k = "assets/" ++ n ++ ".gz").
Proof.
  intros H.
  apply update_changed_assets_inv in H as (ea & ec & assets & _ & Hscan & H).
  destruct (sfold_keys _ _ _ _ _ _ _ _ _ _ _ H) as (new & Hlog & Hnew).
  exists assets, new. split; [exact Hscan|]. split; [exact Hlog|].
  intros k Hk. destruct (Hnew k Hk) as (folder & n & [Hin Hal]%filter_In & Hgz & Hform).
  split; [now destruct Hform as [-> | ->]|].
  exists folder, n. auto.
Qed.

Lemma reconciler_writes_asset_keys_witness :
  exists assets new,
    get_all_assets pair_fs "out" = Ret assets /\
    put_log (snd (update_changed_assets sample_env pair_fs "out" None false empty_world))
      = (put_log empty_world ++ new)%list /\
    forall k, In k new ->
      is_config_key k = false /\
      exists folder n,
        In (folder, n) assets /\ allowed None (folder, n) = true /\ ends_gz n = false /\
        (k = "assets/" ++ n \/ k = "assets/" ++ n ++ ".gz").
Proof.
  eapply (reconciler_writes_asset_keys sample_env pair_fs "out" None false empty_world).
  vm_compute. reflexivity.
Defined.

(** X19: a run of the reconciler leaves every object that is not under
    the key of a selected local asset, or of its compressed sibling, as it
    was; so it is with every object outside [assets/], the manifests among
    them, also in compatible mode. *)
Theorem reconciler_leaves_other_objects env fs output_dir only compatible w ua cfgs w' :
  update_changed_assets env fs output_dir only compatible w = (Ret (ua, cfgs), w') ->
  bucket_name w' = bucket_name w /\
  (exists assets,
     get_all_assets fs output_dir = Ret assets /\
     forall k,
       (forall folder n, In (folder, n) assets -> allowed only (folder, n) = true ->
          ends_gz n = false -> k <> "assets/" ++ n /\ k <> "assets/" ++ n ++ ".gz") ->
       fetch k (objects w') = fetch k (objects w)) /\
  forall k, PyStr.take 7 k <> "assets/" -> fetch k (objects w') = fetch k (objects w).
Proof.
  intros H.
  apply update_changed_assets_inv in H as (ea & ec & assets & _ & Hscan & H).
  destruct (sfold_frame _ _ _ _ _ _ _ _ _ _ _ H) as [Hbn Hframe].
  split; [exact Hbn|]. split.
  - exists assets. split; [exact Hscan|]. intros k Hk. apply Hframe.
    intros n (folder & [Hin Hal]%filter_In & Hgz)%in_processed_names.
    exact (Hk folder n Hin Hal Hgz).
  - intros k Hk. apply Hframe. intros n _.
    split; intros ->; now apply Hk.
Qed.

Lemma reconciler_leaves_other_objects_witness :
  fetch "config/1.0.0.json"
    (objects (snd (update_changed_assets sample_env (sample_fs "new") "out" None true
                     (sample_world "old" "3"))))
  = fetch "config/1.0.0.json" (objects (sample_world "old" "3")).
Proof.
  eapply (reconciler_leaves_other_objects sample_env (sample_fs "new") "out" None true
            (sample_world "old" "3")).
  - vm_compute. reflexivity.
  - discriminate.
Defined.

Lemma dict_get_Some_In {V} (k : string) (v : V) d : dict_get k d = Some v -> In (k, v) d.
Proof.
  induction d as [|[k' v'] d IH]; simpl; [easy|].
  destruct (String.eqb_spec k' k) as [->|_]; [intros [= ->]; now left | auto].
Qed.

Lemma in_dict_set {V} (k k0 : string) (v v0 : V) d :
  In (k, v) (dict_set k0 v0 d) -> (k, v) = (k0, v0) \/ In (k, v) d.
Proof.
  induction d as [|[k' v'] d IH]; simpl; [intuition|].
  destruct (String.eqb_spec k' k0) as [->|_]; simpl; intuition.
Qed.

Lemma is_Some_dict_set {V} (k k0 : string) (v0 : V) d :
  is_Some (dict_get k (dict_set k0 v0 d)) <-> k = k0 \/ is_Some (dict_get k d).
Proof.
  destruct (String.eqb_spec k k0) as [->|Hne].
  - rewrite dict_get_set_eq. split; [now left | eauto].
  - rewrite dict_get_set_ne by easy. intuition.
Qed.

Lemma sfold_records env fs ea compat l :
  forall ua cfgs w ua' cfgs' w',
    sfold (update_changed_asset env fs ea compat) (ua, cfgs) l w = (Ret (ua', cfgs'), w') ->
    (forall s, is_Some (dict_get s ua') <->
       is_Some (dict_get s ua) \/
       exists folder n, In (folder, n) l /\ ends_gz n = false /\ s = "/" ++ n) /\
    (forall s r, In (s, r) ua' ->
       In (s, r) ua \/
       exists folder n, In (folder, n) l /\ ends_gz n = false /\ s = "/" ++ n /\
                        f_name r = s /\ f_type r = get_asset_type n).
Proof.
  induction l as [|[folder n] l IH]; intros ua cfgs w ua' cfgs' w'; cbn [sfold].
  - intros [= <- <- <-]. split; [|now left].
    intros s. split; [now left | now intros [H|(? & ? & [] & _)]].
  - intros H. apply sbind_ret_inv in H as ([ua1 cfgs1] & w1 & Hstep & H).
    destruct (IH _ _ _ _ _ _ H) as [Hdom Hrec].
    apply update_changed_asset_inv in Hstep
      as [(Hgz & -> & _ & _)|(Hgz & content & z & lv & up & asset & _ & _ & _ & _ & ->)].
    + split.
      * intros s. rewrite Hdom. split.
        -- intros [Hs|(f' & n' & Hin & Hrest)]; [now left|].
           right. exists f', n'. split; [now right | easy].
        -- intros [Hs|(f' & n' & [[= -> ->]|Hin] & Hg & Hs)]; [now left | congruence |].
           right. exists f', n'. auto.
      * intros s r Hin. destruct (Hrec s r Hin) as [Hs|(f' & n' & Hin' & Hrest)]; [now left|].
        right. exists f', n'. split; [now right | easy].
    + split.
      * intros s. rewrite Hdom, is_Some_dict_set. split.
        -- intros [[->|Hs]|(f' & n' & Hin & Hrest)].
           ++ right. exists folder, n. split; [now left | easy].
           ++ now left.
           ++ right. exists f', n'. split; [now right | easy].
        -- intros [Hs|(f' & n' & [[= -> ->]|Hin] & Hg & Hs)]; [now left; right | now left; left |].
           right. exists f', n'. auto.
      * intros s r Hin. destruct (Hrec s r Hin) as [Hs|(f' & n' & Hin' & Hrest)].
        -- apply in_dict_set in Hs as [[= -> ->]|Hs]; [|now left].
           right. exists folder, n. split; [now left|]. now repeat split.
        -- right. exists f', n'. split; [now right | easy].
Qed.

(** X20: the records a run of the reconciler returns are those of the
    local assets it has selected: a name has a record exactly when it is a
    slash followed by the name of a scanned file that passes the [only]
    filter and does not end in [.gz], and each record carries that name and
    the type of the asset. An asset left out by [only] has no record. *)
Theorem records_are_the_selected_assets env fs output_dir only compatible w ua cfgs w' :
  update_changed_assets env fs output_dir only compatible w = (Ret (ua, cfgs), w') ->
  exists assets,
    get_all_assets fs output_dir = Ret assets /\
    (forall s, is_Some (dict_get s ua) <->
       exists folder n, In (folder, n) assets /\ allowed only (folder, n) = true /\
                        ends_gz n = false /\ s = "/" ++ n) /\
    (forall s r, In (s, r) ua ->
       f_name r = s /\
       exists folder n, In (folder, n) assets /\ allowed only (folder, n) = true /\
                        ends_gz n = false /\ s = "/" ++ n /\ f_type r = get_asset_type n).
Proof.
  intros H.
  apply update_changed_assets_inv in H as (ea & ec & assets & _ & Hscan & H).
  destruct (sfold_records _ _ _ _ _ _ _ _ _ _ _ H) as [Hdom Hrec].
  exists assets. split; [exact Hscan|]. split.
  - intros s. rewrite Hdom. split.
    + intros [[x Hx]|(folder & n & [Hin Hal]%filter_In & Hgz & Hs)]; [discriminate Hx|].
      exists folder, n. auto.
    + intros (folder & n & Hin & Hal & Hgz & Hs). right. exists folder, n.
      split; [now apply filter_In | easy].
  - intros s r Hin.
    destruct (Hrec s r Hin) as [[]|(folder & n & [Hin' Hal]%filter_In & Hgz & Hs & Hname & Hty)].
    split; [exact Hname|]. exists folder, n. auto.
Qed.

Lemma records_are_the_selected_assets_witness :
  exists assets,
    get_all_assets pair_fs "out" = Ret assets /\
    (forall s,
       is_Some (dict_get s [("/b.txt", b_txt_record)]) <->
       exists folder n, In (folder, n) assets /\
                        allowed (Some {["/b.txt"]}) (folder, n) = true /\
                        ends_gz n = false /\ s = "/" ++ n).
Proof.
  destruct (records_are_the_selected_assets sample_env pair_fs "out" (Some {["/b.txt"]}) false
              empty_world [("/b.txt", b_txt_record)] []
              (snd (update_changed_assets sample_env pair_fs "out" (Some {["/b.txt"]}) false
                      empty_world)))
    as (assets & Hscan & Hdom & _); [vm_compute; reflexivity|].
  exists assets. split; [exact Hscan|]. exact Hdom.
Defined.

Lemma patched_record_off_eq env name asset cfgs cfgs' :
  Forall2 (patched_record env name asset false) cfgs cfgs' -> cfgs' = cfgs.
Proof.
  induction 1 as [|[k c] [k' c'] cfgs cfgs' [Hk Hc] _ IH]; [reflexivity|].
  cbn in Hk, Hc. now subst.
Qed.

Lemma sfold_compatible_off env fs ea l :
  forall ua cfgs w ua' cfgs' w',
    sfold (update_changed_asset env fs ea false) (ua, cfgs) l w = (Ret (ua', cfgs'), w') ->
    cfgs' = cfgs.
Proof.
  induction l as [|[folder n] l IH]; intros ua cfgs w ua' cfgs' w'; cbn [sfold].
  - now intros [= <- <- <-].
  - intros H. apply sbind_ret_inv in H as ([ua1 cfgs1] & w1 & Hstep & H).
    rewrite (IH _ _ _ _ _ _ H). clear IH H.
    apply update_changed_asset_inv in Hstep
      as [(_ & _ & -> & _)|(_ & content & z & lv & up & asset & _ & _ & _ & Hup & _)];
      [easy|].
    apply update_asset_inv in Hup as (_ & _ & _ & _ & _ & _ & _ & _ & Hcfg).
    now apply patched_record_off_eq in Hcfg.
Qed.

Lemma parse_existing_not_updated env l :
  forall ea0 ec0 ea ec,
    parse_existing env l ea0 ec0 = Ret (ea, ec) ->
    Forall (fun c => c_updated (snd c) = false) ec0 ->
    Forall (fun c => c_updated (snd c) = false) ec.
Proof.
  induction l as [|item l IH]; intros ea0 ec0 ea ec; cbn [parse_existing].
  - now intros [= _ <-].
  - destruct (is_config_key (Key item)).
    + intros H Hall. apply obind_ret_inv in H as (ec1 & Hc & H).
      apply (IH _ _ _ _ H). unfold parse_existing_config in Hc.
      destruct (json_loads env (Body item)) as [m|]; [|discriminate].
      injection Hc as <-. clear -Hall.
      induction Hall as [|[k c] ec0 Hc Htail IHec]; cbn [dict_set].
      * now constructor.
      * destruct (String.eqb k (Key item)); constructor; easy.
    + destruct (is_asset_key (Key item)); [|apply IH].
      intros H Hall. apply obind_ret_inv in H as (ea1 & _ & H). exact (IH _ _ _ _ H Hall).
Qed.

(** X21: without compatible mode the reconciler returns the manifests as
    it has read them from the bucket: none is rewritten and none is marked
    as updated. *)
Theorem reconciler_keeps_manifests env fs output_dir only w ua cfgs w' :
  update_changed_assets env fs output_dir only false w = (Ret (ua, cfgs), w') ->
  exists ea, parse_existing env (objects w) ∅ [] = Ret (ea, cfgs) /\
             Forall (fun c => c_updated (snd c) = false) cfgs.
Proof.
  intros H.
  apply update_changed_assets_inv in H as (ea & ec & assets & Hparse & _ & H).
  apply sfold_compatible_off in H as ->.
  exists ea. split; [exact Hparse|].
  apply (parse_existing_not_updated _ _ _ _ _ _ Hparse). constructor.
Qed.

Lemma reconciler_keeps_manifests_witness :
  exists ea,
    parse_existing sample_env (objects (sample_world "old" "3")) ∅ []
      = Ret (ea, sample_configs) /\
    Forall (fun c => c_updated (snd c) = false) sample_configs.
Proof.
  eapply (reconciler_keeps_manifests sample_env (sample_fs "new") "out" None
            (sample_world "old" "3")).
  vm_compute. reflexivity.
Defined.

(** ** Uploading manifests and releasing *)

Lemma update_changed_configs_run json_dumps env configs w :
  exists w',
    update_changed_configs json_dumps env configs w = (Ret tt, w') /\
    bucket_name w' = bucket_name w /\ ticks w' = ticks w /\
    put_log w' = (put_log w ++ uploaded_keys configs)%list /\
    (forall k, ~ In k (uploaded_keys configs) ->
       fetch k (objects w') = fetch k (objects w)) /\
    (List.NoDup (uploaded_keys configs) ->
     forall k c, In (k, c) configs -> c_updated c = true ->
       exists o, fetch (c_key c) (objects w') = Some o /\
                 Body o = json_dumps (c_content c)).
Proof.
  revert w. induction configs as [|[k c] configs IH]; intros w.
  - exists w. cbn. rewrite app_nil_r. repeat split; easy.
  - cbn [update_changed_configs]. unfold uploaded_keys. cbn [List.filter snd].
    destruct (c_updated c) eqn:Hupd; cbn [negb map].
    + unfold sbind, put_manifest.
      set (o := mkS3Object (c_key c) (json_dumps (c_content c)) "binary/octet-stream" None ""
                  (new_version_id env (List.length (put_log w)))).
      set (w1 := mkWorld (bucket_name w) (store o (objects w))
                   (put_log w ++ [c_key c])%list (ticks w)).
      destruct (IH w1) as (w' & Hrun & Hbn & Hticks & Hlog & Hother & Hbody).
      exists w'. split; [exact Hrun|]. split; [exact Hbn|]. split; [exact Hticks|].
      split; [rewrite Hlog; cbn; now rewrite <- app_assoc|]. split.
      * intros k' Hk'. rewrite Hother by (intros Hin; apply Hk'; now right).
        cbn. apply fetch_store_ne. intros ->. apply Hk'. now left.
      * intros Hnd k' c' [[= <- <-]|Hin] Hupd'.
        -- apply NoDup_cons_iff in Hnd as [Hnotin _].
           rewrite (Hother (c_key c) Hnotin). cbn.
           change (c_key c) with (Key o) at 1. rewrite fetch_store_eq. now exists o.
        -- apply NoDup_cons_iff in Hnd as [_ Hnd]. exact (Hbody Hnd k' c' Hin Hupd').
    + destruct (IH w) as (w' & Hrun & Hbn & Hticks & Hlog & Hother & Hbody).
      exists w'. split; [exact Hrun|]. split; [exact Hbn|]. split; [exact Hticks|].
      split; [exact Hlog|]. split; [exact Hother|].
      intros Hnd k' c' [[= <- <-]|Hin] Hupd'; [congruence|].
      exact (Hbody Hnd k' c' Hin Hupd').
Qed.

(** X22: [update_changed_configs] never fails; it writes the manifests
    marked as updated and no other, in the order of the dict, each under
    the key its record holds, and leaves the objects under other keys as
    they are. When those keys are distinct, each of these manifests is then
    the body of the object under its key. *)
Theorem update_changed_configs_writes_updated json_dumps env configs w :
  exists w',
    update_changed_configs json_dumps env configs w = (Ret tt, w') /\
    bucket_name w' = bucket_name w /\ ticks w' = ticks w /\
    put_log w' = (put_log w ++ uploaded_keys configs)%list /\
    (forall k, ~ In k (uploaded_keys configs) ->
       fetch k (objects w') = fetch k (objects w)) /\
    (List.NoDup (uploaded_keys configs) ->
     forall k c, In (k, c) configs -> c_updated c = true ->
       exists o, fetch (c_key c) (objects w') = Some o /\
                 Body o = json_dumps (c_content c)).
Proof. apply update_changed_configs_run. Qed.

Lemma update_changed_configs_writes_updated_witness :
  exists o,
    fetch "config/1.0.0.json"
      (objects (snd (update_changed_configs sample_dumps sample_env patched_configs
                       (sample_world "old" "3")))) = Some o /\
    Body o = "manifest@1000".
Proof.
  destruct (update_changed_configs_writes_updated sample_dumps sample_env patched_configs
              (sample_world "old" "3")) as (w' & Hrun & _ & _ & _ & _ & Hbody).
  rewrite Hrun.
  assert (Hnd : List.NoDup (uploaded_keys patched_configs))
    by (repeat constructor; simpl; tauto).
  apply (Hbody Hnd "config/1.0.0.json"
           (mkConfigRecord (mkManifest [sample_entry 4] 1000) "config/1.0.0.json" true));
    [now left | reflexivity].
Defined.

Lemma update_changed_assets_log env fs output_dir only compatible w ua cfgs w' :
  update_changed_assets env fs output_dir only compatible w = (Ret (ua, cfgs), w') ->
  exists new, put_log w' = (put_log w ++ new)%list.
Proof.
  intros H. apply update_changed_assets_inv in H as (ea & ec & assets & _ & _ & H).
  exact (sfold_log _ _ _ _ _ _ _ _ _ _ _ H).
Qed.

Lemma release_run json_dumps env fs o w ua cfgs w1 w2 :
  update_changed_assets (with_region env (Cli.REGION o)) fs (Cli.OUTPUT_DIR o)
    (Cli.ONLY_UPGRADE o) (Cli.COMPATIBLE o) w = (Ret (ua, cfgs), w1) ->
  (if Cli.COMPATIBLE o
   then update_changed_configs json_dumps (with_region env (Cli.REGION o)) cfgs
   else sret tt) w1 = (Ret tt, w2) ->
  Cli.BUILD_CONFIG o = true ->
  release json_dumps env fs o w =
    match get_release_config_version (objects w2) (Cli.NEW_VERSION o) with
    | Ret v =>
        sbind (build_release_config (with_region env (Cli.REGION o)) ua v)
          (fun kd => update_changed_configs json_dumps (with_region env (Cli.REGION o))
                       [(fst kd, snd kd)]) w2
    | Raise e => (Raise e, w2)
    end.
Proof.
  intros Hrun Hcfg Hbuild. unfold release.
  rewrite (sbind_run _ _ _ _ _ Hrun). cbv beta iota.
  rewrite (sbind_run _ _ _ _ _ Hcfg). rewrite Hbuild.
  unfold sbind at 1. unfold list_objects at 1.
  unfold sbind at 1. unfold lift at 1.
  destruct (get_release_config_version (objects w2) (Cli.NEW_VERSION o)) as [v|e];
    [|reflexivity].
  unfold sbind. destruct (build_release_config _ ua v w2) as [[[k d]|e] w3]; reflexivity.
Qed.

(** X23: a version token that is neither a bump nor a version makes the
    release fail with the [ValueError] about the token, but only once the
    reconciler has run and, in compatible mode, the rewritten manifests
    have been uploaded: the bucket stays as those uploads have left it. *)
Theorem bad_token_fails_after_the_uploads json_dumps env fs o w ua cfgs w1 w2 :
  update_changed_assets (with_region env (Cli.REGION o)) fs (Cli.OUTPUT_DIR o)
    (Cli.ONLY_UPGRADE o) (Cli.COMPATIBLE o) w = (Ret (ua, cfgs), w1) ->
  (if Cli.COMPATIBLE o
   then update_changed_configs json_dumps (with_region env (Cli.REGION o)) cfgs
   else sret tt) w1 = (Ret tt, w2) ->
  Cli.BUILD_CONFIG o = true ->
  keys_well_formed (objects w2) ->
  PyStr.match_version (Cli.NEW_VERSION o) = false ->
  Cli.NEW_VERSION o <> "major" -> Cli.NEW_VERSION o <> "minor" ->
  Cli.NEW_VERSION o <> "patch" ->
  release json_dumps env fs o w = (Raise version_token_error, w2) /\
  exists new, put_log w2 = (put_log w ++ new)%list /\
              (Cli.COMPATIBLE o = false -> put_log w2 = put_log w1).
Proof.
  intros Hrun Hcfg Hbuild Hwf Hm H1 H2 H3.
  rewrite (release_run _ _ _ _ _ _ _ _ _ Hrun Hcfg Hbuild).
  destruct (most_recent_loop_triple (objects w2) [0; 0; 0] Hwf eq_refl) as (x & y & z & Hmr).
  unfold get_release_config_version, get_most_recent_config. rewrite Hm, Hmr. cbn [obind].
  destruct (String.eqb_spec (Cli.NEW_VERSION o) "major"); [easy|].
  destruct (String.eqb_spec (Cli.NEW_VERSION o) "minor"); [easy|].
  destruct (String.eqb_spec (Cli.NEW_VERSION o) "patch"); [easy|].
  split; [reflexivity|].
  destruct (update_changed_assets_log _ _ _ _ _ _ _ _ _ Hrun) as (new & Hlog).
  destruct (Cli.COMPATIBLE o).
  - destruct (update_changed_configs_run json_dumps
                (with_region env (Cli.REGION o)) cfgs w1) as (w' & Hrun' & _ & _ & Hlog' & _).
    rewrite Hrun' in Hcfg. injection Hcfg as <-.
    exists (new ++ uploaded_keys cfgs)%list.
    split; [now rewrite Hlog', Hlog, <- app_assoc | discriminate].
  - injection Hcfg as <-. exists new. now split.
Qed.

Lemma bad_token_fails_after_the_uploads_witness :
  fst (release sample_dumps sample_env (sample_fs "new") (sample_options "bogus" None)
         (sample_world "old" "3")) = Raise version_token_error /\
  put_log (snd (release sample_dumps sample_env (sample_fs "new") (sample_options "bogus" None)
                  (sample_world "old" "3"))) = ["assets/a.json"].
Proof.
  edestruct (bad_token_fails_after_the_uploads sample_dumps sample_env (sample_fs "new")
               (sample_options "bogus" None) (sample_world "old" "3")) as [Hrel _].
  - vm_compute. reflexivity.
  - vm_compute. reflexivity.
  - reflexivity.
  - intros item [<-|[<-|[]]] Hk; [discriminate Hk|]. vm_compute. eauto.
  - reflexivity.
  - discriminate.
  - discriminate.
  - discriminate.
  - rewrite Hrel. split; reflexivity.
Defined.

(** X24: a release that builds a manifest ends by writing it under the
    key [config/<version>.json], the version being the one resolved from
    the bucket as the uploads have left it; an object already under that
    key is replaced. The manifest lists the records the reconciler has
    returned, in their order, and so exactly one entry for each name of a
    scanned file that passes the [only] filter and does not end in [.gz]:
    an asset left out by [only] is not in the manifest. *)
Theorem release_writes_the_manifest json_dumps env fs o w ua cfgs w1 w2 v :
  update_changed_assets (with_region env (Cli.REGION o)) fs (Cli.OUTPUT_DIR o)
    (Cli.ONLY_UPGRADE o) (Cli.COMPATIBLE o) w = (Ret (ua, cfgs), w1) ->
  (if Cli.COMPATIBLE o
   then update_changed_configs json_dumps (with_region env (Cli.REGION o)) cfgs
   else sret tt) w1 = (Ret tt, w2) ->
  Cli.BUILD_CONFIG o = true ->
  get_release_config_version (objects w2) (Cli.NEW_VERSION o) = Ret v ->
  exists w3 ob assets,
    release json_dumps env fs o w = (Ret tt, w3) /\
    put_log w3 = app (put_log w2) ["config/" ++ v ++ ".json"] /\
    fetch ("config/" ++ v ++ ".json") (objects w3) = Some ob /\
    Body ob = json_dumps (mkManifest (map snd ua) (clock env (ticks w2))) /\
    get_all_assets fs (Cli.OUTPUT_DIR o) = Ret assets /\
    (forall entry, In entry (map snd ua) ->
       exists folder n, In (folder, n) assets /\
         allowed (Cli.ONLY_UPGRADE o) (folder, n) = true /\ ends_gz n = false /\
         f_name entry = "/" ++ n) /\
    (forall folder n, In (folder, n) assets ->
       allowed (Cli.ONLY_UPGRADE o) (folder, n) = true -> ends_gz n = false ->
       exists entry, In entry (map snd ua) /\ f_name entry = "/" ++ n).
Proof.
  intros Hrun Hcfg Hbuild Hv.
  rewrite (release_run _ _ _ _ _ _ _ _ _ Hrun Hcfg Hbuild), Hv.
  apply update_changed_assets_inv in Hrun as (ea & ec & assets & _ & Hscan & Hrun).
  destruct (sfold_records _ _ _ _ _ _ _ _ _ _ _ Hrun) as [Hdom Hrec].
  eexists. eexists. exists assets. split; [reflexivity|].
  split; [reflexivity|]. split.
  { cbn [objects]. 
    match goal with
    | |- fetch ?k (store ?o _) = _ => change k with (Key o); apply fetch_store_eq
    end. }
  split; [reflexivity|]. split; [exact Hscan|]. split.
  - intros entry [[s r] [<- Hin]]%in_map_iff.
    destruct (Hrec s r Hin)
      as [[]|(folder & n & [Hin' Hal]%filter_In & Hgz & Hs & Hname & _)].
    exists folder, n. cbn [snd]. rewrite Hname. auto.
  - intros folder n Hin Hal Hgz.
    destruct (proj2 (Hdom ("/" ++ n))) as [r Hr].
    { right. exists folder, n. split; [now apply filter_In | easy]. }
    apply dict_get_Some_In in Hr. exists r. split; [now apply (in_map snd) in Hr|].
    destruct (Hrec _ _ Hr) as [[]|(_ & _ & _ & _ & _ & Hname & _)]. exact Hname.
Qed.

Lemma release_writes_the_manifest_witness :
  exists w3 ob assets,
    release sample_dumps sample_env pair_fs (sample_options "patch" (Some {["/b.txt"]}))
      empty_world = (Ret tt, w3) /\
    put_log w3 = app ["assets/b.txt"; "assets/b.txt.gz"] ["config/" ++ "0.0.1" ++ ".json"] /\
    fetch ("config/" ++ "0.0.1" ++ ".json") (objects w3) = Some ob /\
    Body ob = sample_dumps (mkManifest (map snd [("/b.txt", b_txt_record)])
                              (clock sample_env 0)) /\
    get_all_assets pair_fs "out" = Ret assets /\
    (forall entry, In entry (map snd [("/b.txt", b_txt_record)]) ->
       exists folder n, In (folder, n) assets /\
         allowed (Some {["/b.txt"]}) (folder, n) = true /\ ends_gz n = false /\
         f_name entry = "/" ++ n) /\
    (forall folder n, In (folder, n) assets ->
       allowed (Some {["/b.txt"]}) (folder, n) = true -> ends_gz n = false ->
       exists entry, In entry (map snd [("/b.txt", b_txt_record)]) /\ f_name entry = "/" ++ n).
Proof.
  apply (release_writes_the_manifest sample_dumps sample_env pair_fs
           (sample_options "patch" (Some {["/b.txt"]})) empty_world
           [("/b.txt", b_txt_record)] [] b_txt_world b_txt_world "0.0.1");
    vm_compute; reflexivity.
Defined.

(** ** The command line *)

Lemma argv_at_lt argv i :
  (i < List.length argv)%nat -> exists a, Cli.argv_at argv i = Ret a /\ argv !! i = Some a.
Proof.
  intros Hi. unfold Cli.argv_at.
  destruct (argv !! i) as [a|] eqn:Ha; [eauto|].
  apply lookup_ge_None in Ha. lia.
Qed.

Lemma parse_options_total argv args :
  forall index SKIP_NEXT o,
    (index + List.length args < List.length argv)%nat ->
    exists o', Cli.parse_options argv index SKIP_NEXT args o = Ret o'.
Proof.
  induction args as [|arg args IH]; intros index skip o Hlen; cbn [Cli.parse_options].
  - eauto.
  - cbn [List.length] in Hlen.
    destruct (argv_at_lt argv (index + 1)) as (a & -> & _); [lia|]. cbn [obind].
    destruct skip; [apply IH; lia|].
    repeat match goal with
           | |- context [String.eqb arg ?x] => destruct (String.eqb arg x)
           end; apply IH; lia.
Qed.

(** X25: every command line is parsed without error: no index the
    parser uses is out of range, the place an option value is read from
    included. *)
Theorem command_line_is_parsed argv : exists c, Cli.command_of argv = Ret c.
Proof.
  unfold Cli.command_of.
  destruct (2 <=? List.length argv)%nat eqn:H2.
  - apply Nat.leb_le in H2.
    destruct (argv_at_lt argv 1) as (a1 & -> & _); [lia|]. cbn [obind].
    destruct (String.eqb a1 "--dev").
    + destruct (List.length argv <? 3)%nat eqn:H3; cbn [obind].
      * apply Nat.ltb_lt in H3.
        assert (H4 : (List.length argv <? 4)%nat = true) by (apply Nat.ltb_lt; lia).
        assert (H5 : (List.length argv <? 5)%nat = true) by (apply Nat.ltb_lt; lia).
        rewrite H4, H5. cbn [obind]. eauto.
      * apply Nat.ltb_ge in H3.
        destruct (argv_at_lt argv 2) as (a2 & -> & _); [lia|]. cbn [obind].
        destruct (List.length argv <? 4)%nat eqn:H4; cbn [obind].
        -- apply Nat.ltb_lt in H4.
           assert (H5 : (List.length argv <? 5)%nat = true) by (apply Nat.ltb_lt; lia).
           rewrite H5. cbn [obind]. eauto.
        -- apply Nat.ltb_ge in H4.
           destruct (argv_at_lt argv 3) as (a3 & -> & _); [lia|]. cbn [obind].
           destruct (List.length argv <? 5)%nat eqn:H5; cbn [obind]; [eauto|].
           apply Nat.ltb_ge in H5.
           destruct (argv_at_lt argv 4) as (a4 & -> & _); [lia|]. cbn [obind]. eauto.
    + destruct (List.length argv <? 5)%nat eqn:H5; [eauto|].
      apply Nat.ltb_ge in H5.
      destruct (argv_at_lt argv 2) as (a2 & -> & _); [lia|].
      destruct (argv_at_lt argv 3) as (a3 & -> & _); [lia|].
      destruct (argv_at_lt argv 4) as (a4 & -> & _); [lia|]. cbn [obind].
      destruct (5 <? List.length argv)%nat; cbn [obind]; [|eauto].
      edestruct (parse_options_total argv (skipn 5 argv) 0 false) as [o' ->];
        [|cbn [obind]; eauto].
      rewrite length_skipn. lia.
  - cbn [obind]. apply Nat.leb_gt in H2.
    assert (H5 : (List.length argv <? 5)%nat = true) by (apply Nat.ltb_lt; lia).
    rewrite H5. eauto.
Qed.

Lemma parse_options_flags argv flags :
  forall index o rest,
    Forall takes_no_value flags ->
    exists o1,
      Cli.parse_options argv index false (flags ++ rest) o
        = Cli.parse_options argv (index + List.length flags) false rest o1 /\
      Cli.REGION o1 = Cli.REGION o /\ Cli.ONLY_UPGRADE o1 = Cli.ONLY_UPGRADE o /\
      Cli.BUCKET_NAME o1 = Cli.BUCKET_NAME o.
Proof.
  induction flags as [|arg flags IH]; intros index o rest Hflags.
  - exists o. cbn [List.length app]. now rewrite Nat.add_0_r.
  - apply Forall_cons in Hflags as [[Honly Hregion] Hflags].
    change ((arg :: flags) ++ rest)%list with (arg :: (flags ++ rest))%list.
    cbn [Cli.parse_options List.length].
    destruct (String.eqb_spec arg "--only"); [easy|].
    destruct (String.eqb_spec arg "--region"); [easy|].
    replace (index + S (List.length flags))%nat with (S index + List.length flags)%nat by lia.
    destruct (String.eqb arg "--no-new-config");
      [|destruct (String.eqb arg "--compatible")];
      match goal with
      | |- context [Cli.parse_options argv (S index) false (flags ++ rest) ?o'] =>
          destruct (IH (S index) o' rest Hflags) as (o1 & -> & H1 & H2 & H3)
      end; exists o1; auto.
Qed.

(** X26: the value of [--region] and of [--only] is not read from the
    word that follows the option. For an option at place [i] among the
    options it is read from place [i + 1] of the whole command line, five
    words earlier: the bucket name for an option that comes first. The
    word that follows the option is skipped. *)
Theorem option_value_is_misread prog bucket asset_dir output_dir version flags value :
  bucket <> "--dev" ->
  Forall takes_no_value flags ->
  let argv := prog :: bucket :: asset_dir :: output_dir :: version :: flags in
  (exists o read,
     Cli.command_of (argv ++ ["--region"; value]) = Ret (Cli.Release o) /\
     argv !! (List.length flags + 1)%nat = Some read /\
     Cli.REGION o = read /\ Cli.ONLY_UPGRADE o = None) /\
  (exists o read,
     Cli.command_of (argv ++ ["--only"; value]) = Ret (Cli.Release o) /\
     argv !! (List.length flags + 1)%nat = Some read /\
     Cli.ONLY_UPGRADE o = Some (list_to_set (PyStr.split "," read)) /\
     Cli.REGION o = "ca-central-1").
Proof.
  intros Hdev Hflags argv.
  assert (Hlook : exists read, argv !! (List.length flags + 1)%nat = Some read).
  { apply lookup_lt_is_Some. subst argv. cbn [List.length]. lia. }
  destruct Hlook as [read Hread].
  assert (Hat : forall tail, Cli.argv_at (argv ++ tail) (0 + List.length flags + 1) = Ret read).
  { intros tail. unfold Cli.argv_at. cbn [Nat.add].
    now rewrite (lookup_app_l_Some _ _ _ _ Hread). }
  assert (Hcommand : forall opt, 
    Cli.command_of (argv ++ [opt; value])
    = let* o := Cli.parse_options (argv ++ [opt; value]) 0 false (flags ++ [opt; value])
                  (Cli.mkOptions bucket asset_dir output_dir version true "ca-central-1"
                     None false) in
      Ret (Cli.Release o)).
  { intros opt. unfold Cli.command_of. subst argv.
    cbn [app List.length Nat.leb Cli.argv_at lookup list_lookup obind skipn].
    destruct (String.eqb_spec bucket "--dev"); [easy|].
    cbn [Nat.ltb Nat.leb].
    rewrite length_app. cbn [List.length].
    replace (List.length flags + 2)%nat with (S (S (List.length flags))) by lia.
    reflexivity. }
  split.
  - rewrite Hcommand.
    destruct (parse_options_flags (argv ++ ["--region"; value]) flags 0
                (Cli.mkOptions bucket asset_dir output_dir version true "ca-central-1"
                   None false) ["--region"; value] Hflags) as (o1 & -> & H1 & H2 & _).
    cbn [Cli.parse_options String.eqb Ascii.eqb Bool.eqb].
    rewrite Hat. cbn [obind].
    eexists. exists read. split; [reflexivity|]. split; [exact Hread|].
    split; [reflexivity | exact H2].
  - rewrite Hcommand.
    destruct (parse_options_flags (argv ++ ["--only"; value]) flags 0
                (Cli.mkOptions bucket asset_dir output_dir version true "ca-central-1"
                   None false) ["--only"; value] Hflags) as (o1 & -> & H1 & H2 & _).
    cbn [Cli.parse_options String.eqb Ascii.eqb Bool.eqb].
    rewrite Hat. cbn [obind].
    eexists. exists read. split; [reflexivity|]. split; [exact Hread|].
    split; [reflexivity | exact H1].
Qed.

Lemma option_value_is_misread_witness :
  exists o,
    Cli.command_of
      ["release_manager.py"; "my-bucket"; "assets/"; "out/"; "patch"; "--region"; "eu-west-1"]
      = Ret (Cli.Release o) /\
    Cli.REGION o = "my-bucket".
Proof.
  destruct (option_value_is_misread "release_manager.py" "my-bucket" "assets/" "out/" "patch"
              [] "eu-west-1") as [(o & read & Hc & [= <-] & Hr & _) _];
    [discriminate | constructor |].
  exists o. split; [exact Hc | exact Hr].
Defined.

Lemma parse_options_unknown_last argv x args :
  ~ is_option x ->
  forall index SKIP_NEXT o,
    (index + List.length args < List.length argv)%nat ->
    Cli.parse_options (argv ++ [x]) index SKIP_NEXT (args ++ [x]) o
    = Cli.parse_options argv index SKIP_NEXT args o.
Proof.
  intros Hx. induction args as [|arg args IH]; intros index skip o Hlen.
  - cbn [app Cli.parse_options]. destruct skip; [reflexivity|].
    destruct (String.eqb_spec x "--only") as [->|_]; [elim Hx; now left|].
    destruct (String.eqb_spec x "--region") as [->|_]; [elim Hx; now right; left|].
    destruct (String.eqb_spec x "--no-new-config") as [->|_];
      [elim Hx; now right; right; left|].
    destruct (String.eqb_spec x "--compatible") as [->|_];
      [elim Hx; now right; right; right|].
    reflexivity.
  - change ((arg :: args) ++ [x])%list with (arg :: (args ++ [x]))%list.
    cbn [Cli.parse_options List.length] in *.
    assert (Hat : Cli.argv_at (argv ++ [x]) (index + 1) = Cli.argv_at argv (index + 1)).
    { unfold Cli.argv_at. rewrite lookup_app_l by lia. reflexivity. }
    rewrite Hat.
    destruct skip; [apply IH; lia|].
    destruct (String.eqb arg "--only").
    { destruct (Cli.argv_at argv (index + 1)); cbn [obind]; [apply IH; lia | reflexivity]. }
    destruct (String.eqb arg "--region").
    { destruct (Cli.argv_at argv (index + 1)); cbn [obind]; [apply IH; lia | reflexivity]. }
    destruct (String.eqb arg "--no-new-config"); [apply IH; lia|].
    destruct (String.eqb arg "--compatible"); apply IH; lia.
Qed.

(** X27: a word after the options that is none of the four (a misspelt
    option, or [--dev], which the usage lists among the options) is passed
    over without a warning: the release is the one of the command line
    without it. *)
Theorem unknown_option_is_ignored argv x o :
  Cli.command_of argv = Ret (Cli.Release o) ->
  ~ is_option x ->
  Cli.command_of (argv ++ [x]) = Ret (Cli.Release o).
Proof.
  unfold Cli.command_of. intros H Hx.
  destruct (2 <=? List.length argv)%nat eqn:H2.
  2:{ cbn [obind] in H. destruct (List.length argv <? 5)%nat eqn:H5; [discriminate|].
      apply Nat.leb_gt in H2. apply Nat.ltb_ge in H5. lia. }
  apply Nat.leb_le in H2.
  destruct (argv_at_lt argv 1) as (a1 & Ha1 & Hl1); [lia|]. rewrite Ha1 in H. cbn [obind] in H.
  destruct (String.eqb a1 "--dev") eqn:Hdev.
  { repeat match type of H with
           | context [if ?b then _ else _] => destruct b
           | context [Cli.argv_at ?a ?i] => destruct (Cli.argv_at a i)
           end; cbn [obind] in H; discriminate. }
  destruct (List.length argv <? 5)%nat eqn:H5; [discriminate|].
  apply Nat.ltb_ge in H5.
  destruct (argv_at_lt argv 2) as (a2 & Ha2 & Hl2); [lia|].
  destruct (argv_at_lt argv 3) as (a3 & Ha3 & Hl3); [lia|].
  destruct (argv_at_lt argv 4) as (a4 & Ha4 & Hl4); [lia|].
  rewrite Ha2, Ha3, Ha4 in H. cbn [obind] in H.
  assert (Hsame : forall i a, argv !! i = Some a -> Cli.argv_at (argv ++ [x]) i = Ret a).
  { intros i a Hi. unfold Cli.argv_at. now rewrite (lookup_app_l_Some _ _ _ _ Hi). }
  rewrite length_app. cbn [List.length].
  assert (E2 : (2 <=? List.length argv + 1)%nat = true) by (apply Nat.leb_le; lia).
  assert (E5 : (List.length argv + 1 <? 5)%nat = false) by (apply Nat.ltb_ge; lia).
  assert (E6 : (5 <? List.length argv + 1)%nat = true) by (apply Nat.ltb_lt; lia).
  rewrite E2, (Hsame _ _ Hl1). cbn [obind]. rewrite Hdev, E5.
  rewrite (Hsame _ _ Hl2), (Hsame _ _ Hl3), (Hsame _ _ Hl4). cbn [obind]. rewrite E6.
  rewrite skipn_app. replace (5 - List.length argv)%nat with 0%nat by lia.
  cbn [skipn].
  rewrite parse_options_unknown_last; [|exact Hx|rewrite length_skipn; lia].
  destruct (5 <? List.length argv)%nat eqn:E; [exact H|].
  apply Nat.ltb_ge in E.
  assert (Hnil : skipn 5 argv = []) by (apply skipn_all2; lia).
  rewrite Hnil. cbn [Cli.parse_options]. exact H.
Qed.

Lemma unknown_option_is_ignored_witness :
  Cli.command_of (["release_manager.py"; "my-bucket"; "assets/"; "out/"; "patch"] ++ ["--dev"])
  = Ret (Cli.Release
           (Cli.mkOptions "my-bucket" "assets/" "out/" "patch" true "ca-central-1" None false)).
Proof.
  apply (unknown_option_is_ignored
           ["release_manager.py"; "my-bucket"; "assets/"; "out/"; "patch"] "--dev");
    [reflexivity|].
  intros [H|[H|[H|H]]]; discriminate H.
Defined.

(** ** Tokens and names that are taken as they come *)

Lemma skip_digits_opt_app a s :
  PyStr.skip_digits_opt a <> "" ->
  PyStr.skip_digits_opt (a ++ s) = PyStr.skip_digits_opt a ++ s.
Proof.
  induction a as [|c a IH]; [easy|]. cbn [PyStr.skip_digits_opt].
  change (String c a ++ s) with (String c (a ++ s)). cbn [PyStr.skip_digits_opt].
  destruct (PyStr.is_digit c); [exact IH | reflexivity].
Qed.

Lemma skip_digits_app a r s :
  PyStr.skip_digits a = Some r -> r <> "" -> PyStr.skip_digits (a ++ s) = Some (r ++ s).
Proof.
  destruct a as [|c a]; [discriminate|]. cbn [PyStr.skip_digits].
  change (String c a ++ s) with (String c (a ++ s)). cbn [PyStr.skip_digits].
  destruct (PyStr.is_digit c); [|discriminate].
  intros [= <-] Hr. now rewrite skip_digits_opt_app.
Qed.

Lemma skip_digits_app_Some a r s :
  PyStr.skip_digits a = Some r -> exists r', PyStr.skip_digits (a ++ s) = Some r'.
Proof.
  destruct a as [|c a]; [discriminate|]. cbn [PyStr.skip_digits].
  change (String c a ++ s) with (String c (a ++ s)). cbn [PyStr.skip_digits].
  destruct (PyStr.is_digit c); [eauto | discriminate].
Qed.

Lemma skip_dot_inv a r : PyStr.skip_dot a = Some r -> a = String "." r.
Proof.
  destruct a as [|c a]; [discriminate|]. cbn [PyStr.skip_dot].
  destruct (Ascii.eqb_spec c ".") as [->|Hc].
  - now intros [= ->].
  - destruct c as [[] [] [] [] [] [] [] []]; try discriminate. now elim Hc.
Qed.

Lemma match_version_app token suffix :
  PyStr.match_version token = true -> PyStr.match_version (token ++ suffix) = true.
Proof.
  unfold PyStr.match_version.
  destruct (PyStr.skip_digits token) as [s1|] eqn:H1; cbn [mbind option_bind]; [|discriminate].
  destruct (PyStr.skip_dot s1) as [s2|] eqn:H2; cbn [mbind option_bind]; [|discriminate].
  destruct (PyStr.skip_digits s2) as [s3|] eqn:H3; cbn [mbind option_bind]; [|discriminate].
  destruct (PyStr.skip_dot s3) as [s4|] eqn:H4; cbn [mbind option_bind]; [|discriminate].
  destruct (PyStr.skip_digits s4) as [s5|] eqn:H5; [|discriminate]. intros _.
  apply skip_dot_inv in H2 as ->. apply skip_dot_inv in H4 as ->.
  rewrite (skip_digits_app _ _ suffix H1) by discriminate.
  change (String "." s2 ++ suffix) with (String "." (s2 ++ suffix)).
  cbn [mbind option_bind PyStr.skip_dot].
  rewrite (skip_digits_app _ _ suffix H3) by discriminate.
  change (String "." s4 ++ suffix) with (String "." (s4 ++ suffix)).
  cbn [mbind option_bind PyStr.skip_dot].
  now destruct (skip_digits_app_Some _ _ suffix H5) as [r' ->].
Qed.

(** X28: the pattern is matched at the start of the token only, so a
    token made of an accepted one and any suffix is accepted too, and the
    resolver returns it as it is, suffix included. *)
Theorem token_with_suffix_is_accepted objects token suffix :
  PyStr.match_version token = true ->
  get_release_config_version objects (token ++ suffix) = Ret (token ++ suffix).
Proof.
  intros H. apply get_release_config_version_matched. now apply match_version_app.
Qed.

Lemma token_with_suffix_is_accepted_witness :
  get_release_config_version listing_by_key ("1.0.0" ++ " (draft)") = Ret ("1.0.0" ++ " (draft)").
Proof. apply (token_with_suffix_is_accepted listing_by_key "1.0.0" " (draft)"). reflexivity. Defined.

Lemma startswith_slash (s : string) : PyStr.startswith "/" ("/" ++ s) = true.
Proof. reflexivity. Qed.

(** X29: the names of [only] are compared with the names of the assets
    preceded by a slash. When no name of [only] starts with a slash, no
    asset is selected: the run returns no record and leaves the bucket as
    it is. *)
Theorem only_needs_leading_slash env fs output_dir names compatible w ua cfgs w' :
  (forall s, s ∈ names -> PyStr.startswith "/" s = false) ->
  update_changed_assets env fs output_dir (Some names) compatible w = (Ret (ua, cfgs), w') ->
  ua = [] /\ w' = w.
Proof.
  intros Hnames H.
  apply update_changed_assets_inv in H as (ea & ec & assets & _ & _ & H).
  assert (Hnone : List.filter (allowed (Some names)) assets = []).
  { clear H. induction assets as [|[folder n] assets IH]; [reflexivity|].
    cbn [List.filter allowed snd].
    destruct (bool_decide_reflect ("/" ++ n ∈ names)) as [Hin|_]; [|exact IH].
    specialize (Hnames _ Hin). now rewrite startswith_slash in Hnames. }
  rewrite Hnone in H. cbn [sfold] in H. now injection H as <- _ <-.
Qed.

Lemma only_needs_leading_slash_witness :
  fst (update_changed_assets sample_env pair_fs "out" (Some {["b.txt"]}) false empty_world)
    = Ret ([], []) /\
  snd (update_changed_assets sample_env pair_fs "out" (Some {["b.txt"]}) false empty_world)
    = empty_world.
Proof.
  destruct (update_changed_assets sample_env pair_fs "out" (Some {["b.txt"]}) false empty_world)
    as [[[ua cfgs]|e] w'] eqn:Hrun; [|vm_compute in Hrun; discriminate Hrun].
  destruct (only_needs_leading_slash sample_env pair_fs "out" {["b.txt"]} false empty_world
              ua cfgs w') as [-> ->]; [|exact Hrun|].
  - intros s ->%elem_of_singleton. reflexivity.
  - split; [|reflexivity]. vm_compute in Hrun. now injection Hrun as <-.
Defined.
